(** * TailGuard tail-risk agent: signal aggregation, pricing, claims,
      rebalancing and the agent loop

    A shallow embedding of the decision code of the agent
    ([agent/risk_engine.py], [agent/llm_pricer.py], [agent/rebalancer.py],
    [agent/src/claude_agent.py], [agent/src/agent_loop.py]), of the server
    around it ([agent/main.py], [agent/claims_bot.py]) and of the volatility
    oracle the loop reads ([agent/src/volatility_oracle.py]), with the
    properties of it that the design document states and further properties
    read off the code.

    Numbers.  Python [int] is [Z].  Python [float] is modelled by the exact
    rationals [Q]: every formula below is the formula of the source, evaluated
    without the rounding error of IEEE doubles.  Equality of floats is [Qeq]
    ([==]).  [int(x)], [round(x)] and [round(x, n)] are written out in
    [Module Py]. *)

From Stdlib Require Import ZArith QArith Qround Qabs Lqa Lia.
From Stdlib Require Import List String Bool Permutation Sorted DecimalString.
Import ListNotations.

Local Open Scope Z_scope.
Local Open Scope Q_scope.

(** ** Python builtins *)

Module Py.

(** [int(x)] on a float: truncation toward zero. *)
Definition int (x : Q) : Z := Z.quot (Qnum x) (Zpos (Qden x)).

(** [round(x)]: the nearest integer, a tie going to the even neighbour. *)
Definition round (x : Q) : Z :=
  let f := Qfloor x in
  match Qcompare (x - inject_Z f) (1 # 2) with
  | Lt => f
  | Gt => (f + 1)%Z
  | Eq => if Z.even f then f else (f + 1)%Z
  end.

(** [round(x, n)]: [x] rounded to [n] decimal places. *)
Definition round_nd (x : Q) (n : nat) : Q :=
  inject_Z (round (x * inject_Z (10 ^ Z.of_nat n))) / inject_Z (10 ^ Z.of_nat n).

Definition min (a b : Q) : Q := if Qle_bool a b then a else b.
Definition max (a b : Q) : Q := if Qle_bool a b then b else a.

(** [min] and [max] on ints. *)
Definition imin (a b : Z) : Z := Z.min a b.
Definition imax (a b : Z) : Z := Z.max a b.

(** [sum(...)] over floats. *)
Definition sum (l : list Q) : Q := fold_left Qplus l 0.

(** Exceptions (instances of [Exception]) carry their message. *)
Inductive exn : Type :=
| ZeroDivisionError
| IndexError
| KeyError (key : string)
| Error (msg : string).

(** A computation that either returns or raises. *)
Definition result (A : Type) : Type := (exn + A)%type.

(** [a / b] on floats raises [ZeroDivisionError] when [b] is zero. *)
Definition div (a b : Q) : result Q :=
  if Qeq_bool b 0 then inl ZeroDivisionError else inr (a / b).

(** A [dict] with string keys keeps insertion order; an assignment to a
    key that is present replaces its value in place. *)
Definition dict (V : Type) : Type := list (string * V).

Fixpoint dict_get {V} (d : dict V) (k : string) : option V :=
  match d with
  | [] => None
  | (k', v) :: d' => if String.eqb k' k then Some v else dict_get d' k
  end.

Fixpoint dict_set {V} (d : dict V) (k : string) (v : V) : dict V :=
  match d with
  | [] => [(k, v)]
  | (k', v') :: d' =>
      if String.eqb k' k then (k', v) :: d' else (k', v') :: dict_set d' k v
  end.

Definition keys {V} (d : dict V) : list string := map fst d.
Definition values {V} (d : dict V) : list V := map snd d.

End Py.

(** ** Claim evaluation ([agent/src/claude_agent.py]) *)

Module ClaudeAgent.

(** The three shapes of dictionary [_tool_evaluate_claim] returns.  The
    [reason] text of a rejection is a formatted message and is left out. *)
Inductive tool_result : Type :=
| Invalid (reason : string)
| NotTriggered (policy_id : Z) (payout_eth actual_drop_pct required_drop_pct : Q)
| Approved (policy_id : Z)
           (payout_eth payout_ratio actual_drop_pct required_drop_pct : Q)
           (claimant : string).

Definition approved (r : tool_result) : bool :=
  match r with Approved _ _ _ _ _ _ => true | _ => false end.

(** [r.get("payout_eth")] and [r.get("payout_ratio")] *)
Definition payout_of (r : tool_result) : option Q :=
  match r with
  | Invalid _ => None
  | NotTriggered _ p _ _ => Some p
  | Approved _ p _ _ _ _ => Some p
  end.


Definition _tool_evaluate_claim
    (policy_id : Z) (claimant : string)
    (trigger_price original_price coverage_amount_eth trigger_threshold : Q)
    : tool_result :=
  if Qle_bool original_price 0 then Invalid "Invalid original price"
  else
    let actual_drop := (original_price - trigger_price) / original_price in
    let triggered := Qle_bool trigger_threshold actual_drop in
    if negb triggered then
      NotTriggered policy_id 0
        (Py.round_nd (actual_drop * 100) 2)
        (Py.round_nd (trigger_threshold * 100) 2)
    else
      let excess_drop := actual_drop - trigger_threshold in
      let payout_ratio := Py.min 1 ((1 # 2) + excess_drop * 2) in
      let payout_eth := Py.round_nd (coverage_amount_eth * payout_ratio) 6 in
      Approved policy_id payout_eth (Py.round_nd payout_ratio 4)
        (Py.round_nd (actual_drop * 100) 2)
        (Py.round_nd (trigger_threshold * 100) 2)
        claimant.

(** [models.ClaimRequest] and [models.ClaimDecision]. *)
Record ClaimRequest : Type := {
  req_policy_id : Z;
  req_claimant : string;
  trigger_price : Q;
  evidence_uri : string
}.

Record ClaimDecision : Type := {
  policy_id : Z;
  decision_approved : bool;
  payout_eth : Q;
  rejected : bool  (* [rejection_reason is not None] *)
}.

(** [ClaudeAgent.evaluate_claim].  The conversation with the language model
    ([_run_agentic_loop]) is an external call whose answer is discarded; it
    either returns or raises, and [llm] is that outcome. *)
Definition evaluate_claim
    (llm : option Py.exn) (claim : ClaimRequest)
    (original_price coverage_amount_eth trigger_threshold : Q)
    : Py.result ClaimDecision :=
  match llm with
  | Some e => inl e
  | None =>
      match Py.div (original_price - trigger_price claim) original_price with
      | inl e => inl e
      | inr actual_drop =>
          let triggered := Qle_bool trigger_threshold actual_drop in
          let payout :=
            if triggered then
              let excess := actual_drop - trigger_threshold in
              let payout_ratio := Py.min 1 ((1 # 2) + excess * 2) in
              Py.round_nd (coverage_amount_eth * payout_ratio) 6
            else 0 in
          inr {| policy_id := req_policy_id claim;
                 decision_approved := triggered;
                 payout_eth := payout;
                 rejected := negb triggered |}
      end
  end.

End ClaudeAgent.

(** ** Signal aggregation ([agent/risk_engine.py])

    The descriptions of the signals are kept up to their fixed text: the
    figures the source formats into them are left out, and its dashes are
    written [-]. *)

Module RiskEngine.

Record RiskSignal : Type := {
  name : string;
  value : Q;          (* raw signal value *)
  score : Z;          (* normalized 0-100 contribution *)
  weight : Q;         (* weight in the final score *)
  description : string
}.

(** What [get_current_risk] reports for one signal. *)
Record SignalView : Type := {
  view_value : Q;
  view_score : Z;
  view_description : string
}.

(** The five messages of [_get_recommendation], by their headline. *)
Inductive Recommendation : Type :=
| BLACK_SWAN | HIGH | ELEVATED | MODERATE | LOW.

Record CompositeRisk : Type := {
  risk_level : Z;
  black_swan_active : bool;
  signals : Py.dict SignalView;
  premium_multiplier : Q;
  recommendation : Recommendation
}.

(** What the network part of the three live fetchers produced: the body of
    the [try] block either raised (a failed or timed-out request, malformed
    data) or delivered the figures the score is computed from. *)
Record MarketData : Type := {
  (** annualized volatility of the hourly ETH returns *)
  annualized_vol : Py.result Q;
  (** the [totalLiquidityUSD] series, oldest first *)
  tvl_series : Py.result (list Q);
  (** the USD prices of usd-coin, tether and dai, where quoted *)
  stable_prices : Py.result (option Q * option Q * option Q)
}.

Definition _get_recommendation (risk_level : Z) : Recommendation :=
  if (80 <=? risk_level)%Z then BLACK_SWAN
  else if (60 <=? risk_level)%Z then HIGH
  else if (40 <=? risk_level)%Z then ELEVATED
  else if (20 <=? risk_level)%Z then MODERATE
  else LOW.

Section WithWeights.

(** [self.SIGNAL_WEIGHTS], the class attribute every method reads. *)
Variable SIGNAL_WEIGHTS : Py.dict Q.

(** [self.SIGNAL_WEIGHTS[k]] *)
Definition weight_of (k : string) : Py.result Q :=
  match Py.dict_get SIGNAL_WEIGHTS k with
  | Some w => inr w
  | None => inl (Py.KeyError k)
  end.

(** A signal built with the configured weight of [k]. *)
Definition signal_of (k : string) (v : Q) (s : Z) (d : string)
    : Py.result RiskSignal :=
  match weight_of k with
  | inr w => inr {| name := k; value := v; score := s; weight := w;
                    description := d |}
  | inl e => inl e
  end.

(** [try: body except Exception: handler] *)
Definition try_except {A} (body : Py.result A) (handler : Py.result A)
    : Py.result A :=
  match body with
  | inr a => inr a
  | inl _ => handler
  end.

Definition _get_realized_vol (m : MarketData) : Py.result RiskSignal :=
  try_except
    match annualized_vol m with
    | inl e => inl e
    | inr vol =>
        let score := Py.imin 100 (Py.int (vol * 100)) in
        signal_of "realized_vol" (Py.round_nd (vol * 100) 2) score
          "24h annualized ETH volatility"
    end
    (signal_of "realized_vol" 30 30
       "Using estimated volatility (live data unavailable)").

Definition _get_funding_rates : Py.result RiskSignal :=
  let simulated_rate := 3 # 10000 in
  let score :=
    Py.imin 100 (Py.int (Qabs simulated_rate / (1 # 1000) * 50)) in
  signal_of "funding_rates" simulated_rate score "ETH-PERP 8h funding rate".

Definition _get_liquidation_volume : Py.result RiskSignal :=
  let simulated_24h_liquidations_usd := 2500000%Z in
  let score :=
    Py.imin 100
      (Py.int (inject_Z simulated_24h_liquidations_usd / 100000000 * 100)) in
  signal_of "liquidation_vol" (inject_Z simulated_24h_liquidations_usd)
    score "24h liquidation volume".

Definition _get_tvl_drawdown (m : MarketData) : Py.result RiskSignal :=
  try_except
    match tvl_series m with
    | inl e => inl e
    | inr data =>
        let '(drawdown_pct, score) :=
          match rev data with
          | current_tvl :: prev_tvl :: _ =>
              let drawdown_pct :=
                if Qlt_le_dec 0 prev_tvl
                then (prev_tvl - current_tvl) / prev_tvl * 100
                else 0 in
              (drawdown_pct,
               Py.imin 100 (Py.imax 0 (Py.int (drawdown_pct * 10))))
          | _ => (0, 10%Z)
          end in
        signal_of "tvl_drawdown" (Py.round_nd drawdown_pct 2) score
          "Total DeFi TVL 24h change"
    end
    (signal_of "tvl_drawdown" 0 15
       "TVL data unavailable - using baseline").

Definition _get_stablecoin_depeg (m : MarketData) : Py.result RiskSignal :=
  try_except
    match stable_prices m with
    | inl e => inl e
    | inr (usdc, usdt, dai) =>
        let deviation (p : option Q) :=
          Qabs (match p with Some x => x | None => 1 end - 1) in
        let max_deviation :=
          Py.max (Py.max (deviation usdc) (deviation usdt)) (deviation dai) in
        let score := Py.imin 100 (Py.int (max_deviation * 10000)) in
        signal_of "stablecoin_depeg" (Py.round_nd (max_deviation * 100) 4)
          score "Max stablecoin depeg"
    end
    (signal_of "stablecoin_depeg" 0 5
       "Stablecoin data unavailable - pegs assumed stable").

Definition _get_bridge_anomaly : Py.result RiskSignal :=
  let simulated_anomaly_score := 10%Z in
  signal_of "bridge_anomaly" 0 simulated_anomaly_score
    "No bridge anomalies detected (monitoring Across, Hop, Stargate)".

(** [asyncio.gather(..., return_exceptions=True)]: one entry per fetcher,
    in the order of the call, an exception standing in for the signal of
    a fetcher that raised. *)
Definition gather (m : MarketData) : list (Py.result RiskSignal) :=
  [ _get_realized_vol m; _get_funding_rates; _get_liquidation_volume;
    _get_tvl_drawdown m; _get_stablecoin_depeg m; _get_bridge_anomaly ].

(** The neutral signal that stands in for a fetcher that raised. *)
Definition neutral (k : string) : Py.result RiskSignal :=
  signal_of k 0 25 "Signal unavailable - using neutral baseline".

(** The loop over [enumerate(signals)]: [names] is what is left of
    [signal_names] at the current index. *)
Fixpoint fill (names : list string) (results : list (Py.result RiskSignal))
    (valid : Py.dict RiskSignal) : Py.result (Py.dict RiskSignal) :=
  match results, names with
  | [], _ => inr valid
  | _ :: _, [] => inl Py.IndexError
  | r :: results', k :: names' =>
      match (match r with inl _ => neutral k | inr s => inr s end) with
      | inl e => inl e
      | inr s => fill names' results' (Py.dict_set valid k s)
      end
  end.

Definition valid_signals (results : list (Py.result RiskSignal))
    : Py.result (Py.dict RiskSignal) :=
  fill (Py.keys SIGNAL_WEIGHTS) results [].

(** The weighted average of the signals, before it is cut to an int. *)
Definition composite_score (valid : Py.dict RiskSignal) : Py.result Q :=
  let total_weight := Py.sum (map weight (Py.values valid)) in
  Py.div
    (Py.sum (map (fun s => inject_Z (score s) * weight s) (Py.values valid)))
    total_weight.

(** The body of [get_current_risk] after the [gather]. *)
Definition aggregate (results : list (Py.result RiskSignal))
    : Py.result CompositeRisk :=
  match valid_signals results with
  | inl e => inl e
  | inr valid =>
      match composite_score valid with
      | inl e => inl e
      | inr composite =>
          let risk_level := Py.int composite in
          let black_swan := (80 <=? risk_level)%Z in
          let premium_multiplier := 1 + (inject_Z risk_level / 100) * 4 in
          inr {| risk_level := risk_level;
                 black_swan_active := black_swan;
                 signals :=
                   map (fun '(k, v) =>
                          (k, {| view_value := value v;
                                 view_score := score v;
                                 view_description := description v |}))
                       valid;
                 premium_multiplier := Py.round_nd premium_multiplier 2;
                 recommendation := _get_recommendation risk_level |}
      end
  end.

Definition get_current_risk (m : MarketData) : Py.result CompositeRisk :=
  aggregate (gather m).

End WithWeights.

(** The class attribute as the source sets it. *)
Definition SIGNAL_WEIGHTS : Py.dict Q :=
  [ ("realized_vol", 20 # 100);
    ("funding_rates", 15 # 100);
    ("liquidation_vol", 20 # 100);
    ("tvl_drawdown", 20 # 100);
    ("stablecoin_depeg", 15 # 100);
    ("bridge_anomaly", 10 # 100) ]%string.

End RiskEngine.

(** ** Premium pricing ([agent/llm_pricer.py]) *)

Module LLMPricer.

(** Base annual premium rates by category (basis points). *)
Definition BASE_ANNUAL_RATES_BPS : Py.dict Z :=
  [ ("defi-protocol", 200%Z);
    ("stablecoin-depeg", 50%Z);
    ("bridge", 300%Z);
    ("liquidation", 150%Z);
    ("oracle-manipulation", 250%Z);
    ("governance-attack", 100%Z);
    ("general", 175%Z) ]%string.

(** [d.get(k, default)] *)
Definition get_or {V} (d : Py.dict V) (k : string) (default : V) : V :=
  match Py.dict_get d k with Some v => v | None => default end.

(** The entries of [current_risk] the quantitative part reads:
    [current_risk["risk_level"]] and
    [current_risk.get("premium_multiplier", 1.0)]. *)
Record CurrentRisk : Type := {
  cr_risk_level : Z;
  cr_premium_multiplier : option Q
}.

(** The numeric fields of the quote; the reasoning text, the risk factors
    and the validity time stamp are produced next to them. *)
Record Quote : Type := {
  coverage_amount : Q;
  premium_amount : Q;
  premium_rate_bps : Z;
  quote_risk_level : Z
}.

(** The rate in basis points [price_premium] charges. *)
Definition adjusted_rate_bps
    (risk_category : string) (duration_days : Z) (current_risk : CurrentRisk)
    : Z :=
  let base_rate_bps :=
    get_or BASE_ANNUAL_RATES_BPS risk_category
      (get_or BASE_ANNUAL_RATES_BPS "general" 0%Z) in
  let risk_multiplier :=
    match cr_premium_multiplier current_risk with
    | Some m => m
    | None => 1
    end in
  let adjusted_rate_bps := Py.int (inject_Z base_rate_bps * risk_multiplier) in
  if (180 <=? duration_days)%Z
  then Py.int (inject_Z adjusted_rate_bps * (85 # 100))
  else if (90 <=? duration_days)%Z
  then Py.int (inject_Z adjusted_rate_bps * (92 # 100))
  else adjusted_rate_bps.

(** The premium before it is rounded to cents for the quote. *)
Definition raw_premium_amount
    (coverage_amount : Q) (risk_category : string) (duration_days : Z)
    (current_risk : CurrentRisk) : Q :=
  let duration_factor := inject_Z duration_days / 365 in
  coverage_amount
  * inject_Z (adjusted_rate_bps risk_category duration_days current_risk)
  / 10000 * duration_factor.

Definition price_premium
    (coverage_amount : Q) (risk_category : string) (duration_days : Z)
    (current_risk : CurrentRisk) : Quote :=
  {| coverage_amount := coverage_amount;
     premium_amount :=
       Py.round_nd
         (raw_premium_amount coverage_amount risk_category duration_days
            current_risk) 2;
     premium_rate_bps :=
       adjusted_rate_bps risk_category duration_days current_risk;
     quote_risk_level := cr_risk_level current_risk |}.

End LLMPricer.

(** ** Defensive rebalancing ([agent/rebalancer.py]) *)

Module Rebalancer.

Definition RISK_THRESHOLDS_defensive : Z := 60.
Definition RISK_THRESHOLDS_emergency : Z := 80.

(** [sorted(items, key=..., reverse=True)] is a stable sort: entries with
    equal keys keep the order they had in [items], also under
    [reverse=True]. *)
Section Sorted.
Context {A : Type} (key : A -> Z).

Fixpoint insert_desc (x : A) (l : list A) : list A :=
  match l with
  | [] => [x]
  | y :: l' =>
      if (key y <=? key x)%Z then x :: y :: l' else y :: insert_desc x l'
  end.

Definition sorted_reverse (l : list A) : list A :=
  fold_right insert_desc [] l.
End Sorted.

(** [f"{n}"] for an int. *)
Definition str (n : Z) : string :=
  DecimalString.NilZero.string_of_int (Z.to_int n).

Record RebalancePlan : Type := {
  triggered_at_risk_level : Z;
  action : string;
  target_allocation : Py.dict Q;
  top_risk_signals : list string
}.

(** The three entries the plan lists, before they are formatted. *)
Definition top_entries (signals : Py.dict Z) : list (string * Z) :=
  firstn 3 (sorted_reverse snd signals).

(** [risk["risk_level"]] and the scores of [risk.get("signals", {})]. *)
Definition trigger_defensive_rebalance
    (risk_level : Z) (signals : Py.dict Z) : RebalancePlan :=
  let '(allocation, action) :=
    if (RISK_THRESHOLDS_emergency <=? risk_level)%Z then
      ([("USDC", 70 # 100); ("USDT", 20 # 100); ("DAI", 10 # 100);
        ("ETH", 0)]%string,
       "EMERGENCY: Full flight to stablecoins"%string)
    else if (RISK_THRESHOLDS_defensive <=? risk_level)%Z then
      ([("USDC", 40 # 100); ("USDT", 20 # 100); ("DAI", 10 # 100);
        ("ETH", 30 # 100)]%string,
       "DEFENSIVE: Reducing volatile exposure 70%"%string)
    else
      ([("USDC", 20 # 100); ("USDT", 10 # 100); ("DAI", 5 # 100);
        ("ETH", 65 # 100)]%string,
       "CAUTIOUS: Slight defensive tilt"%string) in
  {| triggered_at_risk_level := risk_level;
     action := action;
     target_allocation := allocation;
     top_risk_signals :=
       map (fun '(k, v) => (k ++ ": " ++ str v ++ "/100")%string)
           (top_entries signals) |}.

End Rebalancer.

(** ** The agent loop ([agent/src/agent_loop.py]) *)

Module AgentLoop.

(** [config.Settings], the fields the loop reads. *)
Record Settings : Type := {
  agent_id : Z;
  min_trust_score : Z;
  poll_interval_seconds : Z;
  volatility_update_interval : Z;
  auto_claim_enabled : bool
}.

(** [volatility_oracle.VolatilityReading] *)
Record VolatilityReading : Type := {
  value_bps : Z;
  realized_vol_pct : Q;
  source : string;
  regime : string
}.

(** What [BlockchainClient.get_policy] returns. *)
Record Policy : Type := {
  holder : string;
  coverage : Z;
  premium : Z;
  createdAt : Z;
  expiry : Z;
  triggerThreshold : Z;
  status : Z;
  agentId : Z
}.

(** [risk_engine.ClaimDecision] *)
Record ClaimDecision : Type := {
  should_pay : bool;
  confidence : Q;
  reasoning : string;
  supporting_signals : list string
}.

(** [self._stats] *)
Record Stats : Type := {
  cycles : Z;
  vol_updates : Z;
  claims_assessed : Z;
  claims_paid : Z;
  claims_rejected : Z;
  errors : Z
}.

(** The attributes of the loop object that change while it runs. *)
Record Loop : Type := {
  _running : bool;
  _last_vol_update : Q;
  _cycle_count : Z;
  _stats : Stats
}.

(** [AgentLoop.__init__] *)
Definition init : Loop :=
  {| _running := false;
     _last_vol_update := 0;
     _cycle_count := 0;
     _stats := {| cycles := 0; vol_updates := 0; claims_assessed := 0;
                  claims_paid := 0; claims_rejected := 0; errors := 0 |} |}.

(** What the loop does to the outside, in order: the request to pay a
    claim, together with the loop object as it is at that moment, the
    return of that request, a volatility update and the wait between two
    cycles. *)
Inductive Event : Type :=
| PayClaim (policy_id : Z) (self : Loop)
| PayClaimDone (policy_id : Z) (ok : bool)
| UpdateVolatility (volatility_bps : Z)
| Sleep (seconds : Z).

Definition zero_address : string :=
  "0x0000000000000000000000000000000000000000".

(** The chain, the oracle, the language model and the clock: each call
    answers from, and may change, the state [World] of the outside. *)
Record Collaborators (World : Type) : Type := {
  (** [blockchain.oracle.functions.getOverallScore(agent_id).call()] *)
  getOverallScore : Z -> World -> Py.result Z * World;
  (** [time.time()] *)
  time : World -> Q * World;
  (** [vol_oracle.get_volatility()] *)
  get_volatility : World -> Py.result VolatilityReading * World;
  (** [blockchain.update_volatility(agent_id, volatility_bps)] *)
  update_volatility : Z -> Z -> World -> Py.result string * World;
  (** [blockchain.get_volatility_index()] *)
  get_volatility_index : World -> Py.result Z * World;
  (** [blockchain.get_policy(policy_id)] *)
  get_policy : Z -> World -> Py.result Policy * World;
  (** [risk_engine.assess_claim(policy, volatility, market_context)] *)
  assess_claim :
    Policy -> VolatilityReading -> Z -> World ->
    Py.result ClaimDecision * World;
  (** [blockchain.pay_claim(agent_id, policy_id)] *)
  pay_claim : Z -> Z -> World -> Py.result string * World;
  (** [asyncio.sleep(seconds)]: while the loop waits (here or at any other
      [await] of the turn) another task may call [stop]; the answer says
      whether one did. *)
  sleep : Z -> World -> bool * World
}.

Arguments getOverallScore {World}.
Arguments time {World}.
Arguments get_volatility {World}.
Arguments update_volatility {World}.
Arguments get_volatility_index {World}.
Arguments get_policy {World}.
Arguments assess_claim {World}.
Arguments pay_claim {World}.
Arguments sleep {World}.

Section WithCollaborators.

Variable settings : Settings.
Variable World : Type.
Variable env : Collaborators World.

(** The loop object, the outside and what has been done to it so far. *)
Record State : Type := {
  self : Loop;
  world : World;
  trace : list Event
}.

(** A method of the loop: it returns or raises, and leaves a state. *)
Definition M (A : Type) : Type := State -> Py.result A * State.

Definition ret {A} (a : A) : M A := fun s => (inr a, s).

Definition bind {A B} (m : M A) (k : A -> M B) : M B :=
  fun s =>
    match m s with
    | (inl e, s') => (inl e, s')
    | (inr a, s') => k a s'
    end.

(** [try: m except Exception as e: h e] *)
Definition try_except {A} (m : M A) (h : Py.exn -> M A) : M A :=
  fun s =>
    match m s with
    | (inl e, s') => h e s'
    | (inr a, s') => (inr a, s')
    end.

Definition call {A} (f : World -> Py.result A * World) : M A :=
  fun s =>
    let '(r, w) := f (world s) in
    (r, {| self := self s; world := w; trace := trace s |}).

Definition emit (e : Event) : M unit :=
  fun s =>
    (inr tt, {| self := self s; world := world s;
                trace := trace s ++ [e] |}).

Definition read : M Loop := fun s => (inr (self s), s).

Definition update (f : Loop -> Loop) : M unit :=
  fun s =>
    (inr tt, {| self := f (self s); world := world s; trace := trace s |}).

Definition update_stats (f : Stats -> Stats) : M unit :=
  update (fun l => {| _running := _running l;
                      _last_vol_update := _last_vol_update l;
                      _cycle_count := _cycle_count l;
                      _stats := f (_stats l) |}).

Notation "x <- m ;; k" := (bind m (fun x => k))
  (at level 61, m at next level, right associativity).
Notation "m ;;; k" := (bind m (fun _ => k))
  (at level 61, right associativity).

Definition incr_claims_paid (t : Stats) : Stats :=
  {| cycles := cycles t; vol_updates := vol_updates t;
     claims_assessed := claims_assessed t;
     claims_paid := (claims_paid t + 1)%Z;
     claims_rejected := claims_rejected t; errors := errors t |}.

Definition incr_claims_rejected (t : Stats) : Stats :=
  {| cycles := cycles t; vol_updates := vol_updates t;
     claims_assessed := claims_assessed t;
     claims_paid := claims_paid t;
     claims_rejected := (claims_rejected t + 1)%Z; errors := errors t |}.

Definition incr_claims_assessed (t : Stats) : Stats :=
  {| cycles := cycles t; vol_updates := vol_updates t;
     claims_assessed := (claims_assessed t + 1)%Z;
     claims_paid := claims_paid t;
     claims_rejected := claims_rejected t; errors := errors t |}.

Definition incr_vol_updates (t : Stats) : Stats :=
  {| cycles := cycles t; vol_updates := (vol_updates t + 1)%Z;
     claims_assessed := claims_assessed t;
     claims_paid := claims_paid t;
     claims_rejected := claims_rejected t; errors := errors t |}.

Definition incr_errors (t : Stats) : Stats :=
  {| cycles := cycles t; vol_updates := vol_updates t;
     claims_assessed := claims_assessed t;
     claims_paid := claims_paid t;
     claims_rejected := claims_rejected t; errors := (errors t + 1)%Z |}.

Definition set_cycles (n : Z) (t : Stats) : Stats :=
  {| cycles := n; vol_updates := vol_updates t;
     claims_assessed := claims_assessed t;
     claims_paid := claims_paid t;
     claims_rejected := claims_rejected t; errors := errors t |}.

(** [self.blockchain.pay_claim(settings.agent_id, policy_id)]: the call
    returns once the transaction is confirmed or has failed. *)
Definition submit_claim (policy_id : Z) : M string :=
  me <- read ;;
  emit (PayClaim policy_id me) ;;;
  try_except
    (tx <- call (pay_claim env (agent_id settings) policy_id) ;;
     emit (PayClaimDone policy_id true) ;;;
     ret tx)
    (fun e => emit (PayClaimDone policy_id false) ;;; (fun s => (inl e, s))).

Definition _execute_claim (policy_id : Z) (decision : ClaimDecision)
    : M unit :=
  try_except
    (_ <- submit_claim policy_id ;;
     update_stats incr_claims_paid)
    (fun _ => update_stats incr_claims_rejected).

(** How one turn of the [for] loop of [_scan_policies] ends. *)
Inductive Flow : Type := Break | Continue.

(** The body of the [for] loop, with its [try]/[except]. *)
Definition scan_policy (current_vol : Z) (vol_reading : VolatilityReading)
    (policy_id : Z) : M Flow :=
  try_except
    (policy <- call (get_policy env policy_id) ;;
     if String.eqb (holder policy) zero_address then ret Break
     else if negb (status policy =? 0)%Z then ret Continue
     else if (current_vol <? triggerThreshold policy)%Z then ret Continue
     else
       update_stats incr_claims_assessed ;;;
       decision <- call (assess_claim env policy vol_reading current_vol) ;;
       (if should_pay decision && Qle_bool (7 # 10) (confidence decision)
        then _execute_claim policy_id decision
        else ret tt) ;;;
       ret Continue)
    (fun _ => ret Continue).

Fixpoint scan (current_vol : Z) (vol_reading : VolatilityReading)
    (ids : list Z) : M unit :=
  match ids with
  | [] => ret tt
  | policy_id :: ids' =>
      flow <- scan_policy current_vol vol_reading policy_id ;;
      match flow with
      | Break => ret tt
      | Continue => scan current_vol vol_reading ids'
      end
  end.

(** [range(1, 101)] *)
Definition policy_ids : list Z := map Z.of_nat (seq 1 100).

Definition _scan_policies : M unit :=
  current_vol <- call (get_volatility_index env) ;;
  vol_reading <- call (get_volatility env) ;;
  scan current_vol vol_reading policy_ids.

(** The [except] clause of [_update_volatility] logs and raises the
    error again, so the error leaves the method as it came. *)
Definition _update_volatility : M unit :=
  reading <- call (get_volatility env) ;;
  _ <- (emit (UpdateVolatility (value_bps reading)) ;;;
        call (update_volatility env (agent_id settings)
                (value_bps reading))) ;;
  now <- call (fun w => let '(t, w') := time env w in (inr t, w')) ;;
  update (fun l => {| _running := _running l;
                      _last_vol_update := now;
                      _cycle_count := _cycle_count l;
                      _stats := _stats l |}) ;;;
  update_stats incr_vol_updates.

Definition _cycle : M unit :=
  update (fun l => {| _running := _running l;
                      _last_vol_update := _last_vol_update l;
                      _cycle_count := (_cycle_count l + 1)%Z;
                      _stats := set_cycles (_cycle_count l + 1)%Z
                                  (_stats l) |}) ;;;
  trust_score <- call (getOverallScore env (agent_id settings)) ;;
  if (trust_score <? min_trust_score settings)%Z then ret tt
  else
    now <- call (fun w => let '(t, w') := time env w in (inr t, w')) ;;
    me <- read ;;
    (if Qle_bool (inject_Z (volatility_update_interval settings))
                 (now - _last_vol_update me)
     then _update_volatility else ret tt) ;;;
    if auto_claim_enabled settings then _scan_policies else ret tt.

(** [start] and [stop] *)
Definition set_running (b : bool) : M unit :=
  update (fun l => {| _running := b;
                      _last_vol_update := _last_vol_update l;
                      _cycle_count := _cycle_count l;
                      _stats := _stats l |}).

Definition stop : M unit := set_running false.

(** One turn of the [while] loop of [_run]. *)
Definition run_once : M unit :=
  try_except _cycle (fun _ => update_stats incr_errors) ;;;
  emit (Sleep (poll_interval_seconds settings)) ;;;
  stopped <- call (fun w =>
               let '(b, w') :=
                 sleep env (poll_interval_seconds settings) w in
               (inr b, w')) ;;
  if stopped : bool then stop else ret tt.

(** [_run], unfolded at most [fuel] times. *)
Fixpoint _run (fuel : nat) : M unit :=
  match fuel with
  | O => ret tt
  | S fuel' =>
      me <- read ;;
      if _running me then run_once ;;; _run fuel' else ret tt
  end.

Definition start (fuel : nat) : M unit := set_running true ;;; _run fuel.

End WithCollaborators.

Arguments self {World}.
Arguments world {World}.
Arguments trace {World}.
Arguments ret {World A}.
Arguments bind {World A B}.
Arguments try_except {World A}.
Arguments call {World A}.
Arguments emit {World}.
Arguments read {World}.
Arguments update {World}.
Arguments update_stats {World}.
Arguments set_running {World}.
Arguments stop {World}.
Arguments submit_claim settings {World}.
Arguments _execute_claim settings {World}.
Arguments scan_policy settings {World}.
Arguments scan settings {World}.
Arguments _scan_policies settings {World}.
Arguments _update_volatility settings {World}.
Arguments _cycle settings {World}.
Arguments run_once settings {World}.
Arguments _run settings {World}.
Arguments start settings {World}.

(** *** What a method leaves behind *)

(** [m] leaves the part [proj] of the loop object as it found it. *)
Definition keeps {World A X} (proj : Loop -> X) (m : M World A) : Prop :=
  forall s, proj (self (snd (m s))) = proj (self s).

(** What a cycle never writes: the error counter and the running flag. *)
Definition guarded (l : Loop) : Z * bool := (errors (_stats l), _running l).

(** *** What a trace says about claim payments *)

(** The policies a payment was requested for, in order. *)
Fixpoint submitted (t : list Event) : list Z :=
  match t with
  | [] => []
  | PayClaim policy_id _ :: t' => policy_id :: submitted t'
  | _ :: t' => submitted t'
  end.

(** Every request to pay is followed at once by its own return: no request
    is made while another is in progress. *)
Fixpoint settled (t : list Event) : Prop :=
  match t with
  | [] => True
  | PayClaim p _ :: t' =>
      match t' with
      | PayClaimDone p' _ :: t'' => p = p' /\ settled t''
      | _ => False
      end
  | PayClaimDone _ _ :: _ => False
  | _ :: t' => settled t'
  end.

(** The payments of a scan over [ids]: for each id in turn, none, or one
    request and its return. *)
Inductive scan_trace : list Z -> list Event -> Prop :=
| scan_done ids : scan_trace ids []
| scan_skip id ids t : scan_trace ids t -> scan_trace (id :: ids) t
| scan_pay id ids me ok t :
    scan_trace ids t ->
    scan_trace (id :: ids) (PayClaim id me :: PayClaimDone id ok :: t).

(** *** Two outsides to run the loop against *)

Definition stressed : VolatilityReading :=
  {| value_bps := 8000; realized_vol_pct := 80; source := "mock";
     regime := "black_swan" |}.

(** A chain with one active policy, number 1, whose trigger is met, a model
    that is sure the claim is to be paid, and requests that all succeed. *)
Definition healthy : Collaborators unit :=
  {| getOverallScore := fun _ w => (inr 9000%Z, w);
     time := fun w => (1000, w);
     get_volatility := fun w => (inr stressed, w);
     update_volatility := fun _ _ w => (inr "0xaa"%string, w);
     get_volatility_index := fun w => (inr 8000%Z, w);
     get_policy := fun id w =>
       (inr {| holder := if (id =? 1)%Z then "0xA1"%string else zero_address;
               coverage := 1000000; premium := 3000; createdAt := 0;
               expiry := 100; triggerThreshold := 7500; status := 0;
               agentId := 1 |}, w);
     assess_claim := fun _ _ _ w =>
       (inr {| should_pay := true; confidence := 9 # 10;
               reasoning := "threshold exceeded";
               supporting_signals := [] |}, w);
     pay_claim := fun _ _ w => (inr "0xbb"%string, w);
     sleep := fun _ w => (false, w) |}.

(** The same chain with the trust oracle out of reach. *)
Definition oracle_down : Collaborators unit :=
  {| getOverallScore := fun _ w => (inl (Py.Error "connection refused"), w);
     time := time healthy;
     get_volatility := get_volatility healthy;
     update_volatility := update_volatility healthy;
     get_volatility_index := get_volatility_index healthy;
     get_policy := get_policy healthy;
     assess_claim := assess_claim healthy;
     pay_claim := pay_claim healthy;
     sleep := sleep healthy |}.

Definition defaults : Settings :=
  {| agent_id := 1; min_trust_score := 6000; poll_interval_seconds := 60;
     volatility_update_interval := 300; auto_claim_enabled := true |}.

(** The loop object after [start] has set [_running]. *)
Definition started : State unit :=
  {| self := {| _running := true; _last_vol_update := 0; _cycle_count := 0;
                _stats := _stats init |};
     world := tt; trace := [] |}.

End AgentLoop.

(** ** The formulas of the design document

    These definitions follow the wording of the document, not the code; the
    properties below compare the two. *)

Module Design.

(** *** Claim decision *)

Definition actualDrop (originalPrice triggerPrice : Q) : Q :=
  (originalPrice - triggerPrice) / originalPrice.

Definition triggered (originalPrice triggerPrice triggerThreshold : Q) : bool :=
  Qle_bool triggerThreshold (actualDrop originalPrice triggerPrice).



(** *** Composite risk *)

Fixpoint weightedSum (weights : list Q) (scores : list Z) : Q :=
  match weights, scores with
  | w :: weights', s :: scores' => inject_Z s * w + weightedSum weights' scores'
  | _, _ => 0
  end.

Fixpoint totalWeight (weights : list Q) : Q :=
  match weights with
  | [] => 0
  | w :: weights' => w + totalWeight weights'
  end.

Definition weightedAverage (weights : list Q) (scores : list Z) : Q :=
  weightedSum weights scores / totalWeight weights.

Definition clamp (n : Z) : Z := Z.max 0 (Z.min 100 n).

(** [round(sum(score_i * weight_i) / sum(weight_i))], clamped to [0,100] *)
Definition riskLevel (weights : list Q) (scores : list Z) : Z :=
  clamp (Py.round (weightedAverage weights scores)).

(** The score of the neutral fallback signal. *)
Definition fallbackScore : Z := 25.

(** *** Premium quote *)

(** [BASE_RATES[category]], the "general" rate for an unknown category *)
Definition baseRateBps (category : string) : Z :=
  match Py.dict_get LLMPricer.BASE_ANNUAL_RATES_BPS category with
  | Some rate => rate
  | None => 175
  end.

Definition durationDiscount (durationDays : Z) : Q :=
  if (180 <=? durationDays)%Z then 85 # 100
  else if (90 <=? durationDays)%Z then 92 # 100
  else 1.



(** *** Rebalance plan *)

(** [a] is listed before [b]: the higher score first, and of two equal
    scores the name that comes first in ascending order. *)
Definition listedBefore (a b : string * Z) : bool :=
  (snd b <? snd a)%Z || ((snd a =? snd b)%Z && String.leb (fst a) (fst b)).

Fixpoint insertOrdered (x : string * Z) (l : list (string * Z)) :=
  match l with
  | [] => [x]
  | y :: l' =>
      if listedBefore x y then x :: y :: l' else y :: insertOrdered x l'
  end.

(** The 3 highest-scoring entries, ties broken by signal name ascending. *)
Definition topSignals (signals : Py.dict Z) : list (string * Z) :=
  firstn 3 (fold_right insertOrdered [] signals).

End Design.

(** ** One aggregation cycle

    The vocabulary the properties of the aggregator are stated in. *)

Module Cycle.

Import RiskEngine.

(** The results of a cycle over the sources of a weight table: one per
    source, an exception or a signal that carries the configured weight of
    its source. *)
Definition results_of (weights : Py.dict Q)
    (results : list (Py.result RiskSignal)) : Prop :=
  Forall2 (fun kw r => match r with
                       | inr s => weight s = snd kw
                       | inl _ => True
                       end) weights results.

(** Every fetched signal has a score in [0,100]. *)
Definition in_range (results : list (Py.result RiskSignal)) : Prop :=
  Forall (fun r => match r with
                   | inr s => (0 <= score s <= 100)%Z
                   | inl _ => True
                   end) results.

(** The score each source contributes: its own, or that of the fallback. *)
Definition scores (results : list (Py.result RiskSignal)) : list Z :=
  map (fun r => match r with
                | inr s => score s
                | inl _ => Design.fallbackScore
                end) results.

(** The signal that enters the average for the source [kw]. *)
Definition chosen (kw : string * Q) (r : Py.result RiskSignal) : RiskSignal :=
  match r with
  | inr s => s
  | inl _ => {| name := fst kw; value := 0; score := 25; weight := snd kw;
                description := "Signal unavailable - using neutral baseline" |}
  end.

Definition chosen_all (weights : Py.dict Q)
    (results : list (Py.result RiskSignal)) : Py.dict RiskSignal :=
  map (fun p => (fst (fst p), chosen (fst p) (snd p))) (combine weights results).

End Cycle.

(** ** The monitoring loop of the server ([agent/main.py]) *)

Module Monitor.

(** What one turn of [monitor_loop] asks of the other components. *)
Inductive Action : Type :=
| Rebalance (risk_level : Z)
| UpdateVaultRisk (risk_level : Z) (black_swan : bool) (multiplier_bps : Z)
| ProcessPendingClaims.

(** The body of the [try] once the risk is known. *)
Definition on_risk (risk : RiskEngine.CompositeRisk) : list Action :=
  let risk_level := RiskEngine.risk_level risk in
  let multiplier_bps :=
    Py.int (10000 * RiskEngine.premium_multiplier risk) in
  (if (80 <=? risk_level)%Z then
     [Rebalance risk_level; UpdateVaultRisk risk_level true multiplier_bps]
   else if (60 <=? risk_level)%Z then
     [UpdateVaultRisk risk_level false multiplier_bps]
   else [])
  ++ [ProcessPendingClaims].

(** One turn of the [while True] loop, up to the sleep: an error of the
    engine is logged and nothing is asked. *)
Definition monitor_step (m : RiskEngine.MarketData) : list Action :=
  match RiskEngine.get_current_risk RiskEngine.SIGNAL_WEIGHTS m with
  | inr risk => on_risk risk
  | inl _ => []
  end.

End Monitor.

(** ** The risk factors of a quote ([agent/llm_pricer.py]) *)

Module PricerFactors.

Definition category_factors : Py.dict (list string) :=
  [ ("defi-protocol",
     ["Smart contract exploit risk"; "Flash loan attack vector"]);
    ("stablecoin-depeg",
     ["Collateral backing uncertainty"; "Regulatory intervention risk"]);
    ("bridge",
     ["Cross-chain message validation"; "Validator key compromise"]);
    ("liquidation",
     ["Leverage cascade risk"; "Oracle price manipulation"]);
    ("oracle-manipulation",
     ["Price feed manipulation"; "Sandwich attack exposure"]);
    ("governance-attack",
     ["Flash loan governance"; "Voter apathy risk"]) ]%string.

(** [signals.get(k, {}).get("score", 0)]: [signals] holds, under the name
    of a signal, the ["score"] entry of its dictionary where it has one. *)
Definition score_of (signals : Py.dict (option Z)) (k : string) : Z :=
  match Py.dict_get signals k with
  | Some (Some s) => s
  | _ => 0%Z
  end.

(** [if c: factors.append(factor)] *)
Definition append_if (c : bool) (factor : string) (factors : list string)
    : list string :=
  if c then factors ++ [factor] else factors.

(** [signals] is [current_risk.get("signals", {})]. *)
Definition _identify_risk_factors
    (risk_category : string) (signals : Py.dict (option Z)) : list string :=
  let factors :=
    LLMPricer.get_or category_factors risk_category
      ["General DeFi protocol risk"%string] in
  let factors :=
    append_if (50 <? score_of signals "realized_vol")%Z
      "Elevated realized volatility" factors in
  let factors :=
    append_if (40 <? score_of signals "liquidation_vol")%Z
      "Active liquidation cascades" factors in
  let factors :=
    append_if (20 <? score_of signals "stablecoin_depeg")%Z
      "Stablecoin peg stress detected" factors in
  let factors :=
    append_if (30 <? score_of signals "bridge_anomaly")%Z
      "Bridge outflow anomaly" factors in
  firstn 5 factors.

End PricerFactors.

(** ** The quote route of the server ([agent/main.py]) *)

Module Server.

Record PremiumQuoteRequest : Type := {
  coverage_amount : Q;
  risk_category : string;
  protocol_address : option string;
  duration_days : Z
}.

(** The numeric fields and the risk factors of [PremiumQuoteResponse]; the
    reasoning text and the validity time stamp come with them. *)
Record PremiumQuoteResponse : Type := {
  quote : LLMPricer.Quote;
  risk_factors : list string
}.

(** What [price_premium] reads in the dictionary of [get_current_risk]. *)
Definition current_risk_of (risk : RiskEngine.CompositeRisk)
    : LLMPricer.CurrentRisk :=
  {| LLMPricer.cr_risk_level := RiskEngine.risk_level risk;
     LLMPricer.cr_premium_multiplier :=
       Some (RiskEngine.premium_multiplier risk) |}.

Definition signals_of (risk : RiskEngine.CompositeRisk)
    : Py.dict (option Z) :=
  map (fun '(k, v) => (k, Some (RiskEngine.view_score v)))
      (RiskEngine.signals risk).

(** [get_premium_quote]: the current risk is fetched, then the premium is
    priced on it. *)
Definition get_premium_quote
    (m : RiskEngine.MarketData) (req : PremiumQuoteRequest)
    : Py.result PremiumQuoteResponse :=
  match RiskEngine.get_current_risk RiskEngine.SIGNAL_WEIGHTS m with
  | inl e => inl e
  | inr current_risk =>
      inr {| quote :=
               LLMPricer.price_premium (coverage_amount req)
                 (risk_category req) (duration_days req)
                 (current_risk_of current_risk);
             risk_factors :=
               PricerFactors._identify_risk_factors (risk_category req)
                 (signals_of current_risk) |}
  end.

End Server.

(** ** The volatility oracle ([agent/src/volatility_oracle.py]) *)

Module VolatilityOracle.

Record VolatilityReading : Type := {
  value_bps : Z;
  realized_vol_pct : Q;
  source : string;
  timestamp : Q;
  assets : list string;
  regime : string
}.

Definition ASSETS : list string := ["bitcoin"; "ethereum"]%string.

(** The attributes of the oracle object. *)
Record Oracle : Type := {
  _last_reading : option VolatilityReading;
  _cache_ttl : Q
}.

(** [VolatilityOracle.__init__] *)
Definition init : Oracle := {| _last_reading := None; _cache_ttl := 300 |}.

(** The clock, the price API and the random generator. *)
Record Outside (World : Type) : Type := {
  (** [time.time()] *)
  time : World -> Q * World;
  (** the requests of [_fetch_coingecko] and the composite volatility computed
      from the price histories they deliver, or the error they end with *)
  composite_vol : World -> Py.result Q * World;
  (** [random.uniform(a, b)] *)
  uniform : Q -> Q -> World -> Q * World
}.

Arguments time {World}.
Arguments composite_vol {World}.
Arguments uniform {World}.

Section WithOutside.

Variable World : Type.
Variable env : Outside World.

Definition regime_of (value_bps : Z) : string :=
  if (value_bps <? 2000)%Z then "calm"
  else if (value_bps <? 5000)%Z then "elevated"
  else if (value_bps <? 7500)%Z then "stress"
  else "black_swan".

Definition _vol_to_reading (vol_pct : Q) (source : string) (w : World)
    : VolatilityReading * World :=
  let value_bps := Py.imin (Py.int (vol_pct * 100)) 10000 in
  let regime := regime_of value_bps in
  let '(now, w') := time env w in
  ({| value_bps := value_bps;
      realized_vol_pct := vol_pct;
      source := source;
      timestamp := now;
      assets := ASSETS;
      regime := regime |}, w').

Definition _mock_reading (w : World) : VolatilityReading * World :=
  let '(vol_pct, w') := uniform env 30 80 w in
  _vol_to_reading vol_pct "mock" w'.

Definition _fetch_coingecko (w : World)
    : Py.result VolatilityReading * World :=
  match composite_vol env w with
  | (inl e, w') => (inl e, w')
  | (inr composite_vol, w') =>
      let '(reading, w'') := _vol_to_reading composite_vol "coingecko" w' in
      (inr reading, w'')
  end.

(** The part of [get_volatility] after the cache test: the fetch, the
    mock reading when it fails, and the assignment to [_last_reading]. *)
Definition refresh (self : Oracle) (w : World)
    : VolatilityReading * Oracle * World :=
  let '(reading, w') :=
    match _fetch_coingecko w with
    | (inr reading, w') => (reading, w')
    | (inl _, w') => _mock_reading w'
    end in
  (reading,
   {| _last_reading := Some reading; _cache_ttl := _cache_ttl self |},
   w').

Definition get_volatility (self : Oracle) (w : World)
    : VolatilityReading * Oracle * World :=
  let '(now, w0) := time env w in
  match _last_reading self with
  | Some last =>
      if negb (Qle_bool (_cache_ttl self) (now - timestamp last))
      then (last, self, w0)
      else refresh self w0
  | None => refresh self w0
  end.

End WithOutside.

Arguments _vol_to_reading {World}.
Arguments _mock_reading {World}.
Arguments _fetch_coingecko {World}.
Arguments refresh {World}.
Arguments get_volatility {World}.

(** An outside with a clock that ticks one second per reading, a price API
    that is down and a generator that returns the middle of the range. *)
Definition api_down : Outside Q :=
  {| time := fun w => (w, w + 1);
     composite_vol := fun w => (inl (Py.Error "timeout"), w);
     uniform := fun a b w => ((a + b) / 2, w) |}.

End VolatilityOracle.

(** ** The claims store of the server ([agent/claims_bot.py]) *)

Module ClaimsBot.

Record Claim : Type := {
  claim_id : Z;
  policy_id : Z;
  requested_amount : Q;
  evidence : string;
  incident_timestamp : string;
  status : string;
  validation_request_id : option string
}.

(** The module globals [_pending_claims] and [_next_claim_id]. *)
Record Store : Type := {
  _pending_claims : list (Z * Claim);
  _next_claim_id : Z
}.

Definition empty : Store := {| _pending_claims := []; _next_claim_id := 0 |}.

(** [d[k]] and [d[k] = v] on a dictionary with integer keys. *)
Fixpoint lookup (d : list (Z * Claim)) (k : Z) : option Claim :=
  match d with
  | [] => None
  | (k', v) :: d' => if (k' =? k)%Z then Some v else lookup d' k
  end.

Fixpoint assign (d : list (Z * Claim)) (k : Z) (v : Claim)
    : list (Z * Claim) :=
  match d with
  | [] => [(k, v)]
  | (k', v') :: d' =>
      if (k' =? k)%Z then (k', v) :: d' else (k', v') :: assign d' k v
  end.

(** What [submit_claim] answers. *)
Record Receipt : Type := {
  receipt_claim_id : Z;
  receipt_status : string;
  message : string
}.

Definition submit_claim
    (policy_id : Z) (requested_amount : Q)
    (evidence incident_timestamp : string) (st : Store) : Receipt * Store :=
  let claim_id := _next_claim_id st in
  let claim :=
    {| claim_id := claim_id;
       policy_id := policy_id;
       requested_amount := requested_amount;
       evidence := evidence;
       incident_timestamp := incident_timestamp;
       status := "pending_validation";
       validation_request_id := None |} in
  ({| receipt_claim_id := claim_id;
      receipt_status := "pending_validation";
      message := "Claim submitted to ERC-8004 Validation Registry" |},
   {| _pending_claims := assign (_pending_claims st) claim_id claim;
      _next_claim_id := (claim_id + 1)%Z |}).

(** [get_claim_status]: the stored claim, or the answer
    [{"error": "Claim not found"}]. *)
Definition get_claim_status (claim_id : Z) (st : Store) : string + Claim :=
  match lookup (_pending_claims st) claim_id with
  | Some claim => inr claim
  | None => inl "Claim not found"%string
  end.

(** A value is truthy unless it is [None] or the empty string. *)
Definition truthy (v : option string) : bool :=
  match v with
  | Some s => negb (String.eqb s "")
  | None => false
  end.

(** [process_pending_claims] writes nothing: it goes through the claims and
    logs the ones it would ask the registry about, which are returned
    here. *)
Definition process_pending_claims (st : Store) : list Z :=
  map fst
    (filter (fun '(_, claim) =>
               String.eqb (status claim) "pending_validation"
               && truthy (validation_request_id claim))
            (_pending_claims st)).

(** What the routes of the server do with the store. *)
Inductive Request : Type :=
| Submit (policy_id : Z) (requested_amount : Q)
         (evidence incident_timestamp : string)
| Status (claim_id : Z)
| Process.

Definition serve (r : Request) (st : Store) : Store :=
  match r with
  | Submit policy_id requested_amount evidence incident_timestamp =>
      snd (submit_claim policy_id requested_amount evidence
             incident_timestamp st)
  | Status _ => st
  | Process => st
  end.

Definition serve_all (rs : list Request) (st : Store) : Store :=
  fold_left (fun st r => serve r st) rs st.

(** How many claims a list of requests submits. *)
Fixpoint submissions (rs : list Request) : Z :=
  match rs with
  | [] => 0
  | Submit _ _ _ _ :: rs' => (1 + submissions rs')%Z
  | _ :: rs' => submissions rs'
  end.

(** A claim as [submit_claim] stores it under [id]. *)
Definition pending_under (id : Z) (claim : Claim) : Prop :=
  claim_id claim = id /\
  status claim = "pending_validation"%string /\
  validation_request_id claim = None.

(** The claims stored are the claims number 0 up to [_next_claim_id],
    each as it was submitted. *)
Definition consistent (st : Store) : Prop :=
  (0 <= _next_claim_id st)%Z /\
  Forall (fun '(id, claim) => pending_under id claim) (_pending_claims st) /\
  forall id,
    (0 <= id < _next_claim_id st)%Z
    <-> exists claim, lookup (_pending_claims st) id = Some claim.

End ClaimsBot.

(** ** The books of the agent loop *)

Module Ledger.

Import AgentLoop.

(** How many of the payments in a trace came back confirmed ([ok]) or
    failed. *)
Fixpoint returned (ok : bool) (t : list Event) : Z :=
  match t with
  | [] => 0
  | PayClaimDone _ b :: t' =>
      ((if Bool.eqb b ok then 1 else 0) + returned ok t')%Z
  | _ :: t' => returned ok t'
  end.

(** Between [s] and [s'] the counters moved as the payments did, and
    nothing but payments was counted as paid or rejected. *)
Definition balanced {World} (s s' : State World) : Prop :=
  exists new,
    trace s' = trace s ++ new /\
    claims_paid (_stats (self s'))
    = (claims_paid (_stats (self s)) + returned true new)%Z /\
    claims_rejected (_stats (self s'))
    = (claims_rejected (_stats (self s)) + returned false new)%Z /\
    (claims_assessed (_stats (self s))
     + returned true new + returned false new
     <= claims_assessed (_stats (self s')))%Z.

(** Between [s] and [s'] payments were requested for [allowed] policies
    only. *)
Definition pays_only (allowed : Z -> Prop) {World} (s s' : State World)
    : Prop :=
  exists new,
    trace s' = trace s ++ new /\
    forall p, In p (submitted new) -> allowed p.

(** The three counters of the claims. *)
Definition claim_counters (l : Loop) : Z * Z * Z :=
  (claims_assessed (_stats l), claims_paid (_stats l),
   claims_rejected (_stats l)).

(** The two places the number of cycles is kept in. *)
Definition ticks (l : Loop) : Z * Z := (_cycle_count l, cycles (_stats l)).

(** Every run of [m] leaves a state related by [R] to the one it started
    in. *)
Definition steps {World A} (R : State World -> State World -> Prop)
    (m : M World A) : Prop :=
  forall s, R s (snd (m s)).

End Ledger.

(** * Properties *)

(** ** Facts about the builtins *)

Lemma int_nonneg (x : Q) : 0 <= x -> Py.int x = Qfloor x.
Proof.
  destruct x as [n d]; unfold Qle, Py.int, Qfloor; simpl; intros H.
  apply Z.quot_div_nonneg; lia.
Qed.

Lemma int_of_Z (n : Z) : Py.int (inject_Z n) = n.
Proof. unfold Py.int, inject_Z; simpl. apply Z.quot_1_r. Qed.

Lemma round_between (x : Q) :
  (Qfloor x <= Py.round x <= Qfloor x + 1)%Z.
Proof.
  unfold Py.round.
  destruct (Qcompare _ _); try destruct (Z.even _); lia.
Qed.


Lemma round_ge (x : Q) (n : Z) : inject_Z n <= x -> (n <= Py.round x)%Z.
Proof.
  intros H. pose proof (round_between x).
  assert (n <= Qfloor x)%Z by (apply Qfloor_resp_le in H; rewrite Qfloor_Z in H; exact H).
  lia.
Qed.

Lemma round_le (x : Q) (n : Z) : x <= inject_Z n -> (Py.round x <= n)%Z.
Proof.
  intros H. unfold Py.round.
  pose proof (Qfloor_le x) as Hlo.
  assert (Hf : (Qfloor x <= n)%Z)
    by (apply Qfloor_resp_le in H; rewrite Qfloor_Z in H; exact H).
  destruct (Z.eq_dec (Qfloor x) n) as [->|Hne].
  - assert (x - inject_Z n <= 0) by lra.
    destruct (Qcompare (x - inject_Z n) (1 # 2)) eqn:E.
    + apply Qeq_alt in E. lra.
    + lia.
    + apply Qgt_alt in E. lra.
  - destruct (Qcompare _ _); try destruct (Z.even _); lia.
Qed.

Lemma pow10_pos (n : nat) : 0 < inject_Z (10 ^ Z.of_nat n).
Proof.
  replace 0 with (inject_Z 0) by reflexivity. rewrite <- Zlt_Qlt.
  apply Z.pow_pos_nonneg; lia.
Qed.


(** Rounding to [n] places does not cross a number that has no more than
    [n] places, here written [k / 10^n]. *)
Lemma round_nd_ge (x : Q) (n : nat) (k : Z) :
  inject_Z k / inject_Z (10 ^ Z.of_nat n) <= x ->
  inject_Z k / inject_Z (10 ^ Z.of_nat n) <= Py.round_nd x n.
Proof.
  intros H. unfold Py.round_nd.
  pose proof (pow10_pos n) as Hp.
  set (p := inject_Z (10 ^ Z.of_nat n)) in *.
  assert (Hk : inject_Z k <= x * p).
  { setoid_replace (inject_Z k) with (inject_Z k / p * p) by (field; lra).
    apply Qmult_le_compat_r; [exact H | lra]. }
  apply round_ge in Hk. rewrite Zle_Qle in Hk.
  unfold Qdiv. apply Qmult_le_compat_r; [exact Hk|].
  apply Qlt_le_weak, Qinv_lt_0_compat; exact Hp.
Qed.

Lemma round_nd_le (x : Q) (n : nat) (k : Z) :
  x <= inject_Z k / inject_Z (10 ^ Z.of_nat n) ->
  Py.round_nd x n <= inject_Z k / inject_Z (10 ^ Z.of_nat n).
Proof.
  intros H. unfold Py.round_nd.
  pose proof (pow10_pos n) as Hp.
  set (p := inject_Z (10 ^ Z.of_nat n)) in *.
  assert (Hk : x * p <= inject_Z k).
  { setoid_replace (inject_Z k) with (inject_Z k / p * p) by (field; lra).
    apply Qmult_le_compat_r; [exact H | lra]. }
  apply round_le in Hk. rewrite Zle_Qle in Hk.
  unfold Qdiv. apply Qmult_le_compat_r; [exact Hk|].
  apply Qlt_le_weak, Qinv_lt_0_compat; exact Hp.
Qed.

Lemma min_spec (a b : Q) :
  (a <= b /\ Py.min a b = a) \/ (b < a /\ Py.min a b = b).
Proof.
  unfold Py.min. destruct (Qle_bool a b) eqn:E.
  - left. split; [apply Qle_bool_iff; exact E | reflexivity].
  - right. split; [| reflexivity].
    apply Qnot_le_lt. intros H. apply Qle_bool_iff in H. congruence.
Qed.

Lemma round_proper (x y : Q) : x == y -> Py.round x = Py.round y.
Proof.
  intros H. unfold Py.round.
  rewrite (Qfloor_comp _ _ H).
  assert (E : Qcompare (x - inject_Z (Qfloor y)) (1 # 2)
              = Qcompare (y - inject_Z (Qfloor y)) (1 # 2))
    by (rewrite H; reflexivity).
  rewrite E. reflexivity.
Qed.



Lemma Qle_bool_false (a b : Q) : Qle_bool a b = false <-> b < a.
Proof.
  split; intros H.
  - apply Qnot_le_lt. intros H'. apply Qle_bool_iff in H'. congruence.
  - destruct (Qle_bool a b) eqn:E; [| reflexivity].
    apply Qle_bool_iff in E. lra.
Qed.

(** ** Claim evaluation *)

Section ClaimEvaluation.

Import ClaudeAgent.

Variables (pid : Z) (claimant : string).
Variables (trig orig cov thr : Q).

Let claim : ClaimRequest :=
  {| req_policy_id := pid; req_claimant := claimant;
     trigger_price := trig; evidence_uri := "" |}.


(** With a positive original price the tool takes one of its two regular
    exits, by the trigger test of the design. *)
Lemma tool_evaluate_claim_cases :
  0 < orig ->
  _tool_evaluate_claim pid claimant trig orig cov thr =
    if Design.triggered orig trig thr then
      Approved pid
        (Py.round_nd
           (cov * Py.min 1 ((1 # 2) + (Design.actualDrop orig trig - thr) * 2)) 6)
        (Py.round_nd
           (Py.min 1 ((1 # 2) + (Design.actualDrop orig trig - thr) * 2)) 4)
        (Py.round_nd (Design.actualDrop orig trig * 100) 2)
        (Py.round_nd (thr * 100) 2) claimant
    else
      NotTriggered pid 0
        (Py.round_nd (Design.actualDrop orig trig * 100) 2)
        (Py.round_nd (thr * 100) 2).
Proof.
  intros Hpos. unfold _tool_evaluate_claim.
  assert (E : Qle_bool orig 0 = false) by (apply Qle_bool_false; exact Hpos).
  rewrite E. unfold Design.triggered, Design.actualDrop.
  destruct (Qle_bool thr ((orig - trig) / orig)); reflexivity.
Qed.



End ClaimEvaluation.






(** C6 on the code: [evaluate_claim] has no test of the original price.  At
    an original price of 0 it stops with [ZeroDivisionError]; at -100 (and a
    current price of 50) it returns an approved decision that pays the whole
    coverage.  The tool behind it, [_tool_evaluate_claim], turns every
    original price that is not positive into the typed refusal
    ["Invalid original price"], and only those. *)
Theorem C6_evaluate_claim_misses_price_check :
  let claim := {| ClaudeAgent.req_policy_id := 7;
                  ClaudeAgent.req_claimant := "0xA1";
                  ClaudeAgent.trigger_price := 50;
                  ClaudeAgent.evidence_uri := "" |} in
  ClaudeAgent.evaluate_claim None claim 0 10 (20 # 100)
    = inl Py.ZeroDivisionError /\
  (exists d,
     ClaudeAgent.evaluate_claim None claim (-100) 10 (20 # 100) = inr d /\
     ClaudeAgent.decision_approved d = true /\
     ClaudeAgent.payout_eth d == 10 /\
     ClaudeAgent.rejected d = false) /\
  (forall pid claimant trig orig cov thr,
     orig <= 0 ->
     ClaudeAgent._tool_evaluate_claim pid claimant trig orig cov thr
       = ClaudeAgent.Invalid "Invalid original price") /\
  (forall pid claimant trig orig cov thr reason,
     0 < orig ->
     ClaudeAgent._tool_evaluate_claim pid claimant trig orig cov thr
       <> ClaudeAgent.Invalid reason).
Proof.
  cbv zeta. split; [reflexivity|]. split.
  - eexists. split; [reflexivity|]. repeat split; reflexivity.
  - split.
    + intros pid claimant trig orig cov thr H.
      unfold ClaudeAgent._tool_evaluate_claim.
      apply Qle_bool_iff in H. rewrite H. reflexivity.
    + intros pid claimant trig orig cov thr reason H.
      rewrite (tool_evaluate_claim_cases pid claimant trig orig cov thr H).
      destruct (Design.triggered orig trig thr); discriminate.
Qed.

(** ** Signal aggregation *)

Lemma dict_set_fresh {V} (d : Py.dict V) (k : string) (v : V) :
  ~ In k (Py.keys d) -> Py.dict_set d k v = d ++ [(k, v)].
Proof.
  induction d as [|[k' v'] d IH]; simpl; intros H; [reflexivity|].
  destruct (String.eqb_spec k' k) as [->|Hne].
  - exfalso. apply H. left. reflexivity.
  - rewrite IH; [reflexivity|]. intros Hin. apply H. right. exact Hin.
Qed.

Lemma dict_get_nodup {V} (d : Py.dict V) (k : string) (v : V) :
  NoDup (Py.keys d) -> In (k, v) d -> Py.dict_get d k = Some v.
Proof.
  induction d as [|[k' v'] d IH]; simpl; intros Hnd Hin; [contradiction|].
  inversion Hnd as [|? ? Hnotin Hnd']; subst.
  destruct Hin as [E|Hin].
  - inversion E; subst. rewrite String.eqb_refl. reflexivity.
  - destruct (String.eqb_spec k' k) as [->|Hne].
    + exfalso. apply Hnotin. change k with (fst (k, v)). apply in_map. exact Hin.
    + apply IH; assumption.
Qed.

Lemma sum_from (l : list Q) (a : Q) :
  fold_left Qplus l a == a + fold_right Qplus 0 l.
Proof.
  revert a. induction l as [|x l IH]; intros a; simpl.
  - ring.
  - rewrite IH. ring.
Qed.

Lemma sum_spec (l : list Q) : Py.sum l == fold_right Qplus 0 l.
Proof. unfold Py.sum. rewrite sum_from. ring. Qed.

Section Aggregation.

Import RiskEngine Cycle.

Variable W : Py.dict Q.
Hypothesis W_nodup : NoDup (Py.keys W).

Lemma neutral_spec (k : string) (w : Q) (e : Py.exn) :
  In (k, w) W -> neutral W k = inr (chosen (k, w) (inl e)).
Proof.
  intros Hin. unfold neutral, signal_of, weight_of.
  rewrite (dict_get_nodup W k w W_nodup Hin). reflexivity.
Qed.

Lemma fill_spec (Wsuf : Py.dict Q) :
  forall (R : list (Py.result RiskSignal)) (valid : Py.dict RiskSignal),
    (forall kw, In kw Wsuf -> In kw W) ->
    NoDup (Py.keys valid ++ Py.keys Wsuf) ->
    List.length R = List.length Wsuf ->
    fill W (Py.keys Wsuf) R valid = inr (valid ++ chosen_all Wsuf R).
Proof.
  induction Wsuf as [|[k w] Wsuf IH]; intros R valid Hsub Hnd Hlen.
  - destruct R; [| discriminate]. simpl. rewrite app_nil_r. reflexivity.
  - destruct R as [|r R]; [discriminate|].
    assert (Hfresh : ~ In k (Py.keys valid)).
    { intros Hin. simpl in Hnd. apply NoDup_remove_2 in Hnd.
      apply Hnd. apply in_or_app. left. exact Hin. }
    assert (Hstep : forall s,
               fill W (Py.keys Wsuf) R (Py.dict_set valid k s)
               = inr (valid ++ (k, s) :: chosen_all Wsuf R)).
    { intros s. rewrite dict_set_fresh by exact Hfresh.
      rewrite IH.
      - rewrite <- app_assoc. reflexivity.
      - intros kw H. apply Hsub. right. exact H.
      - unfold Py.keys in *. rewrite map_app. simpl.
        rewrite <- app_assoc. simpl. exact Hnd.
      - simpl in Hlen. lia. }
    simpl. destruct r as [e|s].
    + rewrite (neutral_spec k w e) by (apply Hsub; left; reflexivity).
      apply Hstep.
    + apply Hstep.
Qed.

(** The dictionary of signals the average is taken over: one entry per
    source, in the order of the table. *)
Lemma valid_signals_spec (R : list (Py.result RiskSignal)) :
  List.length R = List.length W ->
  valid_signals W R = inr (chosen_all W R).
Proof.
  intros Hlen. unfold valid_signals.
  rewrite (fill_spec W R []); [reflexivity | auto | exact W_nodup | exact Hlen].
Qed.

Lemma chosen_weights (W' : Py.dict Q) (R : list (Py.result RiskSignal)) :
  results_of W' R ->
  map weight (Py.values (chosen_all W' R)) = Py.values W'.
Proof.
  induction 1 as [|[k w] r W' R Hr _ IH]; [reflexivity|].
  unfold chosen_all, Py.values in *. simpl. f_equal; [| exact IH].
  destruct r as [e|s]; [reflexivity | exact Hr].
Qed.

Lemma chosen_scores (W' : Py.dict Q) (R : list (Py.result RiskSignal)) :
  results_of W' R ->
  map score (Py.values (chosen_all W' R)) = scores R.
Proof.
  induction 1 as [|[k w] r W' R Hr _ IH]; [reflexivity|].
  unfold chosen_all, Py.values, scores in *. simpl. f_equal; [| exact IH].
  destruct r; reflexivity.
Qed.

Lemma total_weight_spec (l : list RiskSignal) :
  Py.sum (map weight l) == Design.totalWeight (map weight l).
Proof.
  rewrite sum_spec. induction l as [|s l IH]; simpl; [reflexivity|].
  rewrite IH. reflexivity.
Qed.

Lemma weighted_sum_spec (l : list RiskSignal) :
  Py.sum (map (fun s => inject_Z (score s) * weight s) l)
  == Design.weightedSum (map weight l) (map score l).
Proof.
  rewrite sum_spec. induction l as [|s l IH]; simpl; [reflexivity|].
  rewrite IH. reflexivity.
Qed.

(** The average the code takes is the weighted average of the design over
    the scores of the cycle. *)
Lemma composite_score_spec (R : list (Py.result RiskSignal)) :
  results_of W R ->
  ~ Design.totalWeight (Py.values W) == 0 ->
  exists q,
    composite_score (chosen_all W R) = inr q /\
    q == Design.weightedAverage (Py.values W) (scores R).
Proof.
  intros HR Hnz. unfold composite_score, Py.div.
  set (vals := Py.values (chosen_all W R)).
  pose proof (total_weight_spec vals) as Ht.
  pose proof (weighted_sum_spec vals) as Hs.
  assert (Hw : map weight vals = Py.values W) by exact (chosen_weights W R HR).
  assert (Hsc : map score vals = scores R) by exact (chosen_scores W R HR).
  rewrite Hsc in Hs. rewrite Hw in Ht, Hs |- *.
  destruct (Qeq_bool (Py.sum (Py.values W)) 0) eqn:E.
  - apply Qeq_bool_iff in E. exfalso. apply Hnz. rewrite <- Ht. exact E.
  - eexists. split; [reflexivity|].
    unfold Design.weightedAverage. rewrite Hs, Ht. reflexivity.
Qed.

Lemma results_of_length (R : list (Py.result RiskSignal)) :
  results_of W R -> List.length R = List.length W.
Proof. intros H. symmetry. exact (Forall2_length H). Qed.

(** What [aggregate] returns over a cycle. *)
Lemma aggregate_spec (R : list (Py.result RiskSignal)) :
  results_of W R ->
  ~ Design.totalWeight (Py.values W) == 0 ->
  exists c q,
    aggregate W R = inr c /\
    q == Design.weightedAverage (Py.values W) (scores R) /\
    risk_level c = Py.int q /\
    Py.keys (signals c) = Py.keys W /\
    map view_score (Py.values (signals c)) = scores R.
Proof.
  intros HR Hnz. unfold aggregate.
  rewrite (valid_signals_spec R (results_of_length R HR)).
  destruct (composite_score_spec R HR Hnz) as (q & Hq & Hqe).
  rewrite Hq. eexists. exists q. split; [reflexivity|].
  split; [exact Hqe|]. split; [reflexivity|].
  cbn [signals]. split.
  - unfold Py.keys, chosen_all. rewrite !map_map. simpl.
    clear -HR. induction HR as [|[k w] r W' R' _ _ IH]; simpl; [reflexivity|].
    f_equal. exact IH.
  - rewrite <- (chosen_scores W R HR). unfold Py.values.
    rewrite !map_map. apply map_ext. intros [k v]. reflexivity.
Qed.

End Aggregation.

Lemma weightedSum_bounds (ws : list Q) (ss : list Z) :
  Forall (fun w => 0 <= w) ws ->
  Forall (fun s => (0 <= s <= 100)%Z) ss ->
  List.length ss = List.length ws ->
  0 <= Design.weightedSum ws ss <= 100 * Design.totalWeight ws.
Proof.
  intros Hw. revert ss.
  induction Hw as [|w ws Hw0 _ IH]; intros ss Hs Hlen.
  - simpl. split; lra.
  - destruct ss as [|s ss]; [discriminate|].
    inversion Hs as [|? ? Hs0 Hs']; subst.
    destruct (IH ss Hs') as [Hlo Hhi]; [simpl in Hlen; lia|].
    assert (H0 : 0 <= inject_Z s)
      by (change 0 with (inject_Z 0); rewrite <- Zle_Qle; lia).
    assert (H100 : inject_Z s <= 100)
      by (change 100 with (inject_Z 100); rewrite <- Zle_Qle; lia).
    assert (Hp : 0 <= inject_Z s * w) by (apply Qmult_le_0_compat; assumption).
    assert (Hq : inject_Z s * w <= 100 * w)
      by (apply Qmult_le_compat_r; assumption).
    simpl. split; lra.
Qed.

Lemma totalWeight_nonneg (ws : list Q) :
  Forall (fun w => 0 <= w) ws -> 0 <= Design.totalWeight ws.
Proof. induction 1; simpl; lra. Qed.

Lemma weightedAverage_bounds (ws : list Q) (ss : list Z) :
  Forall (fun w => 0 <= w) ws ->
  0 < Design.totalWeight ws ->
  Forall (fun s => (0 <= s <= 100)%Z) ss ->
  List.length ss = List.length ws ->
  0 <= Design.weightedAverage ws ss <= 100.
Proof.
  intros Hw Ht Hs Hlen.
  destruct (weightedSum_bounds ws ss Hw Hs Hlen) as [Hlo Hhi].
  unfold Design.weightedAverage. split.
  - apply Qle_shift_div_l; [exact Ht | lra].
  - apply Qle_shift_div_r; [exact Ht | lra].
Qed.

Lemma scores_in_range (R : list (Py.result RiskEngine.RiskSignal)) :
  Cycle.in_range R -> Forall (fun s => (0 <= s <= 100)%Z) (Cycle.scores R).
Proof.
  unfold Cycle.in_range, Cycle.scores.
  induction 1 as [|r R Hr _ IH]; simpl; constructor; [| exact IH].
  destruct r; [unfold Design.fallbackScore; lia | exact Hr].
Qed.

Lemma scores_length (R : list (Py.result RiskEngine.RiskSignal)) :
  List.length (Cycle.scores R) = List.length R.
Proof. unfold Cycle.scores. apply length_map. Qed.

Lemma floor_in_range (x : Q) (lo hi : Z) :
  inject_Z lo <= x <= inject_Z hi -> (lo <= Qfloor x <= hi)%Z.
Proof.
  intros [Hlo Hhi]. split.
  - apply Qfloor_resp_le in Hlo. rewrite Qfloor_Z in Hlo. exact Hlo.
  - apply Qfloor_resp_le in Hhi. rewrite Qfloor_Z in Hhi. exact Hhi.
Qed.

Lemma int_proper (x y : Q) : 0 <= x -> x == y -> Py.int x = Py.int y.
Proof.
  intros H0 E. rewrite !int_nonneg by lra. apply Qfloor_comp. exact E.
Qed.

Section TruncatedAverage.

Import RiskEngine.

Variable W : Py.dict Q.
Hypothesis W_nodup : NoDup (Py.keys W).
Hypothesis W_nonneg : Forall (fun w => 0 <= w) (Py.values W).
Hypothesis W_total : 0 < Design.totalWeight (Py.values W).

(** Over a cycle with scores in range the risk level is the weighted
    average, cut down to an integer. *)
Lemma aggregate_truncates (R : list (Py.result RiskSignal)) :
  Cycle.results_of W R ->
  Cycle.in_range R ->
  exists c,
    aggregate W R = inr c /\
    risk_level c
      = Qfloor (Design.weightedAverage (Py.values W) (Cycle.scores R)) /\
    (0 <= risk_level c <= 100)%Z /\
    (risk_level c <= Design.riskLevel (Py.values W) (Cycle.scores R)
     <= risk_level c + 1)%Z /\
    Py.keys (signals c) = Py.keys W /\
    map view_score (Py.values (signals c)) = Cycle.scores R.
Proof.
  intros HR Hin.
  assert (Hnz : ~ Design.totalWeight (Py.values W) == 0) by lra.
  destruct (aggregate_spec W W_nodup R HR Hnz)
    as (c & q & Hc & Hq & Hrisk & Hkeys & Hscores).
  assert (Hb : 0 <= Design.weightedAverage (Py.values W) (Cycle.scores R) <= 100).
  { apply weightedAverage_bounds; try assumption.
    - apply scores_in_range; exact Hin.
    - rewrite scores_length. unfold Py.values. rewrite length_map.
      symmetry. exact (Forall2_length HR). }
  set (avg := Design.weightedAverage (Py.values W) (Cycle.scores R)) in *.
  assert (Hfl : risk_level c = Qfloor avg).
  { rewrite Hrisk. rewrite int_nonneg by lra. apply Qfloor_comp. exact Hq. }
  assert (Hr : (0 <= Qfloor avg <= 100)%Z) by (apply floor_in_range; exact Hb).
  exists c. split; [exact Hc|]. split; [exact Hfl|].
  split; [rewrite Hfl; exact Hr|].
  split; [| split; assumption].
  rewrite Hfl. unfold Design.riskLevel, Design.clamp. fold avg.
  pose proof (round_between avg) as Hrb.
  assert (Py.round avg <= 100)%Z by (apply round_le; apply Hb).
  lia.
Qed.

End TruncatedAverage.

Lemma SIGNAL_WEIGHTS_nodup : NoDup (Py.keys RiskEngine.SIGNAL_WEIGHTS).
Proof.
  unfold RiskEngine.SIGNAL_WEIGHTS, Py.keys; simpl.
  repeat (constructor; [simpl; intuition discriminate |]). constructor.
Qed.

Lemma SIGNAL_WEIGHTS_nonneg :
  Forall (fun w => 0 <= w) (Py.values RiskEngine.SIGNAL_WEIGHTS).
Proof. repeat constructor; discriminate. Qed.

Lemma SIGNAL_WEIGHTS_total :
  Design.totalWeight (Py.values RiskEngine.SIGNAL_WEIGHTS) == 1.
Proof. reflexivity. Qed.

Lemma int_nonneg_ge (x : Q) : 0 <= x -> (0 <= Py.int x)%Z.
Proof.
  intros H. rewrite int_nonneg by exact H.
  apply Qfloor_resp_le in H. exact H.
Qed.

Lemma max_nonneg (a b : Q) : 0 <= a -> 0 <= Py.max a b.
Proof.
  intros H. unfold Py.max. destruct (Qle_bool a b) eqn:E; [| exact H].
  apply Qle_bool_iff in E. lra.
Qed.

(** The three live fetchers never raise: whatever the network part did,
    they hand back a signal with the configured weight. *)
Lemma gather_results_of (m : RiskEngine.MarketData) :
  Cycle.results_of RiskEngine.SIGNAL_WEIGHTS
    (RiskEngine.gather RiskEngine.SIGNAL_WEIGHTS m) /\
  Forall (fun r => exists s, r = inr s)
    (RiskEngine.gather RiskEngine.SIGNAL_WEIGHTS m).
Proof.
  destruct m as [[e1|vol] [e2|data] [e3|[[usdc usdt] dai]]];
    unfold Cycle.results_of, RiskEngine.gather, RiskEngine._get_realized_vol,
      RiskEngine._get_tvl_drawdown, RiskEngine._get_stablecoin_depeg;
    cbn [RiskEngine.annualized_vol RiskEngine.tvl_series
         RiskEngine.stable_prices RiskEngine.try_except];
    try (destruct (rev data) as [|cur [|prev rest]]);
    (split; [repeat constructor | repeat (constructor; [eexists; reflexivity|]); constructor]).
Qed.

Section FetcherScores.

Import RiskEngine.

Variable W : Py.dict Q.

Let ranged (r : Py.result RiskSignal) : Prop :=
  match r with
  | inr s => (0 <= score s <= 100)%Z
  | inl _ => True
  end.

Lemma signal_of_ranged (k : string) (v : Q) (s : Z) (d : string) :
  (0 <= s <= 100)%Z -> ranged (signal_of W k v s d).
Proof.
  intros H. unfold signal_of. destruct (weight_of W k); simpl; [exact I | exact H].
Qed.

Lemma try_except_ranged (body handler : Py.result RiskSignal) :
  ranged body -> ranged handler -> ranged (try_except body handler).
Proof. destruct body; simpl; auto. Qed.

Lemma imin_ranged (x : Q) : 0 <= x -> (0 <= Py.imin 100 (Py.int x) <= 100)%Z.
Proof.
  intros H. pose proof (int_nonneg_ge x H). unfold Py.imin. lia.
Qed.

Lemma realized_vol_ranged (m : MarketData) :
  match annualized_vol m with inr vol => 0 <= vol | inl _ => True end ->
  ranged (_get_realized_vol W m).
Proof.
  intros H. unfold _get_realized_vol.
  apply try_except_ranged; [| apply signal_of_ranged; lia].
  destruct (annualized_vol m) as [e|vol]; [exact I|].
  apply signal_of_ranged, imin_ranged. lra.
Qed.



Lemma tvl_drawdown_ranged (m : MarketData) : ranged (_get_tvl_drawdown W m).
Proof.
  unfold _get_tvl_drawdown.
  apply try_except_ranged; [| apply signal_of_ranged; lia].
  destruct (tvl_series m) as [e|data]; [exact I|].
  destruct (rev data) as [|cur [|prev rest]];
    apply signal_of_ranged; unfold Py.imin, Py.imax; lia.
Qed.

Lemma stablecoin_depeg_ranged (m : MarketData) :
  ranged (_get_stablecoin_depeg W m).
Proof.
  unfold _get_stablecoin_depeg.
  apply try_except_ranged; [| apply signal_of_ranged; lia].
  destruct (stable_prices m) as [e|[[usdc usdt] dai]]; [exact I|].
  apply signal_of_ranged, imin_ranged.
  apply Qmult_le_0_compat; [| discriminate].
  apply max_nonneg, max_nonneg, Qabs_nonneg.
Qed.



End FetcherScores.




(** ** One source failing *)

Lemma chosen_all_app (W1 W2 : Py.dict Q)
    (R1 R2 : list (Py.result RiskEngine.RiskSignal)) :
  List.length R1 = List.length W1 ->
  Cycle.chosen_all (W1 ++ W2) (R1 ++ R2)
  = Cycle.chosen_all W1 R1 ++ Cycle.chosen_all W2 R2.
Proof.
  unfold Cycle.chosen_all. revert R1.
  induction W1 as [|kw W1' IH]; intros [|x R1] Hlen; try discriminate.
  - reflexivity.
  - simpl. f_equal. apply IH. simpl in Hlen. lia.
Qed.

Section OneSourceFails.

Import RiskEngine.

Variables (W1 W2 : Py.dict Q) (k : string) (w : Q).
Variables (R1 R2 : list (Py.result RiskSignal)).
Variables (r : Py.result RiskSignal) (e : Py.exn).

Let W := W1 ++ (k, w) :: W2.

Hypothesis W_nodup : NoDup (Py.keys W).
Hypothesis R1_length : List.length R1 = List.length W1.
Hypothesis R2_length : List.length R2 = List.length W2.

Lemma split_length (x : Py.result RiskSignal) :
  List.length (R1 ++ x :: R2) = List.length W.
Proof. unfold W. rewrite !length_app. simpl. lia. Qed.

(** The entry of the failed source is the neutral signal; every other
    entry is what it is when that source answers [r]. *)
Lemma valid_signals_one_failed :
  valid_signals W (R1 ++ r :: R2)
    = inr (Cycle.chosen_all W1 R1 ++ (k, Cycle.chosen (k, w) r)
           :: Cycle.chosen_all W2 R2) /\
  valid_signals W (R1 ++ inl e :: R2)
    = inr (Cycle.chosen_all W1 R1
           ++ (k, {| name := k; value := 0; score := 25; weight := w;
                     description :=
                       "Signal unavailable - using neutral baseline" |})
           :: Cycle.chosen_all W2 R2).
Proof.
  split.
  - rewrite (valid_signals_spec W W_nodup _ (split_length r)).
    unfold W. rewrite (chosen_all_app W1 _ R1 _ R1_length). reflexivity.
  - rewrite (valid_signals_spec W W_nodup (R1 ++ inl e :: R2)
               (split_length (inl e))).
    unfold W. rewrite (chosen_all_app W1 _ R1 _ R1_length). reflexivity.
Qed.

End OneSourceFails.

Lemma results_of_one_failed (W : Py.dict Q)
    (R1 R2 : list (Py.result RiskEngine.RiskSignal))
    (r : Py.result RiskEngine.RiskSignal) (e : Py.exn) :
  Cycle.results_of W (R1 ++ r :: R2) ->
  Cycle.results_of W (R1 ++ inl e :: R2).
Proof.
  unfold Cycle.results_of. revert W.
  induction R1 as [|x R1 IH]; intros W H; simpl in *.
  - inversion H; subst. constructor; [exact I | assumption].
  - inversion H; subst. constructor; [assumption | apply IH; assumption].
Qed.

(** C4, as stated, on a cycle in which the volatility request times out
    while the other sources answer: the composite is returned, but the
    signal standing in for the failed source has score 30, the fallback
    [_get_realized_vol] builds itself, not the neutral 25. *)
Lemma C4_failed_source_scores_30 :
  let m := {| RiskEngine.annualized_vol := inl (Py.Error "request timed out");
              RiskEngine.tvl_series := inr [100; 9845 # 100];
              RiskEngine.stable_prices :=
                inr (Some (99945 # 100000), Some 1, Some 1) |} in
  exists c v,
    RiskEngine.get_current_risk RiskEngine.SIGNAL_WEIGHTS m = inr c /\
    Py.dict_get (RiskEngine.signals c) "realized_vol" = Some v /\
    RiskEngine.view_score v = 30%Z /\
    RiskEngine.view_score v <> Design.fallbackScore.
Proof.
  cbv zeta. do 2 eexists.
  split; [vm_compute; reflexivity|].
  split; [vm_compute; reflexivity|].
  split; [vm_compute; reflexivity|].
  vm_compute. discriminate.
Qed.

(** C4, amended: aggregation is total and failure-isolated.  On all market
    data [get_current_risk] returns a composite with one entry per configured
    source.  A source whose request fails is replaced, inside its own
    fetcher, by a fixed signal with the configured weight of the source and
    the score 30 (realized volatility), 15 (TVL drawdown) or 5 (stablecoin
    depeg); each fetcher reads the data of its own source only, so the other
    signals are what they are without the failure.  Where a fetcher itself
    raises, the aggregator puts the neutral signal with score 25 and the
    configured weight in its place, leaves every other entry unchanged and
    still returns a composite. *)
Theorem C4_failure_isolated_source_fallbacks :
  let SW := RiskEngine.SIGNAL_WEIGHTS in
  (forall m, exists c,
      RiskEngine.get_current_risk SW m = inr c /\
      Py.keys (RiskEngine.signals c) = Py.keys SW) /\
  (forall m e,
      RiskEngine.annualized_vol m = inl e ->
      RiskEngine._get_realized_vol SW m
      = inr {| RiskEngine.name := "realized_vol"; RiskEngine.value := 30;
               RiskEngine.score := 30; RiskEngine.weight := 20 # 100;
               RiskEngine.description :=
                 "Using estimated volatility (live data unavailable)" |}) /\
  (forall m e,
      RiskEngine.tvl_series m = inl e ->
      RiskEngine._get_tvl_drawdown SW m
      = inr {| RiskEngine.name := "tvl_drawdown"; RiskEngine.value := 0;
               RiskEngine.score := 15; RiskEngine.weight := 20 # 100;
               RiskEngine.description :=
                 "TVL data unavailable - using baseline" |}) /\
  (forall m e,
      RiskEngine.stable_prices m = inl e ->
      RiskEngine._get_stablecoin_depeg SW m
      = inr {| RiskEngine.name := "stablecoin_depeg"; RiskEngine.value := 0;
               RiskEngine.score := 5; RiskEngine.weight := 15 # 100;
               RiskEngine.description :=
                 "Stablecoin data unavailable - pegs assumed stable" |}) /\
  (forall m m',
      (RiskEngine.annualized_vol m = RiskEngine.annualized_vol m' ->
       RiskEngine._get_realized_vol SW m = RiskEngine._get_realized_vol SW m') /\
      (RiskEngine.tvl_series m = RiskEngine.tvl_series m' ->
       RiskEngine._get_tvl_drawdown SW m = RiskEngine._get_tvl_drawdown SW m') /\
      (RiskEngine.stable_prices m = RiskEngine.stable_prices m' ->
       RiskEngine._get_stablecoin_depeg SW m
       = RiskEngine._get_stablecoin_depeg SW m')) /\
  (forall W1 k w W2 R1 r R2 e,
      SW = W1 ++ (k, w) :: W2 ->
      List.length R1 = List.length W1 ->
      List.length R2 = List.length W2 ->
      Cycle.results_of SW (R1 ++ r :: R2) ->
      exists pre post c,
        RiskEngine.valid_signals SW (R1 ++ r :: R2)
          = inr (pre ++ (k, Cycle.chosen (k, w) r) :: post) /\
        RiskEngine.valid_signals SW (R1 ++ inl e :: R2)
          = inr (pre
                 ++ (k, {| RiskEngine.name := k; RiskEngine.value := 0;
                           RiskEngine.score := Design.fallbackScore;
                           RiskEngine.weight := w;
                           RiskEngine.description :=
                             "Signal unavailable - using neutral baseline" |})
                 :: post) /\
        RiskEngine.aggregate SW (R1 ++ inl e :: R2) = inr c).
Proof.
  cbv zeta.
  assert (Hnz : ~ Design.totalWeight (Py.values RiskEngine.SIGNAL_WEIGHTS) == 0)
    by discriminate.
  split.
  { intros m.
    destruct (aggregate_spec _ SIGNAL_WEIGHTS_nodup _
                (proj1 (gather_results_of m)) Hnz)
      as (c & q & Hc & _ & _ & Hkeys & _).
    exists c. split; assumption. }
  split.
  { intros m e H. unfold RiskEngine._get_realized_vol. rewrite H. reflexivity. }
  split.
  { intros m e H. unfold RiskEngine._get_tvl_drawdown. rewrite H. reflexivity. }
  split.
  { intros m e H. unfold RiskEngine._get_stablecoin_depeg. rewrite H.
    reflexivity. }
  split.
  { intros m m'. repeat split; intros H.
    - unfold RiskEngine._get_realized_vol. rewrite H. reflexivity.
    - unfold RiskEngine._get_tvl_drawdown. rewrite H. reflexivity.
    - unfold RiskEngine._get_stablecoin_depeg. rewrite H. reflexivity. }
  intros W1 k w W2 R1 r R2 e HW Hl1 Hl2 HR.
  pose proof SIGNAL_WEIGHTS_nodup as Hnd. rewrite HW in Hnd, Hnz, HR |- *.
  destruct (valid_signals_one_failed W1 W2 k w R1 R2 r e Hnd Hl1 Hl2)
    as [Hv Hv'].
  destruct (aggregate_spec _ Hnd _ (results_of_one_failed _ R1 R2 r e HR) Hnz)
    as (c & _ & Hc & _).
  exists (Cycle.chosen_all W1 R1), (Cycle.chosen_all W2 R2), c.
  split; [exact Hv|]. split; [exact Hv'|]. exact Hc.
Qed.

(** The amended C4 where the bridge monitor raises in a cycle whose other
    sources scored 36, 15, 2, 15 and 5: its entry becomes the neutral signal
    with score 25 and weight 0.10, the five others stay, and the composite
    is returned. *)
Lemma C4_failure_isolated_source_fallbacks_witness :
  let signal (k : string) (s : Z) (w : Q) :=
    {| RiskEngine.name := k; RiskEngine.value := 0; RiskEngine.score := s;
       RiskEngine.weight := w; RiskEngine.description := "" |} in
  let W1 := [ ("realized_vol", 20 # 100); ("funding_rates", 15 # 100);
              ("liquidation_vol", 20 # 100); ("tvl_drawdown", 20 # 100);
              ("stablecoin_depeg", 15 # 100) ]%string in
  let R1 := [ inr (signal "realized_vol"%string 36%Z (20 # 100));
              inr (signal "funding_rates"%string 15%Z (15 # 100));
              inr (signal "liquidation_vol"%string 2%Z (20 # 100));
              inr (signal "tvl_drawdown"%string 15%Z (20 # 100));
              inr (signal "stablecoin_depeg"%string 5%Z (15 # 100)) ] in
  let r := inr (signal "bridge_anomaly"%string 10%Z (10 # 100)) in
  let e := Py.Error "bridge monitor down" in
  exists pre post c,
    RiskEngine.valid_signals RiskEngine.SIGNAL_WEIGHTS (R1 ++ [r])
      = inr (pre ++ (("bridge_anomaly"%string,
                      Cycle.chosen ("bridge_anomaly"%string, 10 # 100) r))
                    :: post) /\
    RiskEngine.valid_signals RiskEngine.SIGNAL_WEIGHTS (R1 ++ [inl e])
      = inr (pre
             ++ ("bridge_anomaly"%string,
                 {| RiskEngine.name := "bridge_anomaly";
                    RiskEngine.value := 0;
                    RiskEngine.score := Design.fallbackScore;
                    RiskEngine.weight := 10 # 100;
                    RiskEngine.description :=
                      "Signal unavailable - using neutral baseline" |})
             :: post) /\
    RiskEngine.aggregate RiskEngine.SIGNAL_WEIGHTS (R1 ++ [inl e]) = inr c.
Proof.
  intros signal W1 R1 r e.
  refine (proj2 (proj2 (proj2 (proj2 (proj2
            C4_failure_isolated_source_fallbacks))))
            W1 "bridge_anomaly"%string (10 # 100) [] R1 r [] e _ _ _ _).
  - reflexivity.
  - reflexivity.
  - reflexivity.
  - repeat constructor.
Defined.

(** ** The fallback bound *)

Lemma weightedSum_app (ws1 ws2 : list Q) (ss1 ss2 : list Z) :
  List.length ss1 = List.length ws1 ->
  Design.weightedSum (ws1 ++ ws2) (ss1 ++ ss2)
  == Design.weightedSum ws1 ss1 + Design.weightedSum ws2 ss2.
Proof.
  revert ss1. induction ws1 as [|w ws1 IH]; intros [|s ss1] Hlen;
    try discriminate; simpl.
  - ring.
  - rewrite IH by (simpl in Hlen; lia). ring.
Qed.


Section FallbackBound.

Import RiskEngine.

Variables (W1 W2 : Py.dict Q) (k : string) (w : Q).
Variables (R1 R2 : list (Py.result RiskSignal)).
Variables (s : RiskSignal) (e : Py.exn).

Let W := W1 ++ (k, w) :: W2.
Let T := Design.totalWeight (Py.values W).

Hypothesis W_nonneg : Forall (fun x => 0 <= x) (Py.values W).
Hypothesis T_pos : 0 < T.
Hypothesis R1_length : List.length R1 = List.length W1.
Hypothesis s_range : (0 <= score s <= 100)%Z.

Lemma w_nonneg : 0 <= w.
Proof.
  unfold W, Py.values in W_nonneg. rewrite map_app in W_nonneg.
  apply Forall_app in W_nonneg. destruct W_nonneg as [_ H].
  inversion H; assumption.
Qed.



End FallbackBound.

Lemma in_range_middle (R1 R2 : list (Py.result RiskEngine.RiskSignal))
    (s : RiskEngine.RiskSignal) (e : Py.exn) :
  Cycle.in_range (R1 ++ inr s :: R2) ->
  (0 <= RiskEngine.score s <= 100)%Z /\ Cycle.in_range (R1 ++ inl e :: R2).
Proof.
  unfold Cycle.in_range. intros H. apply Forall_app in H. destruct H as [H1 H2].
  inversion H2; subst. split; [assumption|].
  apply Forall_app. split; [assumption|]. constructor; [exact I | assumption].
Qed.




(** ** Premium pricing *)

Lemma base_rate_lookup (category : string) :
  LLMPricer.get_or LLMPricer.BASE_ANNUAL_RATES_BPS category
    (LLMPricer.get_or LLMPricer.BASE_ANNUAL_RATES_BPS "general" 0%Z)
  = Design.baseRateBps category.
Proof. reflexivity. Qed.

Lemma dict_get_in {V} (d : Py.dict V) (k : string) (v : V) :
  Py.dict_get d k = Some v -> In v (Py.values d).
Proof.
  induction d as [|[k' v'] d IH]; simpl; [discriminate|].
  destruct (String.eqb k' k).
  - intros E. inversion E. left. reflexivity.
  - intros E. right. apply IH. exact E.
Qed.

Lemma base_rate_nonneg (category : string) : (0 <= Design.baseRateBps category)%Z.
Proof.
  unfold Design.baseRateBps.
  destruct (Py.dict_get LLMPricer.BASE_ANNUAL_RATES_BPS category) as [rate|] eqn:E;
    [| lia].
  apply dict_get_in in E. simpl in E. intuition lia.
Qed.

Lemma floor_nonneg (x : Q) : 0 <= x -> (0 <= Qfloor x)%Z.
Proof. intros H. apply Qfloor_resp_le in H. exact H. Qed.

(** The rate of the code: the floor of the discount times the floor of the
    base rate times the multiplier. *)
Lemma adjusted_rate_floor (category : string) (days : Z) (risk : Z) (m : Q) :
  0 <= m ->
  LLMPricer.adjusted_rate_bps category days
    {| LLMPricer.cr_risk_level := risk;
       LLMPricer.cr_premium_multiplier := Some m |}
  = Qfloor (Design.durationDiscount days
            * inject_Z (Qfloor (inject_Z (Design.baseRateBps category) * m))).
Proof.
  intros Hm. unfold LLMPricer.adjusted_rate_bps.
  rewrite base_rate_lookup. cbn [LLMPricer.cr_premium_multiplier].
  pose proof (base_rate_nonneg category) as Hb.
  assert (Hbm : 0 <= inject_Z (Design.baseRateBps category) * m).
  { apply Qmult_le_0_compat; [| exact Hm].
    change 0 with (inject_Z 0). rewrite <- Zle_Qle. exact Hb. }
  rewrite (int_nonneg _ Hbm).
  pose proof (floor_nonneg _ Hbm) as Hf.
  set (f := Qfloor (inject_Z (Design.baseRateBps category) * m)) in *.
  assert (Hfq : 0 <= inject_Z f)
    by (change 0 with (inject_Z 0); rewrite <- Zle_Qle; exact Hf).
  unfold Design.durationDiscount.
  destruct (180 <=? days)%Z; [| destruct (90 <=? days)%Z].
  - rewrite int_nonneg by (apply Qmult_le_0_compat; [exact Hfq | discriminate]).
    apply Qfloor_comp. ring.
  - rewrite int_nonneg by (apply Qmult_le_0_compat; [exact Hfq | discriminate]).
    apply Qfloor_comp. ring.
  - rewrite <- (Qfloor_Z f) at 1. apply Qfloor_comp. ring.
Qed.





(** ** The rebalance plan *)

Section StableSort.

Context {A : Type} (key : A -> Z).

Let ge (a b : A) : Prop := (key b <= key a)%Z.

Lemma insert_desc_perm (x : A) (l : list A) :
  Permutation (Rebalancer.insert_desc key x l) (x :: l).
Proof.
  induction l as [|y l IH]; simpl; [apply Permutation_refl|].
  destruct (key y <=? key x)%Z; [apply Permutation_refl|].
  apply Permutation_trans with (y :: x :: l).
  - apply perm_skip. exact IH.
  - apply perm_swap.
Qed.

Lemma sorted_reverse_perm (l : list A) :
  Permutation (Rebalancer.sorted_reverse key l) l.
Proof.
  induction l as [|x l IH]; simpl; [apply perm_nil|].
  apply Permutation_trans with (x :: Rebalancer.sorted_reverse key l).
  - apply insert_desc_perm.
  - apply perm_skip. exact IH.
Qed.

Lemma insert_desc_sorted (x : A) (l : list A) :
  StronglySorted ge l -> StronglySorted ge (Rebalancer.insert_desc key x l).
Proof.
  induction 1 as [|y l Hs IH Hall]; simpl.
  - constructor; constructor.
  - destruct (Z.leb_spec (key y) (key x)) as [Hle|Hgt].
    + constructor; [constructor; assumption|].
      constructor; [exact Hle|].
      apply Forall_impl with (P := ge y); [| exact Hall].
      intros a Ha. unfold ge in *. lia.
    + constructor; [exact IH|].
      apply Forall_forall. intros a Ha.
      apply (Permutation_in _ (insert_desc_perm x l)) in Ha.
      destruct Ha as [<-|Ha].
      * unfold ge. lia.
      * rewrite Forall_forall in Hall. apply Hall. exact Ha.
Qed.

Lemma sorted_reverse_sorted (l : list A) :
  StronglySorted ge (Rebalancer.sorted_reverse key l).
Proof.
  induction l as [|x l IH]; simpl; [constructor|].
  apply insert_desc_sorted. exact IH.
Qed.

(** Entries with the same key keep their order. *)
Lemma insert_desc_stable (v : Z) (x : A) (l : list A) :
  filter (fun a => (key a =? v)%Z) (Rebalancer.insert_desc key x l)
  = filter (fun a => (key a =? v)%Z) (x :: l).
Proof.
  induction l as [|y l IH]; [reflexivity|].
  cbn [Rebalancer.insert_desc].
  destruct (Z.leb_spec (key y) (key x)) as [Hle|Hgt]; [reflexivity|].
  cbn [filter] in *.
  destruct (Z.eqb_spec (key x) v) as [Hx|Hx], (Z.eqb_spec (key y) v) as [Hy|Hy];
    try lia; rewrite IH; reflexivity.
Qed.

Lemma sorted_reverse_stable (v : Z) (l : list A) :
  filter (fun a => (key a =? v)%Z) (Rebalancer.sorted_reverse key l)
  = filter (fun a => (key a =? v)%Z) l.
Proof.
  induction l as [|x l IH]; [reflexivity|].
  cbn [Rebalancer.sorted_reverse fold_right].
  fold (Rebalancer.sorted_reverse key l).
  rewrite insert_desc_stable. cbn [filter]. rewrite IH. reflexivity.
Qed.

Lemma sorted_split (l1 l2 : list A) :
  StronglySorted ge (l1 ++ l2) ->
  forall a b, In a l1 -> In b l2 -> (key b <= key a)%Z.
Proof.
  induction l1 as [|x l1 IH]; simpl; intros Hs a b Ha Hb; [contradiction|].
  inversion Hs as [|? ? Hs' Hall]; subst.
  destruct Ha as [<-|Ha].
  - rewrite Forall_forall in Hall. apply Hall. apply in_or_app. right. exact Hb.
  - apply IH; assumption.
Qed.

Lemma sorted_prefix (l1 l2 : list A) :
  StronglySorted ge (l1 ++ l2) -> StronglySorted ge l1.
Proof.
  induction l1 as [|x l1 IH]; simpl; intros Hs; [constructor|].
  inversion Hs as [|? ? Hs' Hall]; subst.
  constructor; [apply IH; exact Hs'|].
  apply Forall_app in Hall. apply Hall.
Qed.

End StableSort.

(** C9, as stated, on a composite of risk level 82 whose signals score
    realized_vol 90, funding_rates 90, liquidation_vol 80, tvl_drawdown 90,
    stablecoin_depeg 70 and bridge_anomaly 60: three entries tie at 90.  By
    name ascending the list starts with funding_rates; the plan lists
    realized_vol first, the order of the signal map. *)
Lemma C9_ties_keep_map_order :
  let signals := [ ("realized_vol", 90%Z); ("funding_rates", 90%Z);
                   ("liquidation_vol", 80%Z); ("tvl_drawdown", 90%Z);
                   ("stablecoin_depeg", 70%Z); ("bridge_anomaly", 60%Z) ]%string in
  Rebalancer.top_risk_signals (Rebalancer.trigger_defensive_rebalance 82 signals)
    = [ "realized_vol: 90/100"; "funding_rates: 90/100";
        "tvl_drawdown: 90/100" ]%string /\
  Rebalancer.top_entries signals
    = [ ("realized_vol", 90%Z); ("funding_rates", 90%Z);
        ("tvl_drawdown", 90%Z) ]%string /\
  Design.topSignals signals
    = [ ("funding_rates", 90%Z); ("realized_vol", 90%Z);
        ("tvl_drawdown", 90%Z) ]%string /\
  Rebalancer.top_entries signals <> Design.topSignals signals.
Proof.
  cbv zeta.
  split; [vm_compute; reflexivity|].
  split; [vm_compute; reflexivity|].
  split; [vm_compute; reflexivity|].
  vm_compute. discriminate.
Qed.

(** C9, amended: for every composite signal map the plan lists exactly the 3
    highest-scoring entries (all of them if the map has fewer than 3),
    ordered by score descending; entries with equal scores are listed in the
    order they have in the signal map (the sort is stable), not by name.  The
    output is still the same on every run over the same map. *)
Theorem C9_top_signals_stable_by_score :
  forall (risk_level : Z) (signals : Py.dict Z),
    let plan := Rebalancer.trigger_defensive_rebalance risk_level signals in
    let top := Rebalancer.top_entries signals in
    Rebalancer.top_risk_signals plan
      = map (fun '(k, v) => (k ++ ": " ++ Rebalancer.str v ++ "/100")%string) top /\
    List.length top = Nat.min 3 (List.length signals) /\
    StronglySorted (fun a b => (snd b <= snd a)%Z) top /\
    (exists rest,
       Permutation signals (top ++ rest) /\
       forall a b, In a top -> In b rest -> (snd b <= snd a)%Z) /\
    (forall v, exists later,
       filter (fun a => (snd a =? v)%Z) signals
       = filter (fun a => (snd a =? v)%Z) top ++ later).
Proof.
  intros risk_level signals plan top.
  set (sorted := Rebalancer.sorted_reverse snd signals).
  assert (Hsplit : sorted = top ++ skipn 3 sorted)
    by (symmetry; apply firstn_skipn).
  pose proof (sorted_reverse_perm snd signals) as Hperm. fold sorted in Hperm.
  pose proof (sorted_reverse_sorted snd signals) as Hsorted. fold sorted in Hsorted.
  split.
  { unfold plan, Rebalancer.trigger_defensive_rebalance.
    destruct (Rebalancer.RISK_THRESHOLDS_emergency <=? risk_level)%Z;
      [| destruct (Rebalancer.RISK_THRESHOLDS_defensive <=? risk_level)%Z];
      reflexivity. }
  split.
  { unfold top, Rebalancer.top_entries. fold sorted.
    rewrite length_firstn. rewrite (Permutation_length Hperm). reflexivity. }
  split.
  { rewrite Hsplit in Hsorted. exact (sorted_prefix snd _ _ Hsorted). }
  split.
  { exists (skipn 3 sorted). split.
    - rewrite <- Hsplit. apply Permutation_sym. exact Hperm.
    - rewrite Hsplit in Hsorted. exact (sorted_split snd _ _ Hsorted). }
  intros v. exists (filter (fun a => (snd a =? v)%Z) (skipn 3 sorted)).
  rewrite <- filter_app, <- Hsplit. symmetry.
  apply sorted_reverse_stable.
Qed.

(** ** The agent loop *)

Section LoopFrames.

Import AgentLoop.

Context {World : Type} {X : Type} (proj : Loop -> X).

Lemma keeps_ret {A} (a : A) : keeps proj (ret (World := World) a).
Proof. intros s. reflexivity. Qed.

Lemma keeps_raise {A} (e : Py.exn) :
  keeps proj (fun s : State World => (@inl Py.exn A e, s)).
Proof. intros s. reflexivity. Qed.

Lemma keeps_bind {A B} (m : M World A) (k : A -> M World B) :
  keeps proj m -> (forall a, keeps proj (k a)) -> keeps proj (bind m k).
Proof.
  intros Hm Hk s. unfold bind. specialize (Hm s).
  destruct (m s) as [[e|a] s']; simpl in *; [exact Hm|].
  rewrite (Hk a s'). exact Hm.
Qed.

Lemma keeps_try_except {A} (m : M World A) (h : Py.exn -> M World A) :
  keeps proj m -> (forall e, keeps proj (h e)) ->
  keeps proj (try_except m h).
Proof.
  intros Hm Hh s. unfold try_except. specialize (Hm s).
  destruct (m s) as [[e|a] s']; simpl in *; [| exact Hm].
  rewrite (Hh e s'). exact Hm.
Qed.

Lemma keeps_call {A} (f : World -> Py.result A * World) : keeps proj (call f).
Proof. intros s. unfold call. destruct (f (world s)). reflexivity. Qed.

Lemma keeps_emit (e : Event) : keeps proj (emit (World := World) e).
Proof. intros s. reflexivity. Qed.

Lemma keeps_read : keeps proj (read (World := World)).
Proof. intros s. reflexivity. Qed.

Lemma keeps_update (f : Loop -> Loop) :
  (forall l, proj (f l) = proj l) -> keeps proj (update (World := World) f).
Proof. intros H s. apply H. Qed.

Lemma keeps_if {A} (b : bool) (m1 m2 : M World A) :
  keeps proj m1 -> keeps proj m2 -> keeps proj (if b then m1 else m2).
Proof. destruct b; auto. Qed.

End LoopFrames.

(** Take a method apart along its binds, handlers and branches. *)
Ltac frame :=
  repeat first
    [ apply keeps_bind; [| intro]
    | apply keeps_try_except; [| intro]
    | apply keeps_if
    | apply keeps_ret | apply keeps_raise | apply keeps_call
    | apply keeps_emit | apply keeps_read
    | apply keeps_update; intros ?; reflexivity ].

Section CycleFrame.

Import AgentLoop.

Variable settings : Settings.
Context {World : Type} (env : Collaborators World).

Lemma execute_claim_guarded (policy_id : Z) (decision : ClaimDecision) :
  keeps guarded (_execute_claim settings env policy_id decision).
Proof. unfold _execute_claim, submit_claim, update_stats. frame. Qed.

Lemma scan_policy_guarded (current_vol : Z) (vol : VolatilityReading)
    (policy_id : Z) :
  keeps guarded (scan_policy settings env current_vol vol policy_id).
Proof.
  unfold scan_policy, update_stats. frame.
Qed.

Lemma scan_guarded (current_vol : Z) (vol : VolatilityReading) (ids : list Z) :
  keeps guarded (scan settings env current_vol vol ids).
Proof.
  induction ids as [|id ids IH]; simpl; [apply keeps_ret|].
  apply keeps_bind; [apply scan_policy_guarded|].
  intros [|]; [apply keeps_ret | exact IH].
Qed.

Lemma cycle_guarded : keeps guarded (_cycle settings env).
Proof.
  unfold _cycle, _update_volatility, _scan_policies, update_stats.
  apply keeps_bind; [frame | intros _].
  apply keeps_bind; [frame | intros trust_score].
  apply keeps_if; [frame|].
  apply keeps_bind; [frame | intros now].
  apply keeps_bind; [frame | intros me].
  apply keeps_bind; [apply keeps_if; frame | intros _].
  apply keeps_if; [| frame].
  apply keeps_bind; [frame | intros current_vol].
  apply keeps_bind; [frame | intros vol].
  apply scan_guarded.
Qed.

End CycleFrame.

Section RunLoop.

Import AgentLoop.

Variable settings : Settings.
Context {World : Type} (env : Collaborators World).

(** A turn of the loop never raises, whatever the cycle did. *)
Lemma run_once_returns (s : State World) :
  exists s', run_once settings env s = (inr tt, s').
Proof.
  unfold run_once, bind, try_except, update_stats, update, emit, call, stop,
    set_running, ret.
  destruct (_cycle settings env s) as [[e|[]] s1]; simpl;
    destruct (sleep env _ _) as [[|] w2]; simpl; eexists; reflexivity.
Qed.

Lemma run_returns (fuel : nat) :
  forall s : State World, exists s', _run settings env fuel s = (inr tt, s').
Proof.
  induction fuel as [|fuel IH]; intros s; simpl.
  - eexists. reflexivity.
  - unfold bind, read. destruct (_running (self s)).
    + destruct (run_once_returns s) as [s1 ->]. apply IH.
    + eexists. reflexivity.
Qed.

(** The turn of the loop around a cycle that raised. *)
Lemma run_once_after_error (s s1 : State World) (e : Py.exn) :
  _cycle settings env s = (inl e, s1) ->
  run_once settings env s
  = (inr tt,
     {| self :=
          {| _running :=
               _running (self s1)
               && negb (fst (sleep env (poll_interval_seconds settings)
                               (world s1)));
             _last_vol_update := _last_vol_update (self s1);
             _cycle_count := _cycle_count (self s1);
             _stats := incr_errors (_stats (self s1)) |};
        world := snd (sleep env (poll_interval_seconds settings) (world s1));
        trace := trace s1 ++ [Sleep (poll_interval_seconds settings)] |}).
Proof.
  intros H.
  unfold run_once, bind, try_except, update_stats, update, emit, call, stop,
    set_running, ret.
  rewrite H. simpl.
  destruct (sleep env _ _) as [[|] w2]; simpl;
    rewrite ?andb_false_r, ?andb_true_r; reflexivity.
Qed.

End RunLoop.

(** C8: for every cycle of the loop in which an error is raised, the turn of
    the loop around it returns normally: the error is caught, [errors] is one
    more than before the cycle, the wait of [poll_interval_seconds] follows
    as after any other cycle, and [_run] goes on with the turns that remain;
    the running flag is what a call of [stop] made it, which the error has
    no part in, so that without such a call the next cycle starts.  No number
    of failing cycles makes [_run] raise. *)
Theorem C8_cycle_error_counted_loop_continues :
  forall (settings : AgentLoop.Settings) (World : Type)
         (env : AgentLoop.Collaborators World)
         (s s1 : AgentLoop.State World) (e : Py.exn),
    AgentLoop._running (AgentLoop.self s) = true ->
    AgentLoop._cycle settings env s = (inl e, s1) ->
    let poll := AgentLoop.poll_interval_seconds settings in
    let stopped := fst (AgentLoop.sleep env poll (AgentLoop.world s1)) in
    (exists s2,
       AgentLoop.run_once settings env s = (inr tt, s2) /\
       AgentLoop.errors (AgentLoop._stats (AgentLoop.self s2))
       = (AgentLoop.errors (AgentLoop._stats (AgentLoop.self s)) + 1)%Z /\
       AgentLoop.trace s2 = AgentLoop.trace s1 ++ [AgentLoop.Sleep poll] /\
       AgentLoop._running (AgentLoop.self s2) = negb stopped /\
       (forall fuel,
          AgentLoop._run settings env (S fuel) s
          = AgentLoop._run settings env fuel s2) /\
       (stopped = false ->
        forall fuel,
          AgentLoop._run settings env (S (S fuel)) s
          = AgentLoop.bind (AgentLoop.run_once settings env)
              (fun _ => AgentLoop._run settings env fuel) s2)) /\
    (forall fuel s0, exists s',
       AgentLoop._run settings env fuel s0 = (inr tt, s')).
Proof.
  intros settings World env s s1 e Hrun Hcycle poll stopped.
  split; [| intros fuel s0; apply run_returns].
  pose proof (run_once_after_error settings env s s1 e Hcycle) as Honce.
  pose proof (cycle_guarded settings env s) as Hkeep.
  rewrite Hcycle in Hkeep. unfold AgentLoop.guarded in Hkeep. simpl in Hkeep.
  inversion Hkeep as [[Herr Hflag]].
  eexists. split; [exact Honce|]. cbn [AgentLoop.self AgentLoop.trace
    AgentLoop._stats AgentLoop._running AgentLoop.incr_errors AgentLoop.errors].
  split; [rewrite Herr; reflexivity|].
  split; [reflexivity|].
  split; [rewrite Hflag, Hrun; reflexivity|].
  assert (Hstep : forall fuel,
            AgentLoop._run settings env (S fuel) s
            = AgentLoop._run settings env fuel
                {| AgentLoop.self :=
                     {| AgentLoop._running :=
                          AgentLoop._running (AgentLoop.self s1)
                          && negb (fst (AgentLoop.sleep env
                                          (AgentLoop.poll_interval_seconds settings)
                                          (AgentLoop.world s1)));
                        AgentLoop._last_vol_update :=
                          AgentLoop._last_vol_update (AgentLoop.self s1);
                        AgentLoop._cycle_count :=
                          AgentLoop._cycle_count (AgentLoop.self s1);
                        AgentLoop._stats :=
                          AgentLoop.incr_errors
                            (AgentLoop._stats (AgentLoop.self s1)) |};
                   AgentLoop.world :=
                     snd (AgentLoop.sleep env
                            (AgentLoop.poll_interval_seconds settings)
                            (AgentLoop.world s1));
                   AgentLoop.trace :=
                     AgentLoop.trace s1
                     ++ [AgentLoop.Sleep
                           (AgentLoop.poll_interval_seconds settings)] |}).
  { intros fuel. cbn [AgentLoop._run].
    unfold AgentLoop.bind at 1, AgentLoop.read. rewrite Hrun.
    unfold AgentLoop.bind at 1. rewrite Honce. reflexivity. }
  split; [exact Hstep|].
  intros Hstop fuel. rewrite Hstep. cbn [AgentLoop._run].
  unfold AgentLoop.bind at 1, AgentLoop.read.
  cbn [AgentLoop.self AgentLoop._running].
  fold poll. fold stopped. rewrite Hstop, Hflag, Hrun. reflexivity.
Qed.

(** C8 with the trust oracle out of reach: the first cycle raises on its
    first call. *)
Lemma C8_cycle_error_counted_loop_continues_witness :
  exists s1 e,
    AgentLoop._cycle AgentLoop.defaults AgentLoop.oracle_down AgentLoop.started
    = (inl e, s1) /\
    exists s2,
      AgentLoop.run_once AgentLoop.defaults AgentLoop.oracle_down
        AgentLoop.started = (inr tt, s2) /\
      AgentLoop.errors (AgentLoop._stats (AgentLoop.self s2)) = 1%Z.
Proof.
  do 2 eexists. split; [reflexivity|].
  destruct (proj1 (C8_cycle_error_counted_loop_continues
                     AgentLoop.defaults unit AgentLoop.oracle_down
                     AgentLoop.started _ _ eq_refl eq_refl))
    as (s2 & Hs2 & Herr & _).
  exists s2. split; [exact Hs2 | exact Herr].
Defined.

(** ** Claim payments within one cycle *)

Lemma scan_trace_submitted (ids : list Z) (t : list AgentLoop.Event) :
  AgentLoop.scan_trace ids t ->
  (forall p, In p (AgentLoop.submitted t) -> In p ids) /\
  (NoDup ids -> NoDup (AgentLoop.submitted t)) /\
  AgentLoop.settled t.
Proof.
  induction 1 as [ids | id ids t _ [IHin [IHnd IHs]]
                  | id ids me ok t _ [IHin [IHnd IHs]]]; simpl.
  - repeat split; [contradiction | constructor].
  - split; [intros p Hp; right; apply IHin; exact Hp|].
    split; [| exact IHs].
    intros Hnd. inversion Hnd; subst. apply IHnd. assumption.
  - split; [intros p [<-|Hp]; [left; reflexivity | right; apply IHin; exact Hp]|].
    split; [| split; [reflexivity | exact IHs]].
    intros Hnd. inversion Hnd as [|? ? Hnotin Hnd']; subst.
    constructor; [| apply IHnd; exact Hnd'].
    intros Hin. apply Hnotin. apply IHin. exact Hin.
Qed.

Lemma policy_ids_range (p : Z) :
  In p AgentLoop.policy_ids -> (1 <= p <= 100)%Z.
Proof.
  unfold AgentLoop.policy_ids. intros H. apply in_map_iff in H.
  destruct H as (n & <- & Hn). apply in_seq in Hn. lia.
Qed.

Lemma policy_ids_nodup : NoDup AgentLoop.policy_ids.
Proof.
  unfold AgentLoop.policy_ids.
  generalize (seq_NoDup 100 1). generalize (seq 1 100).
  induction 1 as [|n l Hn _ IH]; simpl; constructor; [| exact IH].
  intros H. apply in_map_iff in H. destruct H as (m & E & Hm).
  apply Nat2Z.inj in E. subst m. contradiction.
Qed.

Section ClaimTraces.

Import AgentLoop.

Variable settings : Settings.
Context {World : Type} (env : Collaborators World).

(** [_execute_claim] always returns; it asks for the payment with the loop
    object it was entered with, waits for the answer and counts it. *)
Lemma execute_claim_trace (policy_id : Z) (decision : ClaimDecision)
    (s : State World) :
  exists ok,
    _execute_claim settings env policy_id decision s
    = (inr tt,
       {| self :=
            {| _running := _running (self s);
               _last_vol_update := _last_vol_update (self s);
               _cycle_count := _cycle_count (self s);
               _stats := (if ok : bool then incr_claims_paid
                          else incr_claims_rejected) (_stats (self s)) |};
          world := snd (pay_claim env (agent_id settings) policy_id (world s));
          trace := trace s ++ [PayClaim policy_id (self s);
                               PayClaimDone policy_id ok] |}).
Proof.
  unfold _execute_claim, submit_claim, try_except, bind, read, emit, call,
    update_stats, update, ret. simpl.
  destruct (pay_claim env (agent_id settings) policy_id (world s))
    as [[e|tx] w]; simpl; [exists false | exists true];
    rewrite <- app_assoc; reflexivity.
Qed.

(** One turn of the scan: it always returns, having made no request or
    one request, for its own policy, that has returned. *)
Lemma scan_policy_trace (current_vol : Z) (vol : VolatilityReading)
    (policy_id : Z) (s : State World) :
  exists flow s',
    scan_policy settings env current_vol vol policy_id s = (inr flow, s') /\
    (trace s' = trace s \/
     exists me ok,
       trace s' = trace s ++ [PayClaim policy_id me; PayClaimDone policy_id ok]).
Proof.
  unfold scan_policy, try_except, bind at 1, call at 1.
  destruct (get_policy env policy_id (world s)) as [[e|policy] w]; simpl.
  { do 2 eexists. split; [reflexivity | left; reflexivity]. }
  destruct (String.eqb (holder policy) zero_address); simpl.
  { do 2 eexists. split; [reflexivity | left; reflexivity]. }
  destruct (negb (status policy =? 0)%Z); simpl.
  { do 2 eexists. split; [reflexivity | left; reflexivity]. }
  destruct (current_vol <? triggerThreshold policy)%Z; simpl.
  { do 2 eexists. split; [reflexivity | left; reflexivity]. }
  unfold bind, update_stats, update, call, ret. simpl.
  destruct (assess_claim env policy vol current_vol w) as [[e|decision] w'];
    simpl.
  { do 2 eexists. split; [reflexivity | left; reflexivity]. }
  destruct (should_pay decision && Qle_bool (7 # 10) (confidence decision)).
  - match goal with
    | |- context [_execute_claim settings env policy_id decision ?s0] =>
        destruct (execute_claim_trace policy_id decision s0) as [ok ->]
    end.
    simpl. do 2 eexists. split; [reflexivity|]. right. do 2 eexists.
    reflexivity.
  - simpl. do 2 eexists. split; [reflexivity | left; reflexivity].
Qed.

Lemma scan_trace_of (current_vol : Z) (vol : VolatilityReading)
    (ids : list Z) :
  forall s : State World,
  exists s' new,
    scan settings env current_vol vol ids s = (inr tt, s') /\
    trace s' = trace s ++ new /\ scan_trace ids new.
Proof.
  induction ids as [|id ids IH]; intros s; simpl.
  - exists s, []. rewrite app_nil_r. repeat split. constructor.
  - unfold bind.
    destruct (scan_policy_trace current_vol vol id s)
      as (flow & s1 & -> & Ht).
    destruct flow.
    + exists s1. destruct Ht as [Ht|(me & ok & Ht)].
      * exists []. rewrite app_nil_r. repeat split; [exact Ht | constructor].
      * eexists. split; [reflexivity|]. split; [exact Ht|].
        apply scan_pay. constructor.
    + destruct (IH s1) as (s' & new & -> & Hnew & Hscan).
      exists s'. destruct Ht as [Ht|(me & ok & Ht)].
      * exists new. split; [reflexivity|]. rewrite Hnew, Ht.
        split; [reflexivity | apply scan_skip; exact Hscan].
      * exists (PayClaim id me :: PayClaimDone id ok :: new).
        split; [reflexivity|]. rewrite Hnew, Ht, <- app_assoc.
        split; [reflexivity | apply scan_pay; exact Hscan].
Qed.

Lemma scan_policies_trace (s : State World) :
  exists new,
    trace (snd (_scan_policies settings env s)) = trace s ++ new /\
    scan_trace policy_ids new.
Proof.
  unfold _scan_policies. generalize policy_ids. intros ids.
  unfold bind, call.
  destruct (get_volatility_index env (world s)) as [[e|current_vol] w];
    cbn [snd trace world self];
    [exists []; rewrite app_nil_r; split; [reflexivity | constructor]|].
  destruct (get_volatility env w) as [[e|vol] w'];
    cbn [snd trace world self];
    [exists []; rewrite app_nil_r; split; [reflexivity | constructor]|].
  match goal with
  | |- context [scan settings env current_vol vol ids ?s1] =>
      destruct (scan_trace_of current_vol vol ids s1)
        as (s' & new & -> & Hnew & Hsc)
  end.
  exists new. split; [exact Hnew | exact Hsc].
Qed.

Lemma update_volatility_trace (s : State World) :
  trace (snd (_update_volatility settings env s)) = trace s \/
  exists v,
    trace (snd (_update_volatility settings env s))
    = trace s ++ [UpdateVolatility v].
Proof.
  unfold _update_volatility, bind, call, emit, update_stats, update.
  destruct (get_volatility env (world s)) as [[e|reading] w];
    cbn [snd trace world self]; [left; reflexivity|].
  right. exists (value_bps reading).
  destruct (update_volatility env (agent_id settings) (value_bps reading) w)
    as [[e|tx] w1]; cbn [snd trace world self]; [reflexivity|].
  destruct (time env w1) as [now w2]. reflexivity.
Qed.

(** The payments of one cycle: after at most one volatility update, those
    of one scan over the policy ids. *)
Lemma cycle_trace (s : State World) :
  exists pre claims,
    trace (snd (_cycle settings env s)) = trace s ++ pre ++ claims /\
    (pre = [] \/ exists v, pre = [UpdateVolatility v]) /\
    scan_trace policy_ids claims.
Proof.
  pose proof scan_policies_trace as Hscan.
  pose proof update_volatility_trace as Hupd.
  unfold _cycle.
  generalize dependent (_scan_policies settings env). intros scanp Hscan.
  generalize dependent (_update_volatility settings env). intros upd Hupd.
  assert (Hnone : forall s0 : State World,
            trace s0 = trace s ->
            exists pre claims,
              trace s0 = trace s ++ pre ++ claims /\
              (pre = [] \/ exists v, pre = [UpdateVolatility v]) /\
              scan_trace policy_ids claims).
  { intros s0 E. exists [], []. rewrite app_nil_r.
    repeat split; [exact E | left; reflexivity | constructor]. }
  assert (Hrest : forall (pre : list Event) (s0 : State World),
            trace s0 = trace s ++ pre ->
            (pre = [] \/ exists v, pre = [UpdateVolatility v]) ->
            exists pre' claims,
              trace (snd ((if auto_claim_enabled settings
                           then scanp else ret tt) s0))
              = trace s ++ pre' ++ claims /\
              (pre' = [] \/ exists v, pre' = [UpdateVolatility v]) /\
              scan_trace policy_ids claims).
  { intros pre s0 Hs0 Hpre. exists pre.
    destruct (auto_claim_enabled settings).
    - destruct (Hscan s0) as (new & Hnew & Hsc).
      exists new. rewrite Hnew, Hs0, <- app_assoc.
      repeat split; [exact Hpre | exact Hsc].
    - exists []. rewrite app_nil_r. unfold ret. cbn [snd].
      repeat split; [exact Hs0 | exact Hpre | constructor]. }
  unfold bind at 1, update. cbn [fst snd].
  unfold bind at 1, call at 1. cbn [world self trace].
  destruct (getOverallScore env (agent_id settings) (world s))
    as [[e|trust_score] w]; [apply Hnone; reflexivity|].
  destruct (trust_score <? min_trust_score settings)%Z;
    [apply Hnone; reflexivity|].
  unfold bind at 1, call at 1. cbn [world self trace].
  destruct (time env w) as [now w1].
  unfold bind at 1, read. cbn [self].
  unfold bind at 1.
  match goal with
  | |- context [(if ?c then upd else ret tt) ?s1] =>
      destruct c;
      [ destruct (Hupd s1) as [Hu|(v & Hu)];
        destruct (upd s1) as [[e|[]] s2]; cbn [snd] in Hu |- *
      | unfold ret at 1 ]
  end.
  - apply Hnone. exact Hu.
  - apply (Hrest []); [rewrite app_nil_r; exact Hu | left; reflexivity].
  - exists [UpdateVolatility v], [].
    repeat split; [exact Hu | right; eexists; reflexivity | constructor].
  - apply (Hrest [UpdateVolatility v]);
      [exact Hu | right; eexists; reflexivity].
  - apply (Hrest []); [rewrite app_nil_r; reflexivity | left; reflexivity].
Qed.

End ClaimTraces.

(** C7, as stated, while the payment for policy 1 is in progress on the
    healthy chain: the request is made with the loop object exactly as it was
    when [_execute_claim] was entered.  Nothing is marked, so nothing that
    reads the loop object can tell that a submission for policy 1 is in
    progress from the moment before it. *)
Lemma C7_no_in_progress_marker :
  let decision := {| AgentLoop.should_pay := true;
                     AgentLoop.confidence := 9 # 10;
                     AgentLoop.reasoning := "threshold exceeded";
                     AgentLoop.supporting_signals := [] |} in
  let before := AgentLoop.started in
  let after :=
    snd (AgentLoop._execute_claim AgentLoop.defaults AgentLoop.healthy 1
           decision before) in
  AgentLoop.trace after
    = [ AgentLoop.PayClaim 1 (AgentLoop.self before);
        AgentLoop.PayClaimDone 1 true ] /\
  ~ exists marker : AgentLoop.Loop -> Z -> bool,
      marker (AgentLoop.self before) 1%Z = false /\
      forall me,
        In (AgentLoop.PayClaim 1 me) (AgentLoop.trace after) ->
        marker me 1%Z = true.
Proof.
  cbv zeta. split; [reflexivity|].
  intros (marker & Hidle & Hbusy).
  specialize (Hbusy (AgentLoop.self AgentLoop.started) (or_introl eq_refl)).
  congruence.
Qed.

(** C7, amended: in every cycle of the loop at most one claim payment is
    requested per policy id, and no request is made while another is in
    progress: the scan visits the ids 1 to 100 once each, in order, and each
    request is followed at once by its own return, with success or with
    failure.  This comes from the sequential scan and not from a marker:
    [_execute_claim] makes the request with the loop object it was entered
    with and afterwards only counts the payment as paid or as rejected. *)
Theorem C7_one_request_per_policy_in_sequence :
  forall (settings : AgentLoop.Settings) (World : Type)
         (env : AgentLoop.Collaborators World) (s : AgentLoop.State World),
    (exists new,
       AgentLoop.trace (snd (AgentLoop._cycle settings env s))
       = AgentLoop.trace s ++ new /\
       NoDup (AgentLoop.submitted new) /\
       (forall p, In p (AgentLoop.submitted new) -> (1 <= p <= 100)%Z) /\
       (forall p, (count_occ Z.eq_dec (AgentLoop.submitted new) p <= 1)%nat) /\
       AgentLoop.settled new) /\
    (forall policy_id decision,
       exists ok s',
         AgentLoop._execute_claim settings env policy_id decision s
         = (inr tt, s') /\
         AgentLoop.trace s'
         = AgentLoop.trace s
           ++ [ AgentLoop.PayClaim policy_id (AgentLoop.self s);
                AgentLoop.PayClaimDone policy_id ok ] /\
         AgentLoop._stats (AgentLoop.self s')
         = (if ok : bool then AgentLoop.incr_claims_paid
            else AgentLoop.incr_claims_rejected)
             (AgentLoop._stats (AgentLoop.self s))).
Proof.
  intros settings World env s. split.
  - destruct (cycle_trace settings env s) as (pre & claims & Ht & Hpre & Hscan).
    destruct (scan_trace_submitted _ _ Hscan) as (Hin & Hnd & Hset).
    assert (Hsub : AgentLoop.submitted (pre ++ claims)
                   = AgentLoop.submitted claims)
      by (destruct Hpre as [->|[v ->]]; reflexivity).
    assert (Hsettled : AgentLoop.settled (pre ++ claims))
      by (destruct Hpre as [->|[v ->]]; exact Hset).
    exists (pre ++ claims). split; [exact Ht|]. rewrite Hsub.
    pose proof (Hnd policy_ids_nodup) as Hnodup.
    split; [exact Hnodup|].
    split; [intros p Hp; apply policy_ids_range, Hin; exact Hp|].
    split; [| exact Hsettled].
    intros p. apply (proj1 (NoDup_count_occ Z.eq_dec _) Hnodup).
  - intros policy_id decision.
    destruct (execute_claim_trace settings env policy_id decision s) as [ok H].
    exists ok. eexists. split; [exact H|]. split; reflexivity.
Qed.

(** * Further properties of the code *)

(** ** The composite the live engine can reach *)

Lemma int_le (x : Q) (n : Z) :
  (0 <= n)%Z -> x < inject_Z (n + 1) -> (Py.int x <= n)%Z.
Proof.
  intros Hn Hx. destruct (Qlt_le_dec x 0) as [Hneg|Hpos].
  - destruct x as [a d]. unfold Py.int. simpl.
    unfold Qlt in Hneg. simpl in Hneg.
    assert (Ha : (a <= 0)%Z) by lia.
    assert (H : (0 <= Z.quot (- a) (Z.pos d))%Z) by (apply Z.quot_pos; lia).
    rewrite Z.quot_opp_l in H by lia. lia.
  - rewrite int_nonneg by exact Hpos.
    pose proof (Qfloor_le x) as Hf.
    assert (Hlt : inject_Z (Qfloor x) < inject_Z (n + 1)) by lra.
    rewrite <- Zlt_Qlt in Hlt. lia.
Qed.

Lemma int_ge (x : Q) (n : Z) : inject_Z n <= x -> 0 <= x -> (n <= Py.int x)%Z.
Proof.
  intros Hn Hx. rewrite int_nonneg by exact Hx.
  apply Qfloor_resp_le in Hn. rewrite Qfloor_Z in Hn. exact Hn.
Qed.

Lemma imin_100_le (x : Z) : (Py.imin 100 x <= 100)%Z.
Proof. unfold Py.imin. lia. Qed.

(** The six scores of a live cycle: three are the constants of the
    simulated sources. *)
Lemma gather_scores (m : RiskEngine.MarketData) :
  exists s1 s4 s5 : Z,
    Cycle.scores (RiskEngine.gather RiskEngine.SIGNAL_WEIGHTS m)
    = [s1; 15; 2; s4; s5; 10]%Z /\
    (s1 <= 100)%Z /\
    (match RiskEngine.annualized_vol m with
     | inr vol => 0 <= vol
     | inl _ => True
     end -> (0 <= s1)%Z) /\
    (0 <= s4 <= 100)%Z /\ (0 <= s5 <= 100)%Z.
Proof.
  pose proof (realized_vol_ranged RiskEngine.SIGNAL_WEIGHTS m) as H1.
  pose proof (tvl_drawdown_ranged RiskEngine.SIGNAL_WEIGHTS m) as H4.
  pose proof (stablecoin_depeg_ranged RiskEngine.SIGNAL_WEIGHTS m) as H5.
  assert (H1' : match RiskEngine._get_realized_vol RiskEngine.SIGNAL_WEIGHTS m with
                | inr s => (RiskEngine.score s <= 100)%Z
                | inl _ => True
                end).
  { unfold RiskEngine._get_realized_vol, RiskEngine.try_except.
    destruct (RiskEngine.annualized_vol m) as [e|vol]; cbn; [lia|].
    apply imin_100_le. }
  pose proof (proj2 (gather_results_of m)) as Hall.
  unfold RiskEngine.gather in *.
  inversion Hall as [|? ? [x1 E1] Hall1]; subst.
  inversion Hall1 as [|? ? _ Hall2]; subst.
  inversion Hall2 as [|? ? _ Hall3]; subst.
  inversion Hall3 as [|? ? [x4 E4] Hall4]; subst.
  inversion Hall4 as [|? ? [x5 E5] _]; subst.
  rewrite E1 in H1, H1' |- *. rewrite E4 in H4 |- *. rewrite E5 in H5 |- *.
  exists (RiskEngine.score x1), (RiskEngine.score x4), (RiskEngine.score x5).
  split; [reflexivity|].
  split; [exact H1'|]. split; [intros Hv; apply H1; exact Hv|].
  split; assumption.
Qed.

Lemma live_risk_bounds (m : RiskEngine.MarketData) :
  exists c,
    RiskEngine.get_current_risk RiskEngine.SIGNAL_WEIGHTS m = inr c /\
    (RiskEngine.risk_level c <= 58)%Z /\
    (match RiskEngine.annualized_vol m with
     | inr vol => 0 <= vol
     | inl _ => True
     end -> (3 <= RiskEngine.risk_level c)%Z).
Proof.
  assert (Hnz : ~ Design.totalWeight (Py.values RiskEngine.SIGNAL_WEIGHTS) == 0)
    by discriminate.
  destruct (aggregate_spec _ SIGNAL_WEIGHTS_nodup _
              (proj1 (gather_results_of m)) Hnz)
    as (c & q & Hc & Hq & Hrisk & _).
  destruct (gather_scores m) as (s1 & s4 & s5 & Hs & H1 & H1' & H4 & H5).
  rewrite Hs in Hq.
  assert (Hq' : q == (20 # 100) * inject_Z s1 + (20 # 100) * inject_Z s4
                     + (15 # 100) * inject_Z s5 + (365 # 100)).
  { rewrite Hq. unfold Design.weightedAverage. cbn. field. }
  assert (B1 : inject_Z s1 <= 100)
    by (change 100 with (inject_Z 100); rewrite <- Zle_Qle; exact H1).
  assert (B4 : 0 <= inject_Z s4 <= 100).
  { split; [change 0 with (inject_Z 0) | change 100 with (inject_Z 100)];
      rewrite <- Zle_Qle; lia. }
  assert (B5 : 0 <= inject_Z s5 <= 100).
  { split; [change 0 with (inject_Z 0) | change 100 with (inject_Z 100)];
      rewrite <- Zle_Qle; lia. }
  exists c. split; [exact Hc|]. rewrite Hrisk. split.
  - apply int_le; [lia|]. change (inject_Z (58 + 1)) with 59. lra.
  - intros Hv. specialize (H1' Hv).
    assert (B0 : 0 <= inject_Z s1)
      by (change 0 with (inject_Z 0); rewrite <- Zle_Qle; exact H1').
    apply int_ge; [change (inject_Z 3) with 3|]; lra.
Qed.

(** X1: whatever the market data, the composite [get_current_risk] returns
    stays at or below 58: the funding-rate, liquidation and bridge sources
    are simulated constants (scores 15, 2 and 10) and carry 45% of the
    weight.  The black-swan flag is therefore never set and the
    recommendation is never HIGH or BLACK SWAN; with a volatility that is
    not negative the level is at least 3. *)
Theorem X1_live_composite_at_most_58 :
  forall m : RiskEngine.MarketData,
  exists c,
    RiskEngine.get_current_risk RiskEngine.SIGNAL_WEIGHTS m = inr c /\
    (RiskEngine.risk_level c <= 58)%Z /\
    RiskEngine.black_swan_active c = false /\
    RiskEngine.recommendation c <> RiskEngine.BLACK_SWAN /\
    RiskEngine.recommendation c <> RiskEngine.HIGH /\
    (match RiskEngine.annualized_vol m with
     | inr vol => 0 <= vol
     | inl _ => True
     end -> (3 <= RiskEngine.risk_level c)%Z).
Proof.
  intros m. destruct (live_risk_bounds m) as (c & Hc & Hhi & Hlo).
  exists c. split; [exact Hc|]. split; [exact Hhi|].
  unfold RiskEngine.get_current_risk, RiskEngine.aggregate in Hc.
  destruct (RiskEngine.valid_signals _ _) as [e|valid]; [discriminate|].
  destruct (RiskEngine.composite_score valid) as [e|q]; [discriminate|].
  inversion Hc; subst c; clear Hc.
  cbn [RiskEngine.risk_level RiskEngine.black_swan_active
       RiskEngine.recommendation] in *.
  unfold RiskEngine._get_recommendation.
  destruct (Z.leb_spec 80 (Py.int q)); [lia|].
  destruct (Z.leb_spec 60 (Py.int q)); [lia|].
  split; [reflexivity|]. split.
  - destruct (40 <=? Py.int q)%Z; [discriminate|].
    destruct (20 <=? Py.int q)%Z; discriminate.
  - split; [| exact Hlo].
    destruct (40 <=? Py.int q)%Z; [discriminate|].
    destruct (20 <=? Py.int q)%Z; discriminate.
Qed.

(** X2: a turn of the monitoring loop of the server never asks for a
    rebalance and never pushes a risk level to the vault: both sit behind
    [risk_level >= 60], which the engine does not reach.  All a turn does
    is look at the pending claims. *)
Theorem X2_monitor_never_rebalances :
  forall m : RiskEngine.MarketData,
    Monitor.monitor_step m = [Monitor.ProcessPendingClaims].
Proof.
  intros m. unfold Monitor.monitor_step.
  destruct (live_risk_bounds m) as (c & -> & Hhi & _).
  unfold Monitor.on_risk.
  destruct (Z.leb_spec 80 (RiskEngine.risk_level c)); [lia|].
  destruct (Z.leb_spec 60 (RiskEngine.risk_level c)); [lia|].
  reflexivity.
Qed.

(** ** The multiplier and the flags of a composite *)

Lemma round_of_Z (k : Z) : Py.round (inject_Z k) = k.
Proof.
  unfold Py.round. rewrite Qfloor_Z.
  assert (E : Qcompare (inject_Z k - inject_Z k) (1 # 2) = Lt).
  { apply (proj1 (Qlt_alt _ _)). lra. }
  rewrite E. reflexivity.
Qed.

(** X3: over a cycle with scores in range, the premium multiplier of the
    composite is exactly [1 + risk_level / 25] (rounding it to 2 places
    loses nothing), so it lies in [1, 5]; the black-swan flag is set exactly
    when the level is 80 or more, which is exactly when the recommendation
    is the BLACK SWAN one. *)
Theorem X3_multiplier_and_flags :
  forall (R : list (Py.result RiskEngine.RiskSignal)) (c : RiskEngine.CompositeRisk),
    Cycle.results_of RiskEngine.SIGNAL_WEIGHTS R ->
    Cycle.in_range R ->
    RiskEngine.aggregate RiskEngine.SIGNAL_WEIGHTS R = inr c ->
    RiskEngine.premium_multiplier c
      == 1 + inject_Z (RiskEngine.risk_level c) / 25 /\
    1 <= RiskEngine.premium_multiplier c <= 5 /\
    (RiskEngine.black_swan_active c = true
     <-> (80 <= RiskEngine.risk_level c)%Z) /\
    (RiskEngine.recommendation c = RiskEngine.BLACK_SWAN
     <-> (80 <= RiskEngine.risk_level c)%Z).
Proof.
  intros R c HR Hin Hc.
  assert (Htot : 0 < Design.totalWeight (Py.values RiskEngine.SIGNAL_WEIGHTS))
    by reflexivity.
  destruct (aggregate_truncates RiskEngine.SIGNAL_WEIGHTS SIGNAL_WEIGHTS_nodup
              SIGNAL_WEIGHTS_nonneg Htot R HR Hin)
    as (c' & Hc' & _ & Hrange & _).
  rewrite Hc in Hc'. inversion Hc'; subst c'; clear Hc'.
  unfold RiskEngine.aggregate in Hc.
  destruct (RiskEngine.valid_signals _ _) as [e|valid]; [discriminate|].
  destruct (RiskEngine.composite_score valid) as [e|q]; [discriminate|].
  inversion Hc; subst c; clear Hc.
  cbn [RiskEngine.risk_level RiskEngine.black_swan_active
       RiskEngine.recommendation RiskEngine.premium_multiplier] in *.
  set (r := Py.int q) in *.
  assert (Hpm : Py.round_nd (1 + inject_Z r / 100 * 4) 2
                == 1 + inject_Z r / 25).
  { unfold Py.round_nd.
    rewrite (round_proper _ (inject_Z (100 + 4 * r))).
    - rewrite round_of_Z. rewrite inject_Z_plus, inject_Z_mult.
      change (inject_Z (10 ^ Z.of_nat 2)) with 100.
      change (inject_Z 100) with 100. change (inject_Z 4) with 4. field.
    - rewrite inject_Z_plus, inject_Z_mult.
      change (inject_Z (10 ^ Z.of_nat 2)) with 100.
      change (inject_Z 100) with 100. change (inject_Z 4) with 4. field. }
  assert (B : 0 <= inject_Z r <= 100).
  { split; [change 0 with (inject_Z 0) | change 100 with (inject_Z 100)];
      rewrite <- Zle_Qle; lia. }
  assert (Hd : inject_Z r / 25 == inject_Z r * (1 # 25)) by field.
  split; [exact Hpm|]. split; [rewrite Hpm, Hd; split; lra|].
  split; [apply Z.leb_le|].
  unfold RiskEngine._get_recommendation.
  destruct (Z.leb_spec 80 r); [tauto|].
  split; [| lia].
  destruct (60 <=? r)%Z; [discriminate|].
  destruct (40 <=? r)%Z; [discriminate|].
  destruct (20 <=? r)%Z; discriminate.
Qed.

(** X3 on a cycle in which the bridge monitor raised. *)
Lemma X3_multiplier_and_flags_witness :
  let signal (k : string) (s : Z) (w : Q) :=
    {| RiskEngine.name := k; RiskEngine.value := 0; RiskEngine.score := s;
       RiskEngine.weight := w; RiskEngine.description := "" |} in
  let R := [ inr (signal "realized_vol"%string 36%Z (20 # 100));
             inr (signal "funding_rates"%string 15%Z (15 # 100));
             inr (signal "liquidation_vol"%string 2%Z (20 # 100));
             inr (signal "tvl_drawdown"%string 15%Z (20 # 100));
             inr (signal "stablecoin_depeg"%string 5%Z (15 # 100));
             inl (Py.Error "bridge monitor down") ] in
  exists c,
    RiskEngine.aggregate RiskEngine.SIGNAL_WEIGHTS R = inr c /\
    1 <= RiskEngine.premium_multiplier c <= 5.
Proof.
  intros signal R.
  assert (HR : Cycle.results_of RiskEngine.SIGNAL_WEIGHTS R)
    by (repeat constructor).
  assert (Hin : Cycle.in_range R) by (repeat constructor; simpl; lia).
  eexists. split; [vm_compute; reflexivity|].
  refine (proj1 (proj2 (X3_multiplier_and_flags R _ HR Hin _))).
  vm_compute. reflexivity.
Defined.

(** ** A higher score never lowers the level *)

Section OneScoreMoves.

Import RiskEngine.

Variables (W1 W2 : Py.dict Q) (k : string) (w : Q).
Variables (R1 R2 : list (Py.result RiskSignal)).
Variables (r r' : Py.result RiskSignal).

Let W := W1 ++ (k, w) :: W2.
Let T := Design.totalWeight (Py.values W).

Hypothesis T_pos : 0 < T.
Hypothesis R1_length : List.length R1 = List.length W1.

Lemma average_difference_at :
  Design.weightedAverage (Py.values W) (Cycle.scores (R1 ++ r' :: R2))
  - Design.weightedAverage (Py.values W) (Cycle.scores (R1 ++ r :: R2))
  == (inject_Z (hd 0%Z (Cycle.scores [r'])) - inject_Z (hd 0%Z (Cycle.scores [r])))
     * w / T.
Proof.
  unfold Design.weightedAverage. fold T.
  unfold Cycle.scores, W, Py.values.
  rewrite !map_app. simpl.
  assert (Hlen : List.length
                   (map (fun x : Py.result RiskSignal =>
                           match x with
                           | inl _ => Design.fallbackScore
                           | inr s0 => score s0
                           end) R1)
                 = List.length (map snd W1))
    by (rewrite !length_map; exact R1_length).
  rewrite !(weightedSum_app _ _ _ _ Hlen). simpl.
  field. lra.
Qed.

End OneScoreMoves.

Lemma results_of_replace (W1 W2 : Py.dict Q) (k : string) (w : Q)
    (R1 R2 : list (Py.result RiskEngine.RiskSignal))
    (x x' : Py.result RiskEngine.RiskSignal) :
  List.length R1 = List.length W1 ->
  Cycle.results_of (W1 ++ (k, w) :: W2) (R1 ++ x :: R2) ->
  match x' with inr s => RiskEngine.weight s = w | inl _ => True end ->
  Cycle.results_of (W1 ++ (k, w) :: W2) (R1 ++ x' :: R2).
Proof.
  unfold Cycle.results_of. revert R1.
  induction W1 as [|kw W1 IH]; intros [|y R1] Hlen H Hx'; try discriminate;
    simpl in *; inversion H; subst.
  - constructor; assumption.
  - constructor; [assumption|]. apply IH; [lia | assumption | assumption].
Qed.

Lemma in_range_replace (R1 R2 : list (Py.result RiskEngine.RiskSignal))
    (x x' : Py.result RiskEngine.RiskSignal) :
  Cycle.in_range (R1 ++ x :: R2) ->
  match x' with
  | inr s => (0 <= RiskEngine.score s <= 100)%Z
  | inl _ => True
  end ->
  Cycle.in_range (R1 ++ x' :: R2).
Proof.
  unfold Cycle.in_range. intros H Hx'. apply Forall_app in H.
  destruct H as [H1 H2]. inversion H2; subst.
  apply Forall_app. split; [assumption|]. constructor; assumption.
Qed.

(** X4: the risk level is monotone in every score.  For every weight set
    with weights that are not negative and a positive total, if one source
    reports a higher score and the other sources report what they did, the
    risk level of the composite does not go down. *)
Theorem X4_risk_level_monotone_in_score :
  forall (W1 W2 : Py.dict Q) (k : string) (w : Q)
         (R1 R2 : list (Py.result RiskEngine.RiskSignal))
         (s s' : RiskEngine.RiskSignal),
    let W := W1 ++ (k, w) :: W2 in
    NoDup (Py.keys W) ->
    Forall (fun x => 0 <= x) (Py.values W) ->
    0 < Design.totalWeight (Py.values W) ->
    List.length R1 = List.length W1 ->
    Cycle.results_of W (R1 ++ inr s :: R2) ->
    Cycle.in_range (R1 ++ inr s :: R2) ->
    RiskEngine.weight s' = w ->
    (RiskEngine.score s <= RiskEngine.score s' <= 100)%Z ->
    exists c c',
      RiskEngine.aggregate W (R1 ++ inr s :: R2) = inr c /\
      RiskEngine.aggregate W (R1 ++ inr s' :: R2) = inr c' /\
      (RiskEngine.risk_level c <= RiskEngine.risk_level c')%Z.
Proof.
  intros W1 W2 k w R1 R2 s s' W Hnd Hnn HT Hlen HR Hin Hw Hs.
  destruct (in_range_middle R1 R2 s Py.ZeroDivisionError Hin) as [Hs0 _].
  assert (HR' : Cycle.results_of W (R1 ++ inr s' :: R2))
    by (apply (results_of_replace W1 W2 k w R1 R2 (inr s) (inr s'));
        assumption).
  assert (Hin' : Cycle.in_range (R1 ++ inr s' :: R2))
    by (apply (in_range_replace R1 R2 (inr s) (inr s')); [assumption | lia]).
  destruct (aggregate_truncates W Hnd Hnn HT _ HR Hin) as (c & Hc & Hfl & _).
  destruct (aggregate_truncates W Hnd Hnn HT _ HR' Hin') as (c' & Hc' & Hfl' & _).
  exists c, c'. split; [exact Hc|]. split; [exact Hc'|].
  rewrite Hfl, Hfl'. apply Qfloor_resp_le.
  pose proof (average_difference_at W1 W2 k w R1 R2 (inr s) (inr s') HT Hlen)
    as Hd.
  fold W in Hd. cbn [Cycle.scores map hd] in Hd.
  pose proof (w_nonneg W1 W2 k w Hnn) as Hw0.
  assert (Hge : 0 <= (inject_Z (RiskEngine.score s')
                      - inject_Z (RiskEngine.score s)) * w
                     / Design.totalWeight (Py.values W)).
  { apply Qle_shift_div_l; [exact HT|]. rewrite Qmult_0_l.
    apply Qmult_le_0_compat; [| exact Hw0].
    assert (inject_Z (RiskEngine.score s) <= inject_Z (RiskEngine.score s'))
      by (rewrite <- Zle_Qle; lia).
    lra. }
  rewrite <- Hd in Hge.
  set (a := Design.weightedAverage (Py.values W)
              (Cycle.scores (R1 ++ inr s :: R2))) in *.
  set (b := Design.weightedAverage (Py.values W)
              (Cycle.scores (R1 ++ inr s' :: R2))) in *.
  apply Qle_minus_iff. setoid_replace (b + - a) with (b - a) by ring.
  exact Hge.
Qed.

(** X4 on the configured weights, the depeg score going from 5 to 60. *)
Lemma X4_risk_level_monotone_in_score_witness :
  let signal (k : string) (s : Z) (w : Q) :=
    {| RiskEngine.name := k; RiskEngine.value := 0; RiskEngine.score := s;
       RiskEngine.weight := w; RiskEngine.description := "" |} in
  let W1 := [ ("realized_vol", 20 # 100); ("funding_rates", 15 # 100);
              ("liquidation_vol", 20 # 100);
              ("tvl_drawdown", 20 # 100) ]%string in
  let W2 := [ ("bridge_anomaly", 10 # 100) ]%string in
  let R1 := [ inr (signal "realized_vol"%string 36%Z (20 # 100));
              inr (signal "funding_rates"%string 15%Z (15 # 100));
              inr (signal "liquidation_vol"%string 2%Z (20 # 100));
              inr (signal "tvl_drawdown"%string 15%Z (20 # 100)) ] in
  let R2 := [ inr (signal "bridge_anomaly"%string 10%Z (10 # 100)) ] in
  let s := signal "stablecoin_depeg"%string 5%Z (15 # 100) in
  let s' := signal "stablecoin_depeg"%string 60%Z (15 # 100) in
  W1 ++ ("stablecoin_depeg"%string, 15 # 100) :: W2
    = RiskEngine.SIGNAL_WEIGHTS /\
  exists c c',
    RiskEngine.aggregate RiskEngine.SIGNAL_WEIGHTS (R1 ++ inr s :: R2) = inr c /\
    RiskEngine.aggregate RiskEngine.SIGNAL_WEIGHTS (R1 ++ inr s' :: R2) = inr c' /\
    (RiskEngine.risk_level c <= RiskEngine.risk_level c')%Z.
Proof.
  intros signal W1 W2 R1 R2 s s'. split; [reflexivity|].
  apply (X4_risk_level_monotone_in_score W1 W2 "stablecoin_depeg" (15 # 100)
           R1 R2 s s').
  - unfold Py.keys; simpl.
    repeat (constructor; [simpl; intuition discriminate |]). constructor.
  - repeat (constructor; [apply Qle_bool_iff; vm_compute; reflexivity|]).
    constructor.
  - reflexivity.
  - reflexivity.
  - repeat constructor.
  - repeat constructor; simpl; lia.
  - reflexivity.
  - simpl. lia.
Defined.

(** ** The edges of the TVL and depeg sources *)

Lemma int_nonpos (x : Q) : x <= 0 -> (Py.int x <= 0)%Z.
Proof.
  intros H. apply int_le; [lia|]. change (inject_Z (0 + 1)) with 1. lra.
Qed.

Lemma int_mono (x y : Q) : 0 <= x -> x <= y -> (Py.int x <= Py.int y)%Z.
Proof.
  intros Hx Hxy. rewrite !int_nonneg by lra. apply Qfloor_resp_le. exact Hxy.
Qed.

Lemma max_spec (a b : Q) :
  (a <= b /\ Py.max a b = b) \/ (b < a /\ Py.max a b = a).
Proof.
  unfold Py.max. destruct (Qle_bool a b) eqn:E.
  - left. split; [apply Qle_bool_iff; exact E | reflexivity].
  - right. split; [| reflexivity].
    apply Qnot_le_lt. intros H. apply Qle_bool_iff in H. congruence.
Qed.

(** X5: the TVL source never raises, also for a series whose previous
    point is 0: a failed request scores 15, a series of fewer than two points
    scores 10, and with two points or more only the last two count.  A
    previous point that is not positive, or a TVL that did not fall, scores
    0; the score is within [0, 100] in every case. *)
Theorem X5_tvl_signal_edges :
  forall m : RiskEngine.MarketData,
    exists s,
      RiskEngine._get_tvl_drawdown RiskEngine.SIGNAL_WEIGHTS m = inr s /\
      RiskEngine.name s = "tvl_drawdown"%string /\
      (0 <= RiskEngine.score s <= 100)%Z /\
      (forall e, RiskEngine.tvl_series m = inl e ->
         RiskEngine.score s = 15%Z /\ RiskEngine.value s == 0) /\
      (forall data, RiskEngine.tvl_series m = inr data ->
         ((List.length data < 2)%nat ->
            RiskEngine.score s = 10%Z /\ RiskEngine.value s == 0) /\
         (forall older prev_tvl current_tvl,
            data = older ++ [prev_tvl; current_tvl] ->
            (prev_tvl <= 0 ->
               RiskEngine.score s = 0%Z /\ RiskEngine.value s == 0) /\
            (0 < prev_tvl -> prev_tvl <= current_tvl ->
               RiskEngine.score s = 0%Z /\ RiskEngine.value s <= 0))).
Proof.
  intros m. unfold RiskEngine._get_tvl_drawdown, RiskEngine.try_except.
  destruct (RiskEngine.tvl_series m) as [e|data] eqn:Em.
  - eexists. split; [reflexivity|]. split; [reflexivity|].
    split; [cbn; lia|]. split; [| intros data H; discriminate].
    intros _ _. split; reflexivity.
  - destruct (rev data) as [|current_tvl [|prev_tvl rest]] eqn:Er.
    + eexists. split; [reflexivity|]. split; [reflexivity|].
      split; [cbn; lia|]. split; [intros e H; discriminate|].
      intros data' H. injection H as <-. split.
      * intros _. split; reflexivity.
      * intros older p c ->. rewrite rev_app_distr in Er. discriminate.
    + eexists. split; [reflexivity|]. split; [reflexivity|].
      split; [cbn; lia|]. split; [intros e H; discriminate|].
      intros data' H. injection H as <-. split.
      * intros _. split; reflexivity.
      * intros older p c ->. rewrite rev_app_distr in Er. discriminate.
    + set (drawdown_pct :=
             if Qlt_le_dec 0 prev_tvl
             then (prev_tvl - current_tvl) / prev_tvl * 100 else 0).
      eexists. split; [reflexivity|]. split; [reflexivity|].
      split; [cbn [RiskEngine.score]; unfold Py.imin, Py.imax; lia|].
      split; [intros e H; discriminate|].
      intros data' H. injection H as <-. split.
      * intros Hlen. apply (f_equal (@List.length Q)) in Er.
        rewrite length_rev in Er. simpl in Er. lia.
      * intros older p c ->. rewrite rev_app_distr in Er. simpl in Er.
        injection Er as <- <- _. cbn [RiskEngine.score RiskEngine.value].
        fold drawdown_pct. split.
        -- intros Hp. unfold drawdown_pct.
           destruct (Qlt_le_dec 0 p) as [Hlt|_]; [lra|].
           split; reflexivity.
        -- intros Hp Hc.
           assert (Hd : drawdown_pct <= 0).
           { unfold drawdown_pct. destruct (Qlt_le_dec 0 p) as [_|Hle]; [|lra].
             assert (Hq : (p - c) / p <= 0).
             { apply Qle_shift_div_r; [exact Hp | lra]. }
             lra. }
           split.
           ++ assert (Hi : (Py.int (drawdown_pct * 10) <= 0)%Z)
                by (apply int_nonpos; lra).
              unfold Py.imin, Py.imax. lia.
           ++ pose proof (round_nd_le drawdown_pct 2 0) as Hr.
              assert (Hz : inject_Z 0 / inject_Z (10 ^ Z.of_nat 2) == 0)
                by reflexivity.
              rewrite Hz in Hr. apply Hr. exact Hd.
Qed.

(** The deviation from the peg the depeg source computes for one coin; a
    coin that is not quoted counts as on the peg. *)
Lemma depeg_signal (m : RiskEngine.MarketData) (usdc usdt dai : option Q)
    (deviation : option Q -> Q) :
  (forall p, deviation p
             = Qabs (match p with Some x => x | None => 1 end - 1)) ->
  RiskEngine.stable_prices m = inr (usdc, usdt, dai) ->
  exists s,
    RiskEngine._get_stablecoin_depeg RiskEngine.SIGNAL_WEIGHTS m = inr s /\
    RiskEngine.score s
    = Py.imin 100
        (Py.int (Py.max (Py.max (deviation usdc) (deviation usdt))
                   (deviation dai) * 10000)) /\
    0 <= Py.max (Py.max (deviation usdc) (deviation usdt)) (deviation dai) /\
    (forall p, In p [usdc; usdt; dai] ->
       deviation p
       <= Py.max (Py.max (deviation usdc) (deviation usdt)) (deviation dai)) /\
    In (Py.max (Py.max (deviation usdc) (deviation usdt)) (deviation dai))
       (map deviation [usdc; usdt; dai]).
Proof.
  intros Hdev Hm.
  unfold RiskEngine._get_stablecoin_depeg, RiskEngine.try_except.
  rewrite Hm. eexists. split; [reflexivity|].
  cbn [RiskEngine.score]. rewrite <- !Hdev. split; [reflexivity|].
  assert (H0 : 0 <= deviation usdc) by (rewrite Hdev; apply Qabs_nonneg).
  destruct (max_spec (deviation usdc) (deviation usdt)) as [[H1 ->]|[H1 ->]];
    [destruct (max_spec (deviation usdt) (deviation dai)) as [[H2 ->]|[H2 ->]]
    |destruct (max_spec (deviation usdc) (deviation dai)) as [[H2 ->]|[H2 ->]]];
    (split; [lra|]);
    (split; [intros p [<-|[<-|[<-|[]]]]; lra | simpl; auto]).
Qed.

(** X6: the depeg source treats a coin without a quote as exactly on the
    peg.  With no coin off the peg the score is 0; one quoted coin 1% or
    more away from 1, on either side, makes it 100 whatever the others say;
    and losing quotes never raises the score. *)
Theorem X6_depeg_missing_quotes_on_peg :
  forall (m m' : RiskEngine.MarketData) (usdc usdt dai usdc' usdt' dai' : option Q),
    RiskEngine.stable_prices m = inr (usdc, usdt, dai) ->
    RiskEngine.stable_prices m' = inr (usdc', usdt', dai') ->
    (usdc' = usdc \/ usdc' = None) ->
    (usdt' = usdt \/ usdt' = None) ->
    (dai' = dai \/ dai' = None) ->
    exists s s',
      RiskEngine._get_stablecoin_depeg RiskEngine.SIGNAL_WEIGHTS m = inr s /\
      RiskEngine._get_stablecoin_depeg RiskEngine.SIGNAL_WEIGHTS m' = inr s' /\
      (RiskEngine.score s' <= RiskEngine.score s)%Z /\
      ((forall p, In (Some p) [usdc; usdt; dai] -> p == 1) ->
         RiskEngine.score s = 0%Z) /\
      ((exists p, In (Some p) [usdc; usdt; dai] /\ 1 # 100 <= Qabs (p - 1)) ->
         RiskEngine.score s = 100%Z).
Proof.
  intros m m' usdc usdt dai usdc' usdt' dai' Hm Hm' Hc Ht Hd.
  set (deviation := fun p : option Q =>
         Qabs (match p with Some x => x | None => 1 end - 1)).
  destruct (depeg_signal m usdc usdt dai deviation (fun _ => eq_refl) Hm)
    as (s & Hs & Hscore & H0 & Hle & _).
  destruct (depeg_signal m' usdc' usdt' dai' deviation (fun _ => eq_refl) Hm')
    as (s' & Hs' & Hscore' & H0' & _ & Hmax').
  set (M := Py.max (Py.max (deviation usdc) (deviation usdt)) (deviation dai))
    in *.
  set (M' := Py.max (Py.max (deviation usdc') (deviation usdt'))
               (deviation dai')) in *.
  assert (Hnone : deviation None == 0) by reflexivity.
  assert (Hdrop : forall p' p, p' = p \/ p' = None ->
                    In p [usdc; usdt; dai] -> deviation p' <= M).
  { intros p' p [->| ->] Hp; [apply Hle; exact Hp | rewrite Hnone; exact H0]. }
  assert (HM : M' <= M).
  { simpl in Hmax'. destruct Hmax' as [<-|[<-|[<-|[]]]];
      [apply (Hdrop usdc' usdc) | apply (Hdrop usdt' usdt)
       | apply (Hdrop dai' dai)]; simpl; auto. }
  exists s, s'. split; [exact Hs|]. split; [exact Hs'|].
  rewrite Hscore, Hscore'. split; [| split].
  - assert (Hi : (Py.int (M' * 10000) <= Py.int (M * 10000))%Z)
      by (apply int_mono; lra).
    unfold Py.imin. lia.
  - intros Hall.
    assert (Hz : forall p, In p [usdc; usdt; dai] -> deviation p == 0).
    { intros [p|] Hin; [| exact Hnone].
      unfold deviation. rewrite (Hall p Hin). reflexivity. }
    assert (HM0 : M == 0).
    { assert (HleM : M <= 0).
      { destruct (depeg_signal m usdc usdt dai deviation (fun _ => eq_refl) Hm)
          as (_ & _ & _ & _ & _ & Hmax).
        fold M in Hmax. simpl in Hmax.
        destruct Hmax as [<-|[<-|[<-|[]]]];
          [rewrite (Hz usdc) | rewrite (Hz usdt) | rewrite (Hz dai)];
          simpl; auto; lra. }
      lra. }
    assert (Hi : Py.int (M * 10000) = 0%Z).
    { rewrite int_nonneg by lra.
      assert (E : M * 10000 == inject_Z 0) by (rewrite HM0; reflexivity).
      rewrite (Qfloor_comp _ _ E). apply Qfloor_Z. }
    rewrite Hi. reflexivity.
  - intros (p & Hin & Hp).
    assert (Hdev : 1 # 100 <= M).
    { pose proof (Hle (Some p) Hin) as HleM.
      unfold deviation in HleM at 1. lra. }
    assert (Hi : (100 <= Py.int (M * 10000))%Z).
    { apply int_ge; [change (inject_Z 100) with 100|]; lra. }
    unfold Py.imin. lia.
Qed.

(** X6 at the quotes 1.0, 0.985 and none: losing the tether quote takes
    the score from 100 to 0. *)
Lemma X6_depeg_missing_quotes_on_peg_witness :
  let m := {| RiskEngine.annualized_vol := inr (35 # 100);
              RiskEngine.tvl_series := inr [100; 99];
              RiskEngine.stable_prices := inr (Some 1, Some (985 # 1000), None) |} in
  let m' := {| RiskEngine.annualized_vol := inr (35 # 100);
               RiskEngine.tvl_series := inr [100; 99];
               RiskEngine.stable_prices := inr (Some 1, None, None) |} in
  exists s s',
    RiskEngine._get_stablecoin_depeg RiskEngine.SIGNAL_WEIGHTS m = inr s /\
    RiskEngine._get_stablecoin_depeg RiskEngine.SIGNAL_WEIGHTS m' = inr s' /\
    RiskEngine.score s = 100%Z /\ RiskEngine.score s' = 0%Z.
Proof.
  intros m m'.
  destruct (X6_depeg_missing_quotes_on_peg m m'
              (Some 1) (Some (985 # 1000)) None (Some 1) None None
              eq_refl eq_refl (or_introl eq_refl) (or_intror eq_refl)
              (or_introl eq_refl))
    as (s & s' & Hs & Hs' & _ & _ & _).
  exists s, s'. split; [exact Hs|]. split; [exact Hs'|].
  vm_compute in Hs, Hs'. injection Hs as <-. injection Hs' as <-.
  split; reflexivity.
Defined.

(** ** Premiums across the duration tiers *)

Lemma round_mono (x y : Q) : x <= y -> (Py.round x <= Py.round y)%Z.
Proof.
  intros Hxy.
  pose proof (Qfloor_resp_le _ _ Hxy) as Hf.
  destruct (Z.eq_dec (Qfloor x) (Qfloor y)) as [E|NE].
  - unfold Py.round. rewrite <- E.
    destruct (Qcompare (x - inject_Z (Qfloor x)) (1 # 2)) eqn:Cx;
      destruct (Qcompare (y - inject_Z (Qfloor x)) (1 # 2)) eqn:Cy;
      try destruct (Z.even (Qfloor x)); try lia;
      first [apply Qeq_alt in Cx | apply Qlt_alt in Cx | apply Qgt_alt in Cx];
      first [apply Qeq_alt in Cy | apply Qlt_alt in Cy | apply Qgt_alt in Cy];
      lra.
  - pose proof (round_between x). pose proof (round_between y). lia.
Qed.

Lemma round_nd_mono (x y : Q) (n : nat) :
  x <= y -> Py.round_nd x n <= Py.round_nd y n.
Proof.
  intros Hxy. unfold Py.round_nd.
  pose proof (pow10_pos n) as Hp.
  apply Qmult_le_compat_r;
    [| apply Qlt_le_weak, Qinv_lt_0_compat; exact Hp].
  rewrite <- Zle_Qle. apply round_mono.
  apply Qmult_le_compat_r; [exact Hxy | apply Qlt_le_weak; exact Hp].
Qed.

Lemma base_rate_at_least_50 (category : string) :
  (50 <= Design.baseRateBps category <= 300)%Z.
Proof.
  unfold Design.baseRateBps.
  destruct (Py.dict_get LLMPricer.BASE_ANNUAL_RATES_BPS category) as [rate|] eqn:E;
    [| lia].
  apply dict_get_in in E. simpl in E. intuition lia.
Qed.

(** The rates of the three duration tiers, on the rate [A] left by the first
    cut. *)
Lemma tier_rates (category : string) (risk : Z) (m : Q) :
  1 <= m ->
  let cr := {| LLMPricer.cr_risk_level := risk;
               LLMPricer.cr_premium_multiplier := Some m |} in
  exists A : Z,
    (50 <= A)%Z /\
    (forall days, (days < 90)%Z ->
       LLMPricer.adjusted_rate_bps category days cr = A) /\
    (forall days, (90 <= days < 180)%Z ->
       LLMPricer.adjusted_rate_bps category days cr
       = Qfloor ((92 # 100) * inject_Z A)) /\
    (forall days, (180 <= days)%Z ->
       LLMPricer.adjusted_rate_bps category days cr
       = Qfloor ((85 # 100) * inject_Z A)).
Proof.
  intros Hm cr.
  pose proof (base_rate_at_least_50 category) as Hb.
  set (b := Design.baseRateBps category) in *.
  exists (Qfloor (inject_Z b * m)).
  assert (Hb50 : 50 <= inject_Z b)
    by (change 50 with (inject_Z 50); rewrite <- Zle_Qle; lia).
  split.
  { assert (H : inject_Z 50 <= inject_Z b * m).
    { change (inject_Z 50) with 50. nra. }
    apply Qfloor_resp_le in H. rewrite Qfloor_Z in H. exact H. }
  assert (H0 : 0 <= m) by lra.
  split; [| split]; intros days Hd; unfold cr;
    rewrite (adjusted_rate_floor category days risk m H0); fold b;
    unfold Design.durationDiscount.
  - replace (180 <=? days)%Z with false by (symmetry; apply Z.leb_gt; lia).
    replace (90 <=? days)%Z with false by (symmetry; apply Z.leb_gt; lia).
    rewrite <- (Qfloor_Z (Qfloor (inject_Z b * m))) at 2.
    apply Qfloor_comp. ring.
  - replace (180 <=? days)%Z with false by (symmetry; apply Z.leb_gt; lia).
    replace (90 <=? days)%Z with true by (symmetry; apply Z.leb_le; lia).
    reflexivity.
  - replace (180 <=? days)%Z with true by (symmetry; apply Z.leb_le; lia).
    reflexivity.
Qed.

(** X7: the duration discount applies to the whole premium from day 90 and
    from day 180 on, so the price falls at both marks: with a multiplier of
    at least 1 and a positive coverage, 90 days of cover cost less than 89
    days, and 180 days less than 179 days, before and after the quote is
    rounded to cents. *)
Theorem X7_longer_cover_costs_less :
  forall (coverage : Q) (category : string) (risk : Z) (m : Q),
    0 < coverage -> 1 <= m ->
    let cr := {| LLMPricer.cr_risk_level := risk;
                 LLMPricer.cr_premium_multiplier := Some m |} in
    let raw := fun days =>
      LLMPricer.raw_premium_amount coverage category days cr in
    let quoted := fun days =>
      LLMPricer.premium_amount
        (LLMPricer.price_premium coverage category days cr) in
    raw 90%Z < raw 89%Z /\ raw 180%Z < raw 179%Z /\
    quoted 90%Z <= quoted 89%Z /\ quoted 180%Z <= quoted 179%Z.
Proof.
  intros coverage category risk m Hc Hm cr raw quoted.
  destruct (tier_rates category risk m Hm) as (A & HA & Hshort & Hmid & Hlong).
  fold cr in Hshort, Hmid, Hlong.
  assert (HA50 : 50 <= inject_Z A)
    by (change 50 with (inject_Z 50); rewrite <- Zle_Qle; exact HA).
  pose proof (Qfloor_le ((92 # 100) * inject_Z A)) as Hmid_le.
  pose proof (Qlt_floor ((92 # 100) * inject_Z A)) as Hmid_gt.
  pose proof (Qfloor_le ((85 # 100) * inject_Z A)) as Hlong_le.
  rewrite inject_Z_plus in Hmid_gt. change (inject_Z 1) with 1 in Hmid_gt.
  set (r92 := inject_Z (Qfloor ((92 # 100) * inject_Z A))) in *.
  set (r85 := inject_Z (Qfloor ((85 # 100) * inject_Z A))) in *.
  assert (E89 : raw 89%Z == coverage * (inject_Z A * 89) / 3650000).
  { unfold raw, LLMPricer.raw_premium_amount.
    rewrite (Hshort 89%Z) by lia. change (inject_Z 89) with 89. field. }
  assert (E90 : raw 90%Z == coverage * (r92 * 90) / 3650000).
  { unfold raw, LLMPricer.raw_premium_amount.
    rewrite (Hmid 90%Z) by lia. fold r92. change (inject_Z 90) with 90. field. }
  assert (E179 : raw 179%Z == coverage * (r92 * 179) / 3650000).
  { unfold raw, LLMPricer.raw_premium_amount.
    rewrite (Hmid 179%Z) by lia. fold r92. change (inject_Z 179) with 179.
    field. }
  assert (E180 : raw 180%Z == coverage * (r85 * 180) / 3650000).
  { unfold raw, LLMPricer.raw_premium_amount.
    rewrite (Hlong 180%Z) by lia. fold r85. change (inject_Z 180) with 180.
    field. }
  assert (Hscale : forall a b, a < b ->
            coverage * a / 3650000 < coverage * b / 3650000).
  { intros a b Hab.
    assert (Hd : forall x, coverage * x / 3650000
                           == x * (coverage * (1 # 3650000)))
      by (intros x; field).
    rewrite !Hd. apply Qmult_lt_compat_r; [| exact Hab].
    apply Qmult_lt_0_compat; [exact Hc | reflexivity]. }
  assert (L1 : raw 90%Z < raw 89%Z)
    by (rewrite E89, E90; apply Hscale; lra).
  assert (L2 : raw 180%Z < raw 179%Z)
    by (rewrite E179, E180; apply Hscale; lra).
  split; [exact L1|]. split; [exact L2|].
  split; unfold quoted, LLMPricer.price_premium;
    cbn [LLMPricer.premium_amount]; apply round_nd_mono, Qlt_le_weak;
    assumption.
Qed.

(** X7 for 1,000,000 of bridge cover at multiplier 1.48: 89 days cost
    10,826.30 and 90 days 10,060.27. *)
Lemma X7_longer_cover_costs_less_witness :
  let cr := {| LLMPricer.cr_risk_level := 12;
               LLMPricer.cr_premium_multiplier := Some (148 # 100) |} in
  LLMPricer.premium_amount (LLMPricer.price_premium 1000000 "bridge" 89 cr)
    == 1082630 # 100 /\
  LLMPricer.premium_amount (LLMPricer.price_premium 1000000 "bridge" 90 cr)
    == 1006027 # 100 /\
  LLMPricer.premium_amount (LLMPricer.price_premium 1000000 "bridge" 90 cr)
  <= LLMPricer.premium_amount (LLMPricer.price_premium 1000000 "bridge" 89 cr).
Proof.
  intros cr.
  assert (Hc : 0 < 1000000) by reflexivity.
  assert (Hm : 1 <= 148 # 100) by discriminate.
  split; [vm_compute; reflexivity|]. split; [vm_compute; reflexivity|].
  exact (proj1 (proj2 (proj2
           (X7_longer_cover_costs_less 1000000 "bridge" 12 (148 # 100) Hc Hm)))).
Defined.

(** ** The risk factors of a quote *)

(** The factors for four given answers of the signal tests. *)
Lemma risk_factors_cases (category : string) (vol liq depeg bridge : bool) :
  let base :=
    LLMPricer.get_or PricerFactors.category_factors category
      ["General DeFi protocol risk"%string] in
  let known :=
    match Py.dict_get PricerFactors.category_factors category with
    | Some _ => true
    | None => false
    end in
  let factors :=
    firstn 5
      (PricerFactors.append_if bridge "Bridge outflow anomaly"
         (PricerFactors.append_if depeg "Stablecoin peg stress detected"
            (PricerFactors.append_if liq "Active liquidation cascades"
               (PricerFactors.append_if vol "Elevated realized volatility"
                  base)))) in
  (1 <= List.length factors <= 5)%nat /\
  (exists rest, factors = base ++ rest) /\
  (In "Elevated realized volatility"%string factors <-> vol = true) /\
  (In "Active liquidation cascades"%string factors <-> liq = true) /\
  (In "Stablecoin peg stress detected"%string factors <-> depeg = true) /\
  (In "Bridge outflow anomaly"%string factors
   <-> bridge = true /\ known && vol && liq && depeg = false).
Proof.
  intros base known factors. subst base known factors.
  unfold LLMPricer.get_or.
  destruct (Py.dict_get PricerFactors.category_factors category) as [l|] eqn:E.
  - apply dict_get_in in E. simpl in E.
    destruct E as [<-|[<-|[<-|[<-|[<-|[<-|[]]]]]]];
      destruct vol, liq, depeg, bridge; cbn;
      (split; [lia|]); (split; [eexists; reflexivity|]);
      repeat split; intros; try reflexivity; try discriminate;
      try (intuition discriminate); auto 10.
  - destruct vol, liq, depeg, bridge; cbn;
      (split; [lia|]); (split; [eexists; reflexivity|]);
      repeat split; intros; try reflexivity; try discriminate;
      try (intuition discriminate); auto 10.
Qed.

(** X8: the list of risk factors always starts with the factors of the
    category (the one general factor for a category that is not in the
    table) and has between 1 and 5 entries.  A signal factor is listed
    exactly when its score is above its mark (50, 40, 20), except the last
    one: "Bridge outflow anomaly" is listed when the bridge score is above 30
    unless the category is in the table and the three other signals are all
    above their marks, in which case the cap of 5 cuts it off. *)
Theorem X8_risk_factors_cap_drops_bridge :
  forall (category : string) (signals : Py.dict (option Z)),
    let factors := PricerFactors._identify_risk_factors category signals in
    let above (mark : Z) (k : string) :=
      (mark <? PricerFactors.score_of signals k)%Z in
    let known :=
      match Py.dict_get PricerFactors.category_factors category with
      | Some _ => true
      | None => false
      end in
    (1 <= List.length factors <= 5)%nat /\
    (exists rest,
       factors
       = LLMPricer.get_or PricerFactors.category_factors category
           ["General DeFi protocol risk"%string] ++ rest) /\
    (In "Elevated realized volatility"%string factors
     <-> above 50%Z "realized_vol"%string = true) /\
    (In "Active liquidation cascades"%string factors
     <-> above 40%Z "liquidation_vol"%string = true) /\
    (In "Stablecoin peg stress detected"%string factors
     <-> above 20%Z "stablecoin_depeg"%string = true) /\
    (In "Bridge outflow anomaly"%string factors
     <-> above 30%Z "bridge_anomaly"%string = true /\
         known && above 50%Z "realized_vol"%string
         && above 40%Z "liquidation_vol"%string
         && above 20%Z "stablecoin_depeg"%string = false).
Proof.
  intros category signals factors above known.
  exact (risk_factors_cases category
           (above 50%Z "realized_vol"%string)
           (above 40%Z "liquidation_vol"%string)
           (above 20%Z "stablecoin_depeg"%string)
           (above 30%Z "bridge_anomaly"%string)).
Qed.

(** ** A quote served on the live risk *)

(** What the live engine hands to the pricer. *)
Lemma live_composite (m : RiskEngine.MarketData) :
  exists c (s1 s4 s5 : Z),
    RiskEngine.get_current_risk RiskEngine.SIGNAL_WEIGHTS m = inr c /\
    (RiskEngine.risk_level c <= 58)%Z /\
    (match RiskEngine.annualized_vol m with
     | inr vol => 0 <= vol
     | inl _ => True
     end -> (3 <= RiskEngine.risk_level c)%Z) /\
    RiskEngine.premium_multiplier c
    = Py.round_nd (1 + inject_Z (RiskEngine.risk_level c) / 100 * 4) 2 /\
    Server.signals_of c
    = [ ("realized_vol", Some s1); ("funding_rates", Some 15%Z);
        ("liquidation_vol", Some 2%Z); ("tvl_drawdown", Some s4);
        ("stablecoin_depeg", Some s5);
        ("bridge_anomaly", Some 10%Z) ]%string.
Proof.
  destruct (live_risk_bounds m) as (c & Hc & Hhi & Hlo).
  assert (Hnz : ~ Design.totalWeight (Py.values RiskEngine.SIGNAL_WEIGHTS) == 0)
    by discriminate.
  destruct (aggregate_spec _ SIGNAL_WEIGHTS_nodup _
              (proj1 (gather_results_of m)) Hnz)
    as (c' & q & Hc' & _ & _ & Hkeys & Hscores).
  unfold RiskEngine.get_current_risk in Hc. rewrite Hc in Hc'.
  inversion Hc'; subst c'; clear Hc'.
  destruct (gather_scores m) as (s1 & s4 & s5 & Hs & _).
  rewrite Hs in Hscores.
  exists c, s1, s4, s5. split; [exact Hc|]. split; [exact Hhi|].
  split; [exact Hlo|]. split.
  - unfold RiskEngine.aggregate in Hc.
    destruct (RiskEngine.valid_signals _ _) as [e|valid]; [discriminate|].
    destruct (RiskEngine.composite_score valid) as [e|q']; [discriminate|].
    inversion Hc; subst c. reflexivity.
  - unfold Server.signals_of. unfold Py.keys, Py.values in *.
    destruct (RiskEngine.signals c) as [|[k1 v1] [|[k2 v2] [|[k3 v3]
      [|[k4 v4] [|[k5 v5] [|[k6 v6] [|? ?]]]]]]]; try discriminate.
    cbn in Hkeys, Hscores. cbn [map].
    injection Hkeys as -> -> -> -> -> ->.
    injection Hscores as -> -> -> -> -> ->.
    reflexivity.
Qed.

(** X9: a quote served by the [/quote] route is priced on the live risk, so
    whatever the market data and the request, the route answers, the risk
    level of the quote is at most 58 and its rate at most 996 bps (300 bps for
    a bridge at the multiplier 3.32).  The factors "Active liquidation
    cascades" and "Bridge outflow anomaly" are never among its risk factors,
    which are at most 4: the two sources they depend on are the constants 2
    and 10.  With a volatility that is not negative the rate is at least
    47 bps. *)
Theorem X9_served_quote_bounds :
  forall (m : RiskEngine.MarketData) (req : Server.PremiumQuoteRequest),
    exists resp,
      Server.get_premium_quote m req = inr resp /\
      (LLMPricer.quote_risk_level (Server.quote resp) <= 58)%Z /\
      (LLMPricer.premium_rate_bps (Server.quote resp) <= 996)%Z /\
      (match RiskEngine.annualized_vol m with
       | inr vol => 0 <= vol
       | inl _ => True
       end -> (47 <= LLMPricer.premium_rate_bps (Server.quote resp))%Z) /\
      ~ In "Active liquidation cascades"%string (Server.risk_factors resp) /\
      ~ In "Bridge outflow anomaly"%string (Server.risk_factors resp) /\
      (1 <= List.length (Server.risk_factors resp) <= 4)%nat.
Proof.
  intros m req.
  destruct (live_composite m) as (c & s1 & s4 & s5 & Hc & Hhi & Hlo & Hmul & Hsig).
  unfold Server.get_premium_quote. rewrite Hc. eexists. split; [reflexivity|].
  cbn [Server.quote Server.risk_factors LLMPricer.quote_risk_level
       LLMPricer.price_premium LLMPricer.premium_rate_bps
       Server.current_risk_of].
  split; [exact Hhi|]. unfold Server.current_risk_of.
  set (r := RiskEngine.risk_level c) in *.
  set (mu := RiskEngine.premium_multiplier c) in *.
  assert (Hr : inject_Z r <= 58)
    by (change 58 with (inject_Z 58); rewrite <- Zle_Qle; exact Hhi).
  assert (Hmu : mu <= 332 # 100).
  { rewrite Hmul.
    pose proof (round_nd_le (1 + inject_Z r / 100 * 4) 2 332) as H.
    assert (E : inject_Z 332 / inject_Z (10 ^ Z.of_nat 2) == 332 # 100)
      by reflexivity.
    rewrite E in H. apply H.
    assert (Hd : inject_Z r / 100 * 4 == inject_Z r * (4 # 100)) by field.
    rewrite Hd. lra. }
  pose proof (base_rate_at_least_50 (Server.risk_category req)) as Hb.
  assert (Hbq : 50 <= inject_Z (Design.baseRateBps (Server.risk_category req))
                <= 300).
  { split; [change 50 with (inject_Z 50) | change 300 with (inject_Z 300)];
      rewrite <- Zle_Qle; lia. }
  set (b := Design.baseRateBps (Server.risk_category req)) in *.
  assert (Hrate : LLMPricer.adjusted_rate_bps (Server.risk_category req)
                    (Server.duration_days req)
                    {| LLMPricer.cr_risk_level := r;
                       LLMPricer.cr_premium_multiplier := Some mu |}
                  = let A := Py.int (inject_Z b * mu) in
                    if (180 <=? Server.duration_days req)%Z
                    then Py.int (inject_Z A * (85 # 100))
                    else if (90 <=? Server.duration_days req)%Z
                    then Py.int (inject_Z A * (92 # 100))
                    else A).
  { unfold LLMPricer.adjusted_rate_bps. rewrite base_rate_lookup. reflexivity. }
  rewrite Hrate. cbv zeta.
  set (A := Py.int (inject_Z b * mu)).
  assert (HA : (A <= 996)%Z).
  { apply int_le; [lia|]. change (inject_Z (996 + 1)) with 997. nra. }
  assert (HAq : inject_Z A <= 996)
    by (change 996 with (inject_Z 996); rewrite <- Zle_Qle; exact HA).
  split; [| split].
  - destruct (180 <=? Server.duration_days req)%Z;
      [| destruct (90 <=? Server.duration_days req)%Z];
      [apply int_le; [lia|]; change (inject_Z (996 + 1)) with 997; lra
      |apply int_le; [lia|]; change (inject_Z (996 + 1)) with 997; lra
      |exact HA].
  - intros Hv. specialize (Hlo Hv).
    assert (Hr3 : 3 <= inject_Z r)
      by (change 3 with (inject_Z 3); rewrite <- Zle_Qle; exact Hlo).
    assert (Hmu1 : 112 # 100 <= mu).
    { rewrite Hmul.
      pose proof (round_nd_ge (1 + inject_Z r / 100 * 4) 2 112) as H.
      assert (E : inject_Z 112 / inject_Z (10 ^ Z.of_nat 2) == 112 # 100)
        by reflexivity.
      rewrite E in H. apply H.
      assert (Hd : inject_Z r / 100 * 4 == inject_Z r * (4 # 100)) by field.
      rewrite Hd. lra. }
    assert (HA56 : (56 <= A)%Z).
    { apply int_ge; [change (inject_Z 56) with 56|]; nra. }
    assert (HA56q : 56 <= inject_Z A)
      by (change 56 with (inject_Z 56); rewrite <- Zle_Qle; exact HA56).
    destruct (180 <=? Server.duration_days req)%Z;
      [| destruct (90 <=? Server.duration_days req)%Z];
      [apply int_ge; [change (inject_Z 47) with 47|]; lra
      |apply int_ge; [change (inject_Z 47) with 47|]; lra
      |lia].
  - rewrite Hsig.
    pose proof (risk_factors_cases (Server.risk_category req)
                  (50 <? s1)%Z false (20 <? s5)%Z false) as H.
    cbv zeta in H.
    destruct H as (Hlen & _ & _ & Hliq & _ & Hbridge).
    change (PricerFactors._identify_risk_factors (Server.risk_category req)
              [ ("realized_vol", Some s1); ("funding_rates", Some 15%Z);
                ("liquidation_vol", Some 2%Z); ("tvl_drawdown", Some s4);
                ("stablecoin_depeg", Some s5);
                ("bridge_anomaly", Some 10%Z) ]%string)
      with (firstn 5
              (PricerFactors.append_if false "Bridge outflow anomaly"
                 (PricerFactors.append_if (20 <? s5)%Z
                    "Stablecoin peg stress detected"
                    (PricerFactors.append_if false
                       "Active liquidation cascades"
                       (PricerFactors.append_if (50 <? s1)%Z
                          "Elevated realized volatility"
                          (LLMPricer.get_or PricerFactors.category_factors
                             (Server.risk_category req)
                             ["General DeFi protocol risk"%string])))))).
    split; [intros Hin; apply Hliq in Hin; discriminate|].
    split; [intros Hin; apply Hbridge in Hin; destruct Hin; discriminate|].
    split; [lia|].
    set (base := LLMPricer.get_or PricerFactors.category_factors
                   (Server.risk_category req)
                   ["General DeFi protocol risk"%string]).
    assert (Hbase : (List.length base <= 2)%nat).
    { unfold base, LLMPricer.get_or.
      destruct (Py.dict_get PricerFactors.category_factors
                  (Server.risk_category req)) as [l|] eqn:E; [| simpl; lia].
      apply dict_get_in in E. simpl in E.
      destruct E as [<-|[<-|[<-|[<-|[<-|[<-|[]]]]]]]; simpl; lia. }
    clearbody base. rewrite length_firstn. unfold PricerFactors.append_if.
    destruct (50 <? s1)%Z, (20 <? s5)%Z; rewrite ?length_app;
      cbn [List.length]; lia.
Qed.

(** ** Deeper drops and the payout *)

Lemma min_mono (a x y : Q) : x <= y -> Py.min a x <= Py.min a y.
Proof.
  intros Hxy.
  destruct (min_spec a x) as [[H1 ->]|[H1 ->]];
    destruct (min_spec a y) as [[H2 ->]|[H2 ->]]; lra.
Qed.

Lemma drop_mono (orig trig trig' : Q) :
  0 < orig -> trig' <= trig ->
  (orig - trig) / orig <= (orig - trig') / orig.
Proof.
  intros Ho Ht. unfold Qdiv.
  apply Qmult_le_compat_r; [lra|].
  apply Qlt_le_weak, Qinv_lt_0_compat. exact Ho.
Qed.

(** X10: for a positive original price and a coverage that is not negative, a
    lower trigger price never pays less: a claim that is approved stays
    approved at every lower price, the payout does not go down, and it is
    always between 0 and the coverage rounded to 6 places. *)
Theorem X10_deeper_drop_never_pays_less :
  forall (pid : Z) (claimant : string) (trig trig' orig cov thr : Q),
    0 < orig -> 0 <= cov -> trig' <= trig ->
    let r := ClaudeAgent._tool_evaluate_claim pid claimant trig orig cov thr in
    let r' := ClaudeAgent._tool_evaluate_claim pid claimant trig' orig cov thr in
    (ClaudeAgent.approved r = true -> ClaudeAgent.approved r' = true) /\
    exists p p',
      ClaudeAgent.payout_of r = Some p /\
      ClaudeAgent.payout_of r' = Some p' /\
      0 <= p /\ p <= p' /\ p' <= Py.round_nd cov 6.
Proof.
  intros pid claimant trig trig' orig cov thr Ho Hc Ht r r'.
  pose proof (drop_mono orig trig trig' Ho Ht) as Hd.
  pose proof (tool_evaluate_claim_cases pid claimant trig orig cov thr Ho) as Hr.
  pose proof (tool_evaluate_claim_cases pid claimant trig' orig cov thr Ho)
    as Hr'.
  fold r in Hr. fold r' in Hr'.
  unfold Design.triggered, Design.actualDrop in Hr, Hr'.
  set (d := (orig - trig) / orig) in *.
  set (d' := (orig - trig') / orig) in *.
  set (ratio := Py.min 1 ((1 # 2) + (d - thr) * 2)) in *.
  set (ratio' := Py.min 1 ((1 # 2) + (d' - thr) * 2)) in *.
  assert (Hratio : ratio <= ratio') by (apply min_mono; lra).
  assert (Hone : forall x, Py.min 1 x <= 1).
  { intros x. destruct (min_spec 1 x) as [[? ->]|[? ->]]; lra. }
  assert (Hzero : 0 == inject_Z 0 / inject_Z (10 ^ Z.of_nat 6))
    by reflexivity.
  assert (Hpay0 : forall x, 0 <= x -> 0 <= Py.round_nd (cov * x) 6).
  { intros x Hx. rewrite Hzero at 1. apply round_nd_ge. rewrite <- Hzero.
    apply Qmult_le_0_compat; assumption. }
  assert (Hpay1 : forall x, x <= 1 ->
            Py.round_nd (cov * x) 6 <= Py.round_nd cov 6).
  { intros x Hx. apply round_nd_mono.
    setoid_replace cov with (cov * 1) at 2 by ring.
    rewrite !(Qmult_comm cov). apply Qmult_le_compat_r; assumption. }
  destruct (Qle_bool thr d) eqn:E; destruct (Qle_bool thr d') eqn:E';
    rewrite Hr, Hr'; cbn [ClaudeAgent.approved ClaudeAgent.payout_of].
  - apply Qle_bool_iff in E.
    assert (Hr0 : 1 # 2 <= ratio).
    { unfold ratio. destruct (min_spec 1 ((1 # 2) + (d - thr) * 2))
        as [[? ->]|[? ->]]; lra. }
    split; [reflexivity|]. do 2 eexists.
    split; [reflexivity|]. split; [reflexivity|].
    split; [apply Hpay0; lra|]. split; [| apply Hpay1, Hone].
    apply round_nd_mono. rewrite !(Qmult_comm cov).
    apply Qmult_le_compat_r; assumption.
  - apply Qle_bool_iff in E.
    assert (Hfalse : Qle_bool thr d' = true) by (apply Qle_bool_iff; lra).
    congruence.
  - apply Qle_bool_iff in E'.
    assert (Hr0 : 1 # 2 <= ratio').
    { unfold ratio'. destruct (min_spec 1 ((1 # 2) + (d' - thr) * 2))
        as [[? ->]|[? ->]]; lra. }
    split; [discriminate|]. do 2 eexists.
    split; [reflexivity|]. split; [reflexivity|].
    split; [lra|]. split; [apply Hpay0; lra | apply Hpay1, Hone].
  - split; [discriminate|]. do 2 eexists.
    split; [reflexivity|]. split; [reflexivity|].
    split; [lra|]. split; [lra|].
    rewrite Hzero at 1. apply round_nd_ge. rewrite <- Hzero. exact Hc.
Qed.

(** X10 at the threshold 0.20 on 10 ETH of coverage: the price going from
    78 to 70 takes the payout from 5.4 to 7. *)
Lemma X10_deeper_drop_never_pays_less_witness :
  ClaudeAgent.payout_of
    (ClaudeAgent._tool_evaluate_claim 7 "0xA1" 78 100 10 (20 # 100))
  = Some (Py.round_nd (54 # 10) 6) /\
  ClaudeAgent.payout_of
    (ClaudeAgent._tool_evaluate_claim 7 "0xA1" 70 100 10 (20 # 100))
  = Some (Py.round_nd 7 6) /\
  exists p p',
    ClaudeAgent.payout_of
      (ClaudeAgent._tool_evaluate_claim 7 "0xA1" 78 100 10 (20 # 100))
    = Some p /\
    ClaudeAgent.payout_of
      (ClaudeAgent._tool_evaluate_claim 7 "0xA1" 70 100 10 (20 # 100))
    = Some p' /\
    0 <= p /\ p <= p' /\ p' <= Py.round_nd 10 6.
Proof.
  assert (Ho : 0 < 100) by reflexivity.
  assert (Hc : 0 <= 10) by discriminate.
  assert (Ht : 70 <= 78) by discriminate.
  split; [vm_compute; reflexivity|]. split; [vm_compute; reflexivity|].
  exact (proj2 (X10_deeper_drop_never_pays_less 7 "0xA1" 78 70 100 10
                  (20 # 100) Ho Hc Ht)).
Defined.

(** ** The counters of the loop and the payments it made *)

Section Steps.

Import AgentLoop.
Import Ledger.

Context {World : Type}.
Variable R : State World -> State World -> Prop.
Hypothesis R_refl : forall s, R s s.
Hypothesis R_trans : forall s1 s2 s3, R s1 s2 -> R s2 s3 -> R s1 s3.
Hypothesis R_world :
  forall s w, R s {| self := self s; world := w; trace := trace s |}.

Lemma steps_ret {A} (a : A) : steps R (ret (World := World) a).
Proof. intros s. apply R_refl. Qed.

Lemma steps_bind {A B} (m : M World A) (k : A -> M World B) :
  steps R m -> (forall a, steps R (k a)) -> steps R (bind m k).
Proof.
  intros Hm Hk s. unfold bind. specialize (Hm s).
  destruct (m s) as [[e|a] s']; simpl in *; [exact Hm|].
  apply (R_trans _ _ _ Hm). apply Hk.
Qed.

Lemma steps_try_except {A} (m : M World A) (h : Py.exn -> M World A) :
  steps R m -> (forall e, steps R (h e)) -> steps R (try_except m h).
Proof.
  intros Hm Hh s. unfold try_except. specialize (Hm s).
  destruct (m s) as [[e|a] s']; simpl in *; [| exact Hm].
  apply (R_trans _ _ _ Hm). apply Hh.
Qed.

Lemma steps_call {A} (f : World -> Py.result A * World) : steps R (call f).
Proof. intros s. unfold call. destruct (f (world s)). apply R_world. Qed.

Lemma steps_read : steps R (read (World := World)).
Proof. intros s. apply R_refl. Qed.

Lemma steps_if {A} (b : bool) (m1 m2 : M World A) :
  steps R m1 -> steps R m2 -> steps R (if b then m1 else m2).
Proof. destruct b; auto. Qed.

End Steps.

Section Books.

Import AgentLoop.
Import Ledger.

Variable settings : Settings.
Context {World : Type} (env : Collaborators World).

Lemma returned_app (ok : bool) (t1 t2 : list Event) :
  returned ok (t1 ++ t2) = (returned ok t1 + returned ok t2)%Z.
Proof.
  induction t1 as [|e t1 IH]; simpl; [reflexivity|].
  destruct e; rewrite IH; lia.
Qed.

Lemma balanced_refl (s : State World) : balanced s s.
Proof. exists []. rewrite app_nil_r. simpl. repeat split; lia. Qed.

Lemma balanced_trans (s1 s2 s3 : State World) :
  balanced s1 s2 -> balanced s2 s3 -> balanced s1 s3.
Proof.
  intros (n1 & T1 & P1 & J1 & A1) (n2 & T2 & P2 & J2 & A2).
  exists (n1 ++ n2). rewrite T2, T1, <- app_assoc, !returned_app.
  repeat split; lia.
Qed.

(** A step that makes no payment and leaves the two payment counters alone
    keeps the books, provided it does not lower [claims_assessed]. *)
Lemma balanced_quiet (s s' : State World) (new : list Event) :
  trace s' = trace s ++ new ->
  returned true new = 0%Z -> returned false new = 0%Z ->
  claims_paid (_stats (self s')) = claims_paid (_stats (self s)) ->
  claims_rejected (_stats (self s')) = claims_rejected (_stats (self s)) ->
  (claims_assessed (_stats (self s))
   <= claims_assessed (_stats (self s')))%Z ->
  balanced s s'.
Proof.
  intros T R1 R2 P J A. exists new. rewrite R1, R2. repeat split; [exact T|..]; lia.
Qed.

Lemma balanced_world (s : State World) (w : World) :
  balanced s {| self := self s; world := w; trace := trace s |}.
Proof.
  apply (balanced_quiet _ _ []); simpl; rewrite ?app_nil_r; reflexivity || lia.
Qed.

Lemma emit_balanced (e : Event) :
  (forall p ok, e <> PayClaimDone p ok) -> steps balanced (emit (World := World) e).
Proof.
  intros He s. apply (balanced_quiet _ _ [e]); simpl; try reflexivity; try lia;
    destruct e; try reflexivity; exfalso; eapply He; reflexivity.
Qed.

Lemma update_balanced (f : Loop -> Loop) :
  (forall l, claims_paid (_stats (f l)) = claims_paid (_stats l)) ->
  (forall l, claims_rejected (_stats (f l)) = claims_rejected (_stats l)) ->
  (forall l, (claims_assessed (_stats l) <= claims_assessed (_stats (f l)))%Z) ->
  steps balanced (update (World := World) f).
Proof.
  intros P J A s. apply (balanced_quiet _ _ []); simpl;
    rewrite ?app_nil_r; auto.
Qed.

Lemma scan_policy_balanced (current_vol : Z) (vol : VolatilityReading)
    (policy_id : Z) :
  steps balanced (scan_policy settings env current_vol vol policy_id).
Proof.
  intros s.
  unfold scan_policy, try_except, bind at 1, call at 1.
  destruct (get_policy env policy_id (world s)) as [[e|policy] w]; simpl.
  { apply balanced_world. }
  destruct (String.eqb (holder policy) zero_address); simpl.
  { apply balanced_world. }
  destruct (negb (status policy =? 0)%Z); simpl.
  { apply balanced_world. }
  destruct (current_vol <? triggerThreshold policy)%Z; simpl.
  { apply balanced_world. }
  unfold bind, update_stats, update, call, ret. simpl.
  destruct (assess_claim env policy vol current_vol w) as [[e|decision] w'];
    simpl.
  { apply (balanced_quiet _ _ []); simpl; rewrite ?app_nil_r;
      reflexivity || lia. }
  destruct (should_pay decision && Qle_bool (7 # 10) (confidence decision)).
  - match goal with
    | |- context [_execute_claim settings env policy_id decision ?s0] =>
        destruct (execute_claim_trace settings env policy_id decision s0)
          as [ok ->]
    end.
    simpl. exists [PayClaim policy_id
                     {| _running := _running (self s);
                        _last_vol_update := _last_vol_update (self s);
                        _cycle_count := _cycle_count (self s);
                        _stats := incr_claims_assessed (_stats (self s)) |};
                   PayClaimDone policy_id ok].
    destruct ok; simpl; repeat split; lia.
  - simpl. apply (balanced_quiet _ _ []); simpl; rewrite ?app_nil_r;
      reflexivity || lia.
Qed.

Lemma scan_balanced (current_vol : Z) (vol : VolatilityReading)
    (ids : list Z) :
  steps balanced (scan settings env current_vol vol ids).
Proof.
  induction ids as [|id ids IH]; simpl.
  - apply steps_ret, balanced_refl.
  - apply (steps_bind _ balanced_trans); [apply scan_policy_balanced|].
    intros [|]; [apply steps_ret, balanced_refl | exact IH].
Qed.

Lemma cycle_balanced : steps balanced (_cycle settings env).
Proof.
  pose proof balanced_refl as Hr. pose proof balanced_trans as Ht.
  pose proof balanced_world as Hw.
  assert (Hscan : steps balanced (_scan_policies settings env)).
  { unfold _scan_policies.
    apply (steps_bind _ Ht); [apply (steps_call _ Hw) | intros cv].
    apply (steps_bind _ Ht); [apply (steps_call _ Hw) | intros vol].
    apply scan_balanced. }
  assert (Hupd : steps balanced (_update_volatility settings env)).
  { unfold _update_volatility, update_stats.
    apply (steps_bind _ Ht); [apply (steps_call _ Hw) | intros reading].
    apply (steps_bind _ Ht).
    { apply (steps_bind _ Ht); [| intros _; apply (steps_call _ Hw)].
      apply emit_balanced. intros p ok; discriminate. }
    intros _.
    apply (steps_bind _ Ht); [apply (steps_call _ Hw) | intros now].
    apply (steps_bind _ Ht); [| intros _];
      apply update_balanced; intros l; simpl; reflexivity || lia. }
  unfold _cycle.
  generalize dependent (_scan_policies settings env). intros scanp Hscan.
  generalize dependent (_update_volatility settings env). intros upd Hupd.
  apply (steps_bind _ Ht);
    [apply update_balanced; intros l; simpl; reflexivity || lia | intros _].
  apply (steps_bind _ Ht); [apply (steps_call _ Hw) | intros trust].
  apply steps_if; [apply (steps_ret _ Hr)|].
  apply (steps_bind _ Ht); [apply (steps_call _ Hw) | intros now].
  apply (steps_bind _ Ht); [apply (steps_read _ Hr) | intros me].
  apply (steps_bind _ Ht);
    [apply steps_if; [exact Hupd | apply (steps_ret _ Hr)] | intros _].
  apply steps_if; [exact Hscan | apply (steps_ret _ Hr)].
Qed.

Lemma run_once_balanced : steps balanced (run_once settings env).
Proof.
  pose proof balanced_refl as Hr. pose proof balanced_trans as Ht.
  pose proof balanced_world as Hw.
  pose proof cycle_balanced as Hc.
  unfold run_once, stop, set_running, update_stats.
  generalize dependent (_cycle settings env). intros cyc Hc.
  apply (steps_bind _ Ht).
  { apply (steps_try_except _ Ht); [exact Hc | intros e].
    apply update_balanced; intros l; simpl; reflexivity || lia. }
  intros _. apply (steps_bind _ Ht).
  { apply emit_balanced. intros p ok; discriminate. }
  intros _. apply (steps_bind _ Ht); [apply (steps_call _ Hw) | intros stopped].
  apply steps_if; [| apply (steps_ret _ Hr)].
  apply update_balanced; intros l; simpl; reflexivity || lia.
Qed.

Lemma run_balanced (fuel : nat) : steps balanced (_run settings env fuel).
Proof.
  pose proof balanced_refl as Hr. pose proof balanced_trans as Ht.
  pose proof run_once_balanced as Ho.
  induction fuel as [|fuel IH]; simpl; [apply (steps_ret _ Hr)|].
  apply (steps_bind _ Ht); [apply (steps_read _ Hr) | intros me].
  apply steps_if; [| apply (steps_ret _ Hr)].
  apply (steps_bind _ Ht); [exact Ho | intros _; exact IH].
Qed.

End Books.

(** X11: the counters of the loop agree with the payments it made.  Over a
    cycle, and over any number of turns of the loop after [start],
    [claims_paid] grows by the number of payment requests that came back
    confirmed and [claims_rejected] by the number that came back failed,
    while [claims_assessed] grows by at least as much as the two together:
    so paid plus rejected never overtakes assessed. *)
Theorem X11_counters_match_payments :
  forall (settings : AgentLoop.Settings) (World : Type)
         (env : AgentLoop.Collaborators World) (fuel : nat)
         (s : AgentLoop.State World),
    let paid s := AgentLoop.claims_paid (AgentLoop._stats (AgentLoop.self s)) in
    let rejected s :=
      AgentLoop.claims_rejected (AgentLoop._stats (AgentLoop.self s)) in
    let assessed s :=
      AgentLoop.claims_assessed (AgentLoop._stats (AgentLoop.self s)) in
    let books s' :=
      (exists new,
         AgentLoop.trace s' = AgentLoop.trace s ++ new /\
         paid s' = (paid s + Ledger.returned true new)%Z /\
         rejected s' = (rejected s + Ledger.returned false new)%Z /\
         (assessed s + Ledger.returned true new + Ledger.returned false new
          <= assessed s')%Z) /\
      ((paid s + rejected s <= assessed s)%Z ->
       (paid s' + rejected s' <= assessed s')%Z) in
    books (snd (AgentLoop._cycle settings env s)) /\
    books (snd (AgentLoop.start settings env fuel s)).
Proof.
  intros settings World env fuel s paid rejected assessed books.
  assert (Hbooks : forall s', Ledger.balanced s s' -> books s').
  { intros s' H. split; [exact H|].
    destruct H as (new & _ & P & J & A). unfold paid, rejected, assessed. lia. }
  split; apply Hbooks; [apply cycle_balanced|].
  unfold AgentLoop.start, AgentLoop.set_running.
  apply (steps_bind _ balanced_trans); [| intros _; apply run_balanced].
  apply update_balanced; intros l; simpl; reflexivity || lia.
Qed.

(** ** The gates of a cycle *)

(** A cycle that finds the trust score of the agent below the minimum
    returns at once, having counted the cycle. *)
Lemma low_trust_cycle
    (settings : AgentLoop.Settings) (World : Type)
    (env : AgentLoop.Collaborators World) (s : AgentLoop.State World)
    (trust_score : Z) (w : World) :
  AgentLoop.getOverallScore env (AgentLoop.agent_id settings)
    (AgentLoop.world s) = (inr trust_score, w) ->
  (trust_score < AgentLoop.min_trust_score settings)%Z ->
  AgentLoop._cycle settings env s
  = (inr tt,
     {| AgentLoop.self :=
          {| AgentLoop._running := AgentLoop._running (AgentLoop.self s);
             AgentLoop._last_vol_update :=
               AgentLoop._last_vol_update (AgentLoop.self s);
             AgentLoop._cycle_count :=
               (AgentLoop._cycle_count (AgentLoop.self s) + 1)%Z;
             AgentLoop._stats :=
               AgentLoop.set_cycles
                 (AgentLoop._cycle_count (AgentLoop.self s) + 1)%Z
                 (AgentLoop._stats (AgentLoop.self s)) |};
        AgentLoop.world := w;
        AgentLoop.trace := AgentLoop.trace s |}).
Proof.
  intros Hscore Hlow.
  unfold AgentLoop._cycle.
  unfold AgentLoop.bind at 1, AgentLoop.update. cbn [fst snd].
  unfold AgentLoop.bind at 1, AgentLoop.call at 1.
  cbn [AgentLoop.world AgentLoop.self AgentLoop.trace].
  rewrite Hscore.
  replace (trust_score <? AgentLoop.min_trust_score settings)%Z with true
    by (symmetry; apply Z.ltb_lt; exact Hlow).
  reflexivity.
Qed.

Section LowTrust.

Import AgentLoop.

Variable settings : Settings.
Context {World : Type} (env : Collaborators World).

Hypothesis low_trust :
  forall w, exists trust_score w',
    getOverallScore env (agent_id settings) w = (inr trust_score, w') /\
    (trust_score < min_trust_score settings)%Z.

Lemma low_trust_turn (s : State World) :
  exists s',
    run_once settings env s = (inr tt, s') /\
    trace s' = trace s ++ [Sleep (poll_interval_seconds settings)] /\
    _cycle_count (self s') = (_cycle_count (self s) + 1)%Z /\
    _last_vol_update (self s') = _last_vol_update (self s) /\
    vol_updates (_stats (self s')) = vol_updates (_stats (self s)) /\
    claims_assessed (_stats (self s')) = claims_assessed (_stats (self s)) /\
    claims_paid (_stats (self s')) = claims_paid (_stats (self s)) /\
    claims_rejected (_stats (self s')) = claims_rejected (_stats (self s)) /\
    errors (_stats (self s')) = errors (_stats (self s)).
Proof.
  destruct (low_trust (world s)) as (score & w & Hscore & Hlow).
  unfold run_once, bind, try_except.
  rewrite (low_trust_cycle settings World env s score w Hscore Hlow).
  unfold emit, call, stop, set_running, update, ret.
  cbn [world self trace].
  destruct (sleep env (poll_interval_seconds settings) w) as [[|] w2];
    eexists; (split; [reflexivity|]); cbn; repeat split.
Qed.

Lemma low_trust_run (fuel : nat) :
  forall s : State World,
  exists n s',
    _run settings env fuel s = (inr tt, s') /\
    (n <= fuel)%nat /\
    trace s' = trace s ++ repeat (Sleep (poll_interval_seconds settings)) n /\
    _cycle_count (self s') = (_cycle_count (self s) + Z.of_nat n)%Z /\
    _last_vol_update (self s') = _last_vol_update (self s) /\
    vol_updates (_stats (self s')) = vol_updates (_stats (self s)) /\
    claims_assessed (_stats (self s')) = claims_assessed (_stats (self s)) /\
    claims_paid (_stats (self s')) = claims_paid (_stats (self s)) /\
    claims_rejected (_stats (self s')) = claims_rejected (_stats (self s)) /\
    errors (_stats (self s')) = errors (_stats (self s)).
Proof.
  induction fuel as [|fuel IH]; intros s.
  - exists 0%nat, s. simpl. rewrite app_nil_r, Z.add_0_r. repeat split. lia.
  - cbn [_run]. unfold bind at 1, read. destruct (_running (self s)).
    + unfold bind.
      destruct (low_trust_turn s)
        as (s1 & -> & T1 & C1 & L1 & V1 & A1 & P1 & J1 & E1).
      destruct (IH s1) as (n & s' & -> & Hn & T & C & L & V & A & P & J & E).
      exists (S n), s'. split; [reflexivity|]. split; [lia|].
      rewrite T, C, L, V, A, P, J, E, T1, C1, L1, V1, A1, P1, J1, E1.
      rewrite <- app_assoc. repeat split. lia.
    + exists 0%nat, s. unfold ret. simpl. rewrite app_nil_r, Z.add_0_r.
      repeat split. lia.
Qed.

End LowTrust.

(** X12: while the trust score of the agent is below the minimum the loop
    does nothing but count its cycles and wait: over any number of turns
    after [start] the only events are the waits between the cycles, one per
    cycle counted; no volatility update and no payment is requested, and the
    counters of updates, assessed, paid and rejected claims and of errors
    stay as they were. *)
Theorem X12_low_trust_loop_only_waits :
  forall (settings : AgentLoop.Settings) (World : Type)
         (env : AgentLoop.Collaborators World),
    (forall w, exists trust_score w',
       AgentLoop.getOverallScore env (AgentLoop.agent_id settings) w
       = (inr trust_score, w') /\
       (trust_score < AgentLoop.min_trust_score settings)%Z) ->
    forall (fuel : nat) (s : AgentLoop.State World),
      let s' := snd (AgentLoop.start settings env fuel s) in
      let stats s := AgentLoop._stats (AgentLoop.self s) in
      exists n,
        (n <= fuel)%nat /\
        AgentLoop.trace s'
        = AgentLoop.trace s
          ++ repeat (AgentLoop.Sleep (AgentLoop.poll_interval_seconds settings))
               n /\
        AgentLoop._cycle_count (AgentLoop.self s')
        = (AgentLoop._cycle_count (AgentLoop.self s) + Z.of_nat n)%Z /\
        AgentLoop._last_vol_update (AgentLoop.self s')
        = AgentLoop._last_vol_update (AgentLoop.self s) /\
        AgentLoop.vol_updates (stats s') = AgentLoop.vol_updates (stats s) /\
        AgentLoop.claims_assessed (stats s')
        = AgentLoop.claims_assessed (stats s) /\
        AgentLoop.claims_paid (stats s') = AgentLoop.claims_paid (stats s) /\
        AgentLoop.claims_rejected (stats s')
        = AgentLoop.claims_rejected (stats s) /\
        AgentLoop.errors (stats s') = AgentLoop.errors (stats s).
Proof.
  intros settings World env Hlow fuel s. cbv zeta.
  destruct (low_trust_run settings env Hlow fuel
              (snd (AgentLoop.set_running true s))) as (n & s1 & Hrun & H).
  assert (Hs : snd (AgentLoop.start settings env fuel s) = s1).
  { unfold AgentLoop.start, AgentLoop.bind.
    change (AgentLoop.set_running true s)
      with (@inr Py.exn unit tt, snd (AgentLoop.set_running true s)).
    cbv beta iota. rewrite Hrun. reflexivity. }
  rewrite Hs. exists n. exact H.
Qed.

(** X12 on the healthy chain (trust score 9000) with a minimum of 9500: two
    turns leave two waits and nothing else. *)
Lemma X12_low_trust_loop_only_waits_witness :
  let settings :=
    {| AgentLoop.agent_id := 1; AgentLoop.min_trust_score := 9500;
       AgentLoop.poll_interval_seconds := 60;
       AgentLoop.volatility_update_interval := 300;
       AgentLoop.auto_claim_enabled := true |} in
  AgentLoop.trace
    (snd (AgentLoop.start settings AgentLoop.healthy 2 AgentLoop.started))
  = [AgentLoop.Sleep 60; AgentLoop.Sleep 60] /\
  exists n,
    (n <= 2)%nat /\
    AgentLoop.trace
      (snd (AgentLoop.start settings AgentLoop.healthy 2 AgentLoop.started))
    = repeat (AgentLoop.Sleep 60) n.
Proof.
  intros settings. split; [vm_compute; reflexivity|].
  assert (Hlow : forall w : unit, exists (trust_score : Z) (w' : unit),
            AgentLoop.getOverallScore AgentLoop.healthy
              (AgentLoop.agent_id settings) w = (inr trust_score, w') /\
            (trust_score < AgentLoop.min_trust_score settings)%Z).
  { intros w. exists 9000%Z, w. split; reflexivity. }
  destruct (X12_low_trust_loop_only_waits settings unit AgentLoop.healthy Hlow
              2%nat AgentLoop.started) as (n & Hn & Ht & _).
  exists n. split; [exact Hn | exact Ht].
Defined.

(** X13: when the push of the volatility to the chain fails, the cycle ends
    there with that error: the scan of the policies is skipped although
    auto-claim may be on, so no claim is paid in that cycle, and
    [_last_vol_update] and [vol_updates] stay as they were, so the next cycle
    tries the update again. *)
Theorem X13_failed_update_skips_scan :
  forall (settings : AgentLoop.Settings) (World : Type)
         (env : AgentLoop.Collaborators World) (s : AgentLoop.State World)
         (trust_score : Z) (now : Q)
         (reading : AgentLoop.VolatilityReading) (e : Py.exn)
         (w1 w2 w3 w4 : World),
    AgentLoop.getOverallScore env (AgentLoop.agent_id settings)
      (AgentLoop.world s) = (inr trust_score, w1) ->
    (AgentLoop.min_trust_score settings <= trust_score)%Z ->
    AgentLoop.time env w1 = (now, w2) ->
    inject_Z (AgentLoop.volatility_update_interval settings)
    <= now - AgentLoop._last_vol_update (AgentLoop.self s) ->
    AgentLoop.get_volatility env w2 = (inr reading, w3) ->
    AgentLoop.update_volatility env (AgentLoop.agent_id settings)
      (AgentLoop.value_bps reading) w3 = (inl e, w4) ->
    let me := AgentLoop.self s in
    AgentLoop._cycle settings env s
    = (inl e,
       {| AgentLoop.self :=
            {| AgentLoop._running := AgentLoop._running me;
               AgentLoop._last_vol_update := AgentLoop._last_vol_update me;
               AgentLoop._cycle_count := (AgentLoop._cycle_count me + 1)%Z;
               AgentLoop._stats :=
                 AgentLoop.set_cycles (AgentLoop._cycle_count me + 1)%Z
                   (AgentLoop._stats me) |};
          AgentLoop.world := w4;
          AgentLoop.trace :=
            AgentLoop.trace s
            ++ [AgentLoop.UpdateVolatility (AgentLoop.value_bps reading)] |}).
Proof.
  intros settings World env s trust_score now reading e w1 w2 w3 w4
    Hscore Htrust Htime Hdue Hvol Hpush me.
  unfold AgentLoop._cycle.
  unfold AgentLoop.bind at 1, AgentLoop.update. cbn [fst snd].
  unfold AgentLoop.bind at 1, AgentLoop.call at 1.
  cbn [AgentLoop.world AgentLoop.self AgentLoop.trace].
  rewrite Hscore.
  replace (trust_score <? AgentLoop.min_trust_score settings)%Z with false
    by (symmetry; apply Z.ltb_ge; exact Htrust).
  unfold AgentLoop.bind at 1, AgentLoop.call at 1.
  cbn [AgentLoop.world AgentLoop.self AgentLoop.trace].
  rewrite Htime.
  unfold AgentLoop.bind at 1, AgentLoop.read. cbn [AgentLoop.self].
  cbn [AgentLoop._last_vol_update].
  apply Qle_bool_iff in Hdue. rewrite Hdue.
  unfold AgentLoop.bind at 1.
  unfold AgentLoop._update_volatility.
  unfold AgentLoop.bind at 1, AgentLoop.call at 1.
  cbn [AgentLoop.world AgentLoop.self AgentLoop.trace].
  rewrite Hvol.
  unfold AgentLoop.bind at 1. unfold AgentLoop.bind at 1.
  unfold AgentLoop.emit. unfold AgentLoop.call at 1.
  cbn [AgentLoop.world AgentLoop.self AgentLoop.trace].
  rewrite Hpush. reflexivity.
Qed.

(** X13 on the healthy chain with a failing volatility push: the cycle ends
    with the error of the push after the one update request. *)
Lemma X13_failed_update_skips_scan_witness :
  let env :=
    {| AgentLoop.getOverallScore := AgentLoop.getOverallScore AgentLoop.healthy;
       AgentLoop.time := AgentLoop.time AgentLoop.healthy;
       AgentLoop.get_volatility := AgentLoop.get_volatility AgentLoop.healthy;
       AgentLoop.update_volatility :=
         fun _ _ w => (inl (Py.Error "out of gas"), w);
       AgentLoop.get_volatility_index :=
         AgentLoop.get_volatility_index AgentLoop.healthy;
       AgentLoop.get_policy := AgentLoop.get_policy AgentLoop.healthy;
       AgentLoop.assess_claim := AgentLoop.assess_claim AgentLoop.healthy;
       AgentLoop.pay_claim := AgentLoop.pay_claim AgentLoop.healthy;
       AgentLoop.sleep := AgentLoop.sleep AgentLoop.healthy |} in
  let after := AgentLoop._cycle AgentLoop.defaults env AgentLoop.started in
  fst after = inl (Py.Error "out of gas") /\
  AgentLoop.trace (snd after) = [AgentLoop.UpdateVolatility 8000] /\
  AgentLoop._last_vol_update (AgentLoop.self (snd after)) = 0.
Proof.
  intros env after. unfold after.
  assert (Hdue : inject_Z (AgentLoop.volatility_update_interval
                             AgentLoop.defaults)
                 <= 1000 - AgentLoop._last_vol_update
                             (AgentLoop.self AgentLoop.started))
    by (apply Qle_bool_iff; vm_compute; reflexivity).
  assert (Htrust : (AgentLoop.min_trust_score AgentLoop.defaults <= 9000)%Z)
    by (vm_compute; discriminate).
  rewrite (X13_failed_update_skips_scan AgentLoop.defaults unit env
             AgentLoop.started 9000%Z 1000 AgentLoop.stressed
             (Py.Error "out of gas") tt tt tt tt
             eq_refl Htrust eq_refl Hdue eq_refl eq_refl).
  repeat split.
Defined.

(** ** An assessment that does not lead to a payment *)

(** X14: for an active policy whose trigger is met, the claim is counted as
    assessed before the assessment is made.  When the assessment raises, or
    says not to pay, or is less than 0.7 confident, no payment is requested:
    the turn ends with [claims_assessed] one higher and nothing else changed
    in the loop object or the trace, and the scan goes on with the next
    policy. *)
Theorem X14_unsure_assessment_pays_nothing :
  forall (settings : AgentLoop.Settings) (World : Type)
         (env : AgentLoop.Collaborators World) (s : AgentLoop.State World)
         (current_vol : Z) (vol : AgentLoop.VolatilityReading)
         (policy_id : Z) (policy : AgentLoop.Policy)
         (answer : Py.result AgentLoop.ClaimDecision) (w w' : World),
    AgentLoop.get_policy env policy_id (AgentLoop.world s) = (inr policy, w) ->
    AgentLoop.holder policy <> AgentLoop.zero_address ->
    AgentLoop.status policy = 0%Z ->
    (AgentLoop.triggerThreshold policy <= current_vol)%Z ->
    AgentLoop.assess_claim env policy vol current_vol w = (answer, w') ->
    match answer with
    | inl _ => True
    | inr decision =>
        AgentLoop.should_pay decision = false \/
        AgentLoop.confidence decision < 7 # 10
    end ->
    let me := AgentLoop.self s in
    AgentLoop.scan_policy settings env current_vol vol policy_id s
    = (inr AgentLoop.Continue,
       {| AgentLoop.self :=
            {| AgentLoop._running := AgentLoop._running me;
               AgentLoop._last_vol_update := AgentLoop._last_vol_update me;
               AgentLoop._cycle_count := AgentLoop._cycle_count me;
               AgentLoop._stats :=
                 AgentLoop.incr_claims_assessed (AgentLoop._stats me) |};
          AgentLoop.world := w';
          AgentLoop.trace := AgentLoop.trace s |}).
Proof.
  intros settings World env s current_vol vol policy_id policy answer w w'
    Hpolicy Hholder Hstatus Htrigger Hassess Hanswer me.
  unfold AgentLoop.scan_policy, AgentLoop.try_except,
    AgentLoop.bind at 1, AgentLoop.call at 1.
  rewrite Hpolicy. cbn [AgentLoop.world AgentLoop.self AgentLoop.trace].
  replace (String.eqb (AgentLoop.holder policy) AgentLoop.zero_address)
    with false by (symmetry; apply String.eqb_neq; exact Hholder).
  rewrite Hstatus. cbn [Z.eqb negb].
  replace (current_vol <? AgentLoop.triggerThreshold policy)%Z with false
    by (symmetry; apply Z.ltb_ge; exact Htrigger).
  unfold AgentLoop.bind, AgentLoop.update_stats, AgentLoop.update,
    AgentLoop.call, AgentLoop.ret.
  cbn [AgentLoop.world AgentLoop.self AgentLoop.trace fst snd].
  rewrite Hassess. destruct answer as [e|decision]; [reflexivity|].
  assert (Hgate : AgentLoop.should_pay decision
                  && Qle_bool (7 # 10) (AgentLoop.confidence decision) = false).
  { destruct Hanswer as [-> | Hlow]; [reflexivity|].
    rewrite (proj2 (Qle_bool_false _ _) Hlow). apply andb_false_r. }
  rewrite Hgate. reflexivity.
Qed.

(** X14 on the healthy chain with a model that is only 0.65 sure. *)
Lemma X14_unsure_assessment_pays_nothing_witness :
  let env :=
    {| AgentLoop.getOverallScore := AgentLoop.getOverallScore AgentLoop.healthy;
       AgentLoop.time := AgentLoop.time AgentLoop.healthy;
       AgentLoop.get_volatility := AgentLoop.get_volatility AgentLoop.healthy;
       AgentLoop.update_volatility :=
         AgentLoop.update_volatility AgentLoop.healthy;
       AgentLoop.get_volatility_index :=
         AgentLoop.get_volatility_index AgentLoop.healthy;
       AgentLoop.get_policy := AgentLoop.get_policy AgentLoop.healthy;
       AgentLoop.assess_claim := fun _ _ _ w =>
         (inr {| AgentLoop.should_pay := true;
                 AgentLoop.confidence := 65 # 100;
                 AgentLoop.reasoning := "possible data spike";
                 AgentLoop.supporting_signals := [] |}, w);
       AgentLoop.pay_claim := AgentLoop.pay_claim AgentLoop.healthy;
       AgentLoop.sleep := AgentLoop.sleep AgentLoop.healthy |} in
  let after :=
    AgentLoop.scan_policy AgentLoop.defaults env 8000 AgentLoop.stressed 1
      AgentLoop.started in
  fst after = inr AgentLoop.Continue /\
  AgentLoop.trace (snd after) = [] /\
  AgentLoop.claims_assessed (AgentLoop._stats (AgentLoop.self (snd after)))
  = 1%Z.
Proof.
  intros env after. unfold after.
  assert (Hholder : "0xA1"%string <> AgentLoop.zero_address) by discriminate.
  assert (Htrigger : (7500 <= 8000)%Z) by lia.
  assert (Hlow : 65 # 100 < 7 # 10) by reflexivity.
  rewrite (X14_unsure_assessment_pays_nothing AgentLoop.defaults unit env
             AgentLoop.started 8000%Z AgentLoop.stressed 1%Z _ _ tt tt
             eq_refl Hholder eq_refl Htrigger eq_refl (or_intror Hlow)).
  repeat split.
Defined.

(** ** An empty slot ends the scan *)

Lemma submitted_app (t1 t2 : list AgentLoop.Event) :
  AgentLoop.submitted (t1 ++ t2)
  = AgentLoop.submitted t1 ++ AgentLoop.submitted t2.
Proof.
  induction t1 as [|e t1 IH]; simpl; [reflexivity|].
  destruct e; rewrite ?IH; reflexivity.
Qed.

Lemma policy_ids_split (k : Z) :
  (1 <= k <= 100)%Z ->
  exists l1 l2,
    AgentLoop.policy_ids = l1 ++ k :: l2 /\
    forall p, In p l1 -> (1 <= p < k)%Z.
Proof.
  intros Hk. set (n := Z.to_nat k).
  exists (map Z.of_nat (seq 1 (n - 1))), (map Z.of_nat (seq (S n) (100 - n))).
  split.
  - unfold AgentLoop.policy_ids.
    transitivity (map Z.of_nat (seq 1 ((n - 1) + S (100 - n)))).
    { do 2 f_equal. unfold n. lia. }
    rewrite seq_app, map_app. cbn [seq map].
    replace (1 + (n - 1))%nat with n by (unfold n; lia).
    replace (Z.of_nat n) with k by (unfold n; lia). reflexivity.
  - intros p Hp. apply in_map_iff in Hp. destruct Hp as (m & <- & Hm).
    apply in_seq in Hm. unfold n in Hm. lia.
Qed.

Section EmptySlot.

Import AgentLoop.
Import Ledger.

Variable settings : Settings.
Context {World : Type} (env : Collaborators World).
Variable allowed : Z -> Prop.

Lemma pays_only_refl (s : State World) : pays_only allowed s s.
Proof. exists []. rewrite app_nil_r. split; [reflexivity | contradiction]. Qed.

Lemma pays_only_trans (s1 s2 s3 : State World) :
  pays_only allowed s1 s2 -> pays_only allowed s2 s3 ->
  pays_only allowed s1 s3.
Proof.
  intros (n1 & T1 & H1) (n2 & T2 & H2). exists (n1 ++ n2).
  rewrite T2, T1, <- app_assoc. split; [reflexivity|].
  intros p Hp. rewrite submitted_app in Hp. apply in_app_or in Hp.
  destruct Hp; auto.
Qed.

Lemma pays_only_world (s : State World) (w : World) :
  pays_only allowed s {| self := self s; world := w; trace := trace s |}.
Proof. exists []. simpl. rewrite app_nil_r. split; [reflexivity | contradiction]. Qed.

Lemma update_pays_only (f : Loop -> Loop) :
  steps (pays_only allowed) (update (World := World) f).
Proof.
  intros s. exists []. simpl. rewrite app_nil_r.
  split; [reflexivity | contradiction].
Qed.

Lemma emit_pays_only (e : Event) :
  (forall p me, e <> PayClaim p me) ->
  steps (pays_only allowed) (emit (World := World) e).
Proof.
  intros He s. exists [e]. split; [reflexivity|].
  destruct e; simpl; try contradiction.
  intros p [<-|[]]. exfalso. eapply He. reflexivity.
Qed.

Lemma scan_policy_pays_only (current_vol : Z) (vol : VolatilityReading)
    (policy_id : Z) :
  allowed policy_id ->
  steps (pays_only allowed) (scan_policy settings env current_vol vol policy_id).
Proof.
  intros Hok s.
  destruct (scan_policy_trace settings env current_vol vol policy_id s)
    as (flow & s' & -> & [Ht|(me & ok & Ht)]); cbn [snd].
  - exists []. rewrite app_nil_r. split; [exact Ht | contradiction].
  - eexists. split; [exact Ht|]. simpl. intros p [<-|[]]. exact Hok.
Qed.

(** The cycle requests payments where its scan does. *)
Lemma cycle_pays_only :
  (auto_claim_enabled settings = true ->
   forall current_vol vol,
     steps (pays_only allowed)
       (scan settings env current_vol vol policy_ids)) ->
  steps (pays_only allowed) (_cycle settings env).
Proof.
  intros Hscan.
  pose proof pays_only_refl as Hr. pose proof pays_only_trans as Ht.
  pose proof pays_only_world as Hw.
  unfold _cycle, _scan_policies, _update_volatility, update_stats.
  generalize dependent policy_ids. intros ids Hscan.
  apply (steps_bind _ Ht); [apply update_pays_only | intros _].
  apply (steps_bind _ Ht); [apply (steps_call _ Hw) | intros trust].
  apply steps_if; [apply (steps_ret _ Hr)|].
  apply (steps_bind _ Ht); [apply (steps_call _ Hw) | intros now].
  apply (steps_bind _ Ht); [apply (steps_read _ Hr) | intros me].
  apply (steps_bind _ Ht).
  { apply steps_if; [| apply (steps_ret _ Hr)].
    apply (steps_bind _ Ht); [apply (steps_call _ Hw) | intros reading].
    apply (steps_bind _ Ht).
    { apply (steps_bind _ Ht); [| intros _; apply (steps_call _ Hw)].
      apply emit_pays_only. intros p me'; discriminate. }
    intros _.
    apply (steps_bind _ Ht); [apply (steps_call _ Hw) | intros now'].
    apply (steps_bind _ Ht); [| intros _]; apply update_pays_only. }
  intros _. destruct (auto_claim_enabled settings); [| apply (steps_ret _ Hr)].
  apply (steps_bind _ Ht); [apply (steps_call _ Hw) | intros cv].
  apply (steps_bind _ Ht); [apply (steps_call _ Hw) | intros vol].
  apply Hscan. reflexivity.
Qed.

(** The loop requests payments where its cycles do. *)
Lemma start_pays_only (fuel : nat) :
  steps (pays_only allowed) (_cycle settings env) ->
  steps (pays_only allowed) (start settings env fuel).
Proof.
  intros Hc.
  pose proof pays_only_refl as Hr. pose proof pays_only_trans as Ht.
  pose proof pays_only_world as Hw.
  assert (Honce : steps (pays_only allowed) (run_once settings env)).
  { unfold run_once, stop, set_running, update_stats.
    generalize dependent (_cycle settings env). intros cyc Hc.
    apply (steps_bind _ Ht).
    { apply (steps_try_except _ Ht); [exact Hc | intros e].
      apply update_pays_only. }
    intros _. apply (steps_bind _ Ht).
    { apply emit_pays_only. intros p me; discriminate. }
    intros _.
    apply (steps_bind _ Ht); [apply (steps_call _ Hw) | intros stopped].
    apply steps_if; [apply update_pays_only | apply (steps_ret _ Hr)]. }
  unfold start, set_running.
  apply (steps_bind _ Ht); [apply update_pays_only | intros _].
  induction fuel as [|fuel IH]; cbn [_run]; [apply (steps_ret _ Hr)|].
  apply (steps_bind _ Ht); [apply (steps_read _ Hr) | intros me].
  apply steps_if; [| apply (steps_ret _ Hr)].
  apply (steps_bind _ Ht); [exact Honce | intros _; exact IH].
Qed.

Variable k : Z.

Hypothesis empty_slot :
  forall w, exists policy w',
    get_policy env k w = (inr policy, w') /\ holder policy = zero_address.

Lemma scan_until (current_vol : Z) (vol : VolatilityReading)
    (l1 l2 : list Z) :
  (forall p, In p l1 -> allowed p) ->
  steps (pays_only allowed)
    (scan settings env current_vol vol (l1 ++ k :: l2)).
Proof.
  induction l1 as [|id l1 IH]; intros Hl1.
  - intros s. cbn [app scan]. unfold bind.
    destruct (empty_slot (world s)) as (policy & w' & Hp & Hh).
    unfold scan_policy, try_except, bind, call. rewrite Hp, Hh.
    rewrite String.eqb_refl. unfold ret. cbn [snd].
    apply pays_only_world.
  - cbn [app scan].
    apply (steps_bind _ pays_only_trans).
    + apply scan_policy_pays_only. apply Hl1. left. reflexivity.
    + intros [|]; [apply steps_ret, pays_only_refl|].
      apply IH. intros p Hp. apply Hl1. right. exact Hp.
Qed.

End EmptySlot.

(** X15: the scan takes the first policy without a holder as the end of the
    list.  If policy [k] (between 1 and 100) has the zero address as its
    holder, a cycle requests payments only for policies below [k]: policies
    with higher numbers are not looked at, whatever their state. *)
Theorem X15_empty_slot_hides_later_policies :
  forall (settings : AgentLoop.Settings) (World : Type)
         (env : AgentLoop.Collaborators World) (k : Z),
    (1 <= k <= 100)%Z ->
    (forall w, exists policy w',
       AgentLoop.get_policy env k w = (inr policy, w') /\
       AgentLoop.holder policy = AgentLoop.zero_address) ->
    forall s : AgentLoop.State World,
    exists new,
      AgentLoop.trace (snd (AgentLoop._cycle settings env s))
      = AgentLoop.trace s ++ new /\
      forall p, In p (AgentLoop.submitted new) -> (1 <= p < k)%Z.
Proof.
  intros settings World env k Hk Hempty s.
  destruct (policy_ids_split k Hk) as (l1 & l2 & Hids & Hl1).
  apply (cycle_pays_only settings env (fun p => (1 <= p < k)%Z)).
  intros _ cv vol. rewrite Hids.
  apply (scan_until settings env _ k Hempty). exact Hl1.
Qed.

(** X15 on the healthy chain, where policy 2 has no holder: the one payment
    of the cycle is for policy 1. *)
Lemma X15_empty_slot_hides_later_policies_witness :
  AgentLoop.submitted
    (AgentLoop.trace
       (snd (AgentLoop._cycle AgentLoop.defaults AgentLoop.healthy
               AgentLoop.started)))
  = [1%Z] /\
  exists new,
    AgentLoop.trace
      (snd (AgentLoop._cycle AgentLoop.defaults AgentLoop.healthy
              AgentLoop.started))
    = AgentLoop.trace AgentLoop.started ++ new /\
    forall p, In p (AgentLoop.submitted new) -> (1 <= p < 2)%Z.
Proof.
  split; [vm_compute; reflexivity|].
  assert (Hk : (1 <= 2 <= 100)%Z) by lia.
  apply (X15_empty_slot_hides_later_policies AgentLoop.defaults unit
           AgentLoop.healthy 2%Z Hk).
  intros w. eexists. exists w. split; reflexivity.
Defined.

(** ** The readings of the volatility oracle *)

Lemma int_lt_iff (x : Q) (n : Z) :
  (0 < n)%Z -> (Py.int x < n)%Z <-> x < inject_Z n.
Proof.
  intros Hn. split.
  - intros H. apply Qnot_le_lt. intros Hle.
    assert (H0 : 0 <= x).
    { eapply Qle_trans; [| exact Hle].
      change 0 with (inject_Z 0). rewrite <- Zle_Qle. lia. }
    pose proof (int_ge x n Hle H0). lia.
  - intros H.
    assert (Hi : (Py.int x <= n - 1)%Z).
    { apply int_le; [lia|]. replace (n - 1 + 1)%Z with n by lia. exact H. }
    lia.
Qed.

Lemma regime_of_cases (value_bps : Z) :
  (VolatilityOracle.regime_of value_bps = "calm"%string
   <-> (value_bps < 2000)%Z) /\
  (VolatilityOracle.regime_of value_bps = "elevated"%string
   <-> (2000 <= value_bps < 5000)%Z) /\
  (VolatilityOracle.regime_of value_bps = "stress"%string
   <-> (5000 <= value_bps < 7500)%Z) /\
  (VolatilityOracle.regime_of value_bps = "black_swan"%string
   <-> (7500 <= value_bps)%Z).
Proof.
  unfold VolatilityOracle.regime_of.
  destruct (Z.ltb_spec value_bps 2000);
    [| destruct (Z.ltb_spec value_bps 5000);
       [| destruct (Z.ltb_spec value_bps 7500)]];
    repeat split; intros; try lia; try reflexivity; discriminate.
Qed.

(** What [_vol_to_reading] makes of a volatility in percent. *)
Lemma vol_to_reading_spec :
  forall (World : Type) (env : VolatilityOracle.Outside World)
         (vol_pct : Q) (source : string) (w : World),
    let r := fst (VolatilityOracle._vol_to_reading env vol_pct source w) in
    VolatilityOracle.value_bps r = Py.imin (Py.int (vol_pct * 100)) 10000 /\
    VolatilityOracle.realized_vol_pct r = vol_pct /\
    VolatilityOracle.source r = source /\
    VolatilityOracle.timestamp r = fst (VolatilityOracle.time env w) /\
    (VolatilityOracle.value_bps r <= 10000)%Z /\
    (VolatilityOracle.value_bps r = 10000%Z <-> 100 <= vol_pct) /\
    (0 <= vol_pct -> (0 <= VolatilityOracle.value_bps r)%Z) /\
    (vol_pct <= 0 -> (VolatilityOracle.value_bps r <= 0)%Z) /\
    (VolatilityOracle.regime r = "calm"%string <-> vol_pct < 20) /\
    (VolatilityOracle.regime r = "elevated"%string
     <-> 20 <= vol_pct /\ vol_pct < 50) /\
    (VolatilityOracle.regime r = "stress"%string
     <-> 50 <= vol_pct /\ vol_pct < 75) /\
    (VolatilityOracle.regime r = "black_swan"%string <-> 75 <= vol_pct).
Proof.
  intros World env vol_pct source w r. subst r.
  unfold VolatilityOracle._vol_to_reading.
  destruct (VolatilityOracle.time env w) as [now w'].
  cbn [fst VolatilityOracle.realized_vol_pct VolatilityOracle.source
       VolatilityOracle.timestamp VolatilityOracle.value_bps
       VolatilityOracle.regime].
  set (i := Py.int (vol_pct * 100)).
  assert (Hlt : forall n : Z, (0 < n)%Z ->
            (i < n)%Z <-> vol_pct < inject_Z n / 100).
  { intros n Hn. unfold i. rewrite (int_lt_iff _ n Hn).
    assert (E : inject_Z n / 100 == inject_Z n * (1 # 100)) by field.
    rewrite E. split; intros H; lra. }
  pose proof (Hlt 2000%Z eq_refl) as H20.
  pose proof (Hlt 5000%Z eq_refl) as H50.
  pose proof (Hlt 7500%Z eq_refl) as H75.
  pose proof (Hlt 10000%Z eq_refl) as H100.
  change (inject_Z 2000 / 100) with (2000 / 100) in H20.
  change (inject_Z 5000 / 100) with (5000 / 100) in H50.
  change (inject_Z 7500 / 100) with (7500 / 100) in H75.
  change (inject_Z 10000 / 100) with (10000 / 100) in H100.
  assert (E20 : 2000 / 100 == 20) by reflexivity.
  assert (E50 : 5000 / 100 == 50) by reflexivity.
  assert (E75 : 7500 / 100 == 75) by reflexivity.
  assert (E100 : 10000 / 100 == 100) by reflexivity.
  rewrite E20 in H20. rewrite E50 in H50. rewrite E75 in H75.
  rewrite E100 in H100.
  destruct (regime_of_cases (Py.imin i 10000)) as (Rc & Re & Rs & Rb).
  unfold Py.imin in *.
  assert (Hnot : forall a b : Q, ~ a < b <-> b <= a).
  { intros a b. split; [apply Qnot_lt_le | intros H H'; lra]. }
  assert (Hge : forall (n : Z) (q : Q),
            ((i < n)%Z <-> vol_pct < q) -> ((n <= i)%Z <-> q <= vol_pct)).
  { intros n q H. rewrite <- Hnot, <- H. lia. }
  pose proof (Hge _ _ H20) as G20. pose proof (Hge _ _ H50) as G50.
  pose proof (Hge _ _ H75) as G75. pose proof (Hge _ _ H100) as G100.
  repeat split; try reflexivity; try lia.
  - intros H. apply G100. lia.
  - intros H. apply G100 in H. lia.
  - intros H. unfold i. rewrite int_nonneg by lra.
    assert (H0 : (0 <= Qfloor (vol_pct * 100))%Z)
      by (apply floor_nonneg; lra).
    lia.
  - intros H. unfold i.
    assert (Hi : (Py.int (vol_pct * 100) <= 0)%Z) by (apply int_nonpos; lra).
    lia.
  - intros H. apply H20. apply Rc in H. lia.
  - intros H. apply Rc. apply H20 in H. lia.
  - apply G20. apply Re in H. lia.
  - apply H50. apply Re in H. lia.
  - intros [H1 H2]. apply Re. apply G20 in H1. apply H50 in H2. lia.
  - apply G50. apply Rs in H. lia.
  - apply H75. apply Rs in H. lia.
  - intros [H1 H2]. apply Rs. apply G50 in H1. apply H75 in H2. lia.
  - intros H. apply G75. apply Rb in H. lia.
  - intros H. apply Rb. apply G75 in H. lia.
Qed.

(** X16: a reading made from a volatility in percent is never above
    10000 bps, and 10000 exactly from 100% on; it is not bounded below, a
    negative volatility giving a value that is not positive.  The regime
    follows the volatility itself: calm below 20%, elevated from 20% to below
    50%, stress from 50% to below 75%, black swan from 75% on. *)
Theorem X16_regime_follows_volatility :
  forall (World : Type) (env : VolatilityOracle.Outside World)
         (vol_pct : Q) (source : string) (w : World),
    let r := fst (VolatilityOracle._vol_to_reading env vol_pct source w) in
    VolatilityOracle.realized_vol_pct r = vol_pct /\
    VolatilityOracle.source r = source /\
    VolatilityOracle.timestamp r = fst (VolatilityOracle.time env w) /\
    (VolatilityOracle.value_bps r <= 10000)%Z /\
    (VolatilityOracle.value_bps r = 10000%Z <-> 100 <= vol_pct) /\
    (0 <= vol_pct -> (0 <= VolatilityOracle.value_bps r)%Z) /\
    (vol_pct <= 0 -> (VolatilityOracle.value_bps r <= 0)%Z) /\
    (VolatilityOracle.regime r = "calm"%string <-> vol_pct < 20) /\
    (VolatilityOracle.regime r = "elevated"%string
     <-> 20 <= vol_pct /\ vol_pct < 50) /\
    (VolatilityOracle.regime r = "stress"%string
     <-> 50 <= vol_pct /\ vol_pct < 75) /\
    (VolatilityOracle.regime r = "black_swan"%string <-> 75 <= vol_pct).
Proof.
  intros World env vol_pct source w r.
  exact (proj2 (vol_to_reading_spec World env vol_pct source w)).
Qed.

(** X17: the oracle keeps what it returns.  After every call of
    [get_volatility] the reading returned is the one kept in
    [_last_reading], and a call made while less than [_cache_ttl] seconds
    have passed since the time stamp of that reading returns the same
    reading again, leaves the oracle as it is and asks the outside for the
    time only. *)
Theorem X17_reading_is_cached :
  forall (World : Type) (env : VolatilityOracle.Outside World)
         (self : VolatilityOracle.Oracle) (w : World),
    let '(reading, self', w') :=
      VolatilityOracle.get_volatility env self w in
    VolatilityOracle._last_reading self' = Some reading /\
    VolatilityOracle._cache_ttl self' = VolatilityOracle._cache_ttl self /\
    forall (now : Q) (w'' : World),
      VolatilityOracle.time env w' = (now, w'') ->
      now - VolatilityOracle.timestamp reading
      < VolatilityOracle._cache_ttl self' ->
      VolatilityOracle.get_volatility env self' w' = (reading, self', w'').
Proof.
  intros World env self w.
  assert (Hhit : forall (o : VolatilityOracle.Oracle)
                        (r : VolatilityOracle.VolatilityReading) (w1 w2 : World)
                        (now : Q),
            VolatilityOracle._last_reading o = Some r ->
            VolatilityOracle.time env w1 = (now, w2) ->
            now - VolatilityOracle.timestamp r < VolatilityOracle._cache_ttl o ->
            VolatilityOracle.get_volatility env o w1 = (r, o, w2)).
  { intros o r w1 w2 now Hlast Htime Hfresh.
    unfold VolatilityOracle.get_volatility. rewrite Htime, Hlast.
    rewrite (proj2 (Qle_bool_false _ _) Hfresh). reflexivity. }
  assert (Hrefresh : forall w0,
            let '(reading, self', w') := VolatilityOracle.refresh env self w0 in
            VolatilityOracle._last_reading self' = Some reading /\
            VolatilityOracle._cache_ttl self' = VolatilityOracle._cache_ttl self /\
            forall (now : Q) (w'' : World),
              VolatilityOracle.time env w' = (now, w'') ->
              now - VolatilityOracle.timestamp reading
              < VolatilityOracle._cache_ttl self' ->
              VolatilityOracle.get_volatility env self' w'
              = (reading, self', w'')).
  { intros w0. unfold VolatilityOracle.refresh.
    destruct (match VolatilityOracle._fetch_coingecko env w0 with
              | (inl _, w') => VolatilityOracle._mock_reading env w'
              | (inr reading, w') => (reading, w')
              end) as [reading w'].
    split; [reflexivity|]. split; [reflexivity|].
    intros now w'' Htime Hfresh.
    apply (Hhit _ reading w' w'' now); [reflexivity | exact Htime | exact Hfresh]. }
  unfold VolatilityOracle.get_volatility.
  destruct (VolatilityOracle.time env w) as [now0 w0].
  destruct (VolatilityOracle._last_reading self) as [last|] eqn:Hlast;
    [| apply Hrefresh].
  destruct (negb (Qle_bool (VolatilityOracle._cache_ttl self)
                    (now0 - VolatilityOracle.timestamp last)));
    [| apply Hrefresh].
  split; [exact Hlast|]. split; [reflexivity|].
  intros now w'' Htime Hfresh.
  apply (Hhit self last w0 w'' now); assumption.
Qed.

(** X18: when the price API fails and no fresh reading is kept, the oracle
    answers with a reading made from a random volatility between 30% and
    80%: its source is "mock", its value between 3000 and 8000 bps and its
    regime never calm; it is kept like any other reading. *)
Theorem X18_api_down_gives_mock_reading :
  forall (World : Type) (env : VolatilityOracle.Outside World)
         (self : VolatilityOracle.Oracle) (w w0 w1 : World)
         (now : Q) (e : Py.exn),
    (forall a b w, a <= b ->
       a <= fst (VolatilityOracle.uniform env a b w) <= b) ->
    VolatilityOracle.time env w = (now, w0) ->
    match VolatilityOracle._last_reading self with
    | Some last =>
        VolatilityOracle._cache_ttl self
        <= now - VolatilityOracle.timestamp last
    | None => True
    end ->
    VolatilityOracle.composite_vol env w0 = (inl e, w1) ->
    let '(reading, self', _) := VolatilityOracle.get_volatility env self w in
    VolatilityOracle.source reading = "mock"%string /\
    (3000 <= VolatilityOracle.value_bps reading <= 8000)%Z /\
    30 <= VolatilityOracle.realized_vol_pct reading <= 80 /\
    VolatilityOracle.regime reading <> "calm"%string /\
    VolatilityOracle._last_reading self' = Some reading.
Proof.
  intros World env self w w0 w1 now e Huniform Htime Hstale Hfail.
  assert (Hrefresh : VolatilityOracle.get_volatility env self w
                     = VolatilityOracle.refresh env self w0).
  { unfold VolatilityOracle.get_volatility. rewrite Htime.
    destruct (VolatilityOracle._last_reading self) as [last|]; [| reflexivity].
    apply Qle_bool_iff in Hstale. rewrite Hstale. reflexivity. }
  rewrite Hrefresh.
  unfold VolatilityOracle.refresh, VolatilityOracle._fetch_coingecko.
  rewrite Hfail. unfold VolatilityOracle._mock_reading.
  assert (H3080 : 30 <= 80) by discriminate.
  pose proof (Huniform 30 80 w1 H3080) as Hvol.
  destruct (VolatilityOracle.uniform env 30 80 w1) as [vol_pct w2].
  cbn [fst] in Hvol.
  pose proof (vol_to_reading_spec World env vol_pct "mock" w2) as H.
  cbv zeta in H.
  destruct (VolatilityOracle._vol_to_reading env vol_pct "mock" w2)
    as [reading w3].
  cbn [fst] in H.
  destruct H as (Hbps & Hpct & Hsrc & _ & _ & _ & _ & _ & Hcalm & _).
  split; [exact Hsrc|]. split; [| split; [| split]].
  - rewrite Hbps.
    assert (Hlo : (3000 <= Py.int (vol_pct * 100))%Z)
      by (apply int_ge; [change (inject_Z 3000) with 3000|]; lra).
    assert (Hhi : (Py.int (vol_pct * 100) <= 8000)%Z)
      by (apply int_le; [lia|]; change (inject_Z (8000 + 1)) with 8001; lra).
    unfold Py.imin. lia.
  - rewrite Hpct. exact Hvol.
  - intros Hc. apply Hcalm in Hc. lra.
  - reflexivity.
Qed.

(** X18 on a fresh oracle with the API down and a generator that returns
    55%: the reading is 5500 bps, in the stress regime, from the mock. *)
Lemma X18_api_down_gives_mock_reading_witness :
  let '(reading, self', _) :=
    VolatilityOracle.get_volatility VolatilityOracle.api_down
      VolatilityOracle.init 0 in
  VolatilityOracle.source reading = "mock"%string /\
  (3000 <= VolatilityOracle.value_bps reading <= 8000)%Z /\
  30 <= VolatilityOracle.realized_vol_pct reading <= 80 /\
  VolatilityOracle.regime reading <> "calm"%string /\
  VolatilityOracle._last_reading self' = Some reading.
Proof.
  apply (X18_api_down_gives_mock_reading Q VolatilityOracle.api_down
           VolatilityOracle.init 0 (0 + 1) (0 + 1) 0 (Py.Error "timeout")).
  - intros a b w Hab. cbn [VolatilityOracle.api_down VolatilityOracle.uniform fst].
    assert (E : (a + b) / 2 == (a + b) * (1 # 2)) by field.
    rewrite E. split; lra.
  - reflexivity.
  - exact I.
  - reflexivity.
Defined.

(** ** The claims store *)

Lemma lookup_assign_same (d : list (Z * ClaimsBot.Claim)) (k : Z)
    (v : ClaimsBot.Claim) :
  ClaimsBot.lookup (ClaimsBot.assign d k v) k = Some v.
Proof.
  induction d as [|[k' v'] d IH]; simpl.
  - rewrite Z.eqb_refl. reflexivity.
  - destruct (k' =? k)%Z eqn:E; simpl; rewrite E; [reflexivity | exact IH].
Qed.

Lemma lookup_assign_other (d : list (Z * ClaimsBot.Claim)) (k k' : Z)
    (v : ClaimsBot.Claim) :
  k' <> k ->
  ClaimsBot.lookup (ClaimsBot.assign d k v) k' = ClaimsBot.lookup d k'.
Proof.
  intros Hne. induction d as [|[k0 v0] d IH]; simpl.
  - replace (k =? k')%Z with false by (symmetry; apply Z.eqb_neq; lia).
    reflexivity.
  - destruct (k0 =? k)%Z eqn:E; simpl.
    + apply Z.eqb_eq in E. subst k0.
      replace (k =? k')%Z with false by (symmetry; apply Z.eqb_neq; lia).
      reflexivity.
    + destruct (k0 =? k')%Z; [reflexivity | exact IH].
Qed.

Lemma assign_Forall (P : Z * ClaimsBot.Claim -> Prop)
    (d : list (Z * ClaimsBot.Claim)) (k : Z) (v : ClaimsBot.Claim) :
  (forall v', P (k, v') -> P (k, v)) -> P (k, v) ->
  Forall P d -> Forall P (ClaimsBot.assign d k v).
Proof.
  intros Hsame Hv. induction 1 as [|[k' v'] d Hx Hd IH]; simpl.
  - repeat constructor. exact Hv.
  - destruct (k' =? k)%Z eqn:E.
    + apply Z.eqb_eq in E. subst k'. constructor; [exact Hv | exact Hd].
    + constructor; [exact Hx | exact IH].
Qed.

(** X19: a claim that was submitted can be read back.  [submit_claim]
    answers with the next free number and the status "pending_validation";
    asking for the status of that number then returns the claim with the
    policy, amount, evidence and time stamp that were submitted, the answers
    for all other numbers are what they were, and the next number is one
    higher. *)
Theorem X19_submitted_claim_reads_back :
  forall (policy_id : Z) (requested_amount : Q)
         (evidence incident_timestamp : string) (st : ClaimsBot.Store),
    let '(receipt, st') :=
      ClaimsBot.submit_claim policy_id requested_amount evidence
        incident_timestamp st in
    ClaimsBot.receipt_claim_id receipt = ClaimsBot._next_claim_id st /\
    ClaimsBot.receipt_status receipt = "pending_validation"%string /\
    ClaimsBot._next_claim_id st' = (ClaimsBot._next_claim_id st + 1)%Z /\
    ClaimsBot.get_claim_status (ClaimsBot.receipt_claim_id receipt) st'
    = inr {| ClaimsBot.claim_id := ClaimsBot._next_claim_id st;
             ClaimsBot.policy_id := policy_id;
             ClaimsBot.requested_amount := requested_amount;
             ClaimsBot.evidence := evidence;
             ClaimsBot.incident_timestamp := incident_timestamp;
             ClaimsBot.status := "pending_validation";
             ClaimsBot.validation_request_id := None |} /\
    forall id,
      id <> ClaimsBot.receipt_claim_id receipt ->
      ClaimsBot.get_claim_status id st' = ClaimsBot.get_claim_status id st.
Proof.
  intros policy_id requested_amount evidence incident_timestamp st.
  unfold ClaimsBot.submit_claim, ClaimsBot.get_claim_status.
  cbn [ClaimsBot.receipt_claim_id ClaimsBot.receipt_status
       ClaimsBot._next_claim_id ClaimsBot._pending_claims].
  rewrite lookup_assign_same. repeat split.
  intros id Hid. rewrite lookup_assign_other by exact Hid. reflexivity.
Qed.

Lemma serve_consistent (r : ClaimsBot.Request) (st : ClaimsBot.Store) :
  ClaimsBot.consistent st ->
  ClaimsBot.consistent (ClaimsBot.serve r st) /\
  ClaimsBot._next_claim_id (ClaimsBot.serve r st)
  = (ClaimsBot._next_claim_id st + ClaimsBot.submissions [r])%Z.
Proof.
  intros (Hnext & Hall & Hdom).
  destruct r as [pid amt ev ts | id | ]; simpl;
    [| split; [exact (conj Hnext (conj Hall Hdom)) | lia]
     | split; [exact (conj Hnext (conj Hall Hdom)) | lia]].
  split; [| lia].
  unfold ClaimsBot.consistent, ClaimsBot.submit_claim.
  cbn [snd ClaimsBot._next_claim_id ClaimsBot._pending_claims].
  set (n := ClaimsBot._next_claim_id st) in *.
  split; [lia|]. split.
  - apply assign_Forall; [| | exact Hall].
    + intros v' _. repeat split.
    + repeat split.
  - intros id. destruct (Z.eq_dec id n) as [->|Hne].
    + rewrite lookup_assign_same. split; [eexists; reflexivity | lia].
    + rewrite lookup_assign_other by exact Hne. rewrite <- Hdom. lia.
Qed.

Lemma serve_all_consistent (rs : list ClaimsBot.Request) :
  forall st,
    ClaimsBot.consistent st ->
    ClaimsBot.consistent (ClaimsBot.serve_all rs st) /\
    ClaimsBot._next_claim_id (ClaimsBot.serve_all rs st)
    = (ClaimsBot._next_claim_id st + ClaimsBot.submissions rs)%Z.
Proof.
  unfold ClaimsBot.serve_all.
  induction rs as [|r rs IH]; intros st Hst; cbn [fold_left].
  - split; [exact Hst | cbn [ClaimsBot.submissions]; lia].
  - destruct (serve_consistent r st Hst) as [H1 N1].
    destruct (IH _ H1) as [H2 N2]. split; [exact H2|].
    rewrite N2, N1. destruct r; cbn [ClaimsBot.submissions]; lia.
Qed.

Lemma lookup_In (d : list (Z * ClaimsBot.Claim)) (k : Z) (v : ClaimsBot.Claim) :
  ClaimsBot.lookup d k = Some v -> In (k, v) d.
Proof.
  induction d as [|[k' v'] d IH]; simpl; [discriminate|].
  destruct (k' =? k)%Z eqn:E.
  - apply Z.eqb_eq in E. intros H. inversion H. subst. left. reflexivity.
  - intros H. right. apply IH. exact H.
Qed.

(** X20: whatever requests the server has served since it started, the
    store holds exactly the claims number 0 up to the number of submissions,
    a number outside that range is answered with "Claim not found", and
    every claim is still as it was submitted: pending validation and without
    a validation request.  So [process_pending_claims] finds no claim to
    check: no claim ever leaves the pending state. *)
Theorem X20_claims_stay_pending :
  forall rs : list ClaimsBot.Request,
    let st := ClaimsBot.serve_all rs ClaimsBot.empty in
    ClaimsBot._next_claim_id st = ClaimsBot.submissions rs /\
    (forall id,
       (0 <= id < ClaimsBot.submissions rs)%Z ->
       exists claim,
         ClaimsBot.get_claim_status id st = inr claim /\
         ClaimsBot.claim_id claim = id /\
         ClaimsBot.status claim = "pending_validation"%string /\
         ClaimsBot.validation_request_id claim = None) /\
    (forall id,
       ~ (0 <= id < ClaimsBot.submissions rs)%Z ->
       ClaimsBot.get_claim_status id st = inl "Claim not found"%string) /\
    ClaimsBot.process_pending_claims st = [].
Proof.
  intros rs st.
  assert (Hempty : ClaimsBot.consistent ClaimsBot.empty).
  { split; [simpl; lia|]. split; [constructor|].
    intros id. simpl. split; [lia | intros [c H]; discriminate]. }
  destruct (serve_all_consistent rs ClaimsBot.empty Hempty)
    as [(Hnext & Hall & Hdom) Hn].
  fold st in Hnext, Hall, Hdom, Hn. simpl in Hn.
  split; [exact Hn|]. rewrite <- Hn. split; [| split].
  - intros id Hid. apply Hdom in Hid. destruct Hid as [claim Hc].
    exists claim. unfold ClaimsBot.get_claim_status. rewrite Hc.
    split; [reflexivity|].
    apply lookup_In in Hc.
    rewrite Forall_forall in Hall. exact (Hall _ Hc).
  - intros id Hid. unfold ClaimsBot.get_claim_status.
    destruct (ClaimsBot.lookup (ClaimsBot._pending_claims st) id) as [c|] eqn:E;
      [| reflexivity].
    exfalso. apply Hid. apply Hdom. exists c. exact E.
  - unfold ClaimsBot.process_pending_claims. clear Hdom.
    induction Hall as [|[id claim] d (_ & _ & Hv) _ IH]; [reflexivity|].
    simpl. rewrite Hv. simpl. rewrite andb_false_r. exact IH.
Qed.

(** ** A loop with auto-claim switched off *)

Section AutoClaimOff.

Import AgentLoop.
Import Ledger.

Variable settings : Settings.
Context {World : Type} (env : Collaborators World).

Hypothesis auto_claim_off : auto_claim_enabled settings = false.

Lemma cycle_keeps_claims : keeps claim_counters (_cycle settings env).
Proof.
  unfold _cycle, _update_volatility, update_stats.
  rewrite auto_claim_off. frame.
Qed.

Lemma run_once_keeps_claims : keeps claim_counters (run_once settings env).
Proof.
  pose proof cycle_keeps_claims as Hc.
  unfold run_once, stop, set_running, update_stats.
  generalize dependent (_cycle settings env). intros cyc Hc.
  apply keeps_bind; [| intros _; frame].
  apply keeps_try_except; [exact Hc | intros e; frame].
Qed.

Lemma start_keeps_claims (fuel : nat) :
  keeps claim_counters (start settings env fuel).
Proof.
  pose proof run_once_keeps_claims as Ho.
  unfold start, set_running.
  apply keeps_bind; [frame | intros _].
  induction fuel as [|fuel IH]; cbn [_run]; [apply keeps_ret|].
  apply keeps_bind; [apply keeps_read | intros me].
  apply keeps_if; [| apply keeps_ret].
  apply keeps_bind; [exact Ho | intros _; exact IH].
Qed.

End AutoClaimOff.

(** X21: with [auto_claim_enabled] off the loop never requests a payment:
    over any number of turns after [start], whatever the chain, the oracle
    and the model answer, no claim payment is among the events, and the
    counters of assessed, paid and rejected claims stay as they were. *)
Theorem X21_auto_claim_off_never_pays :
  forall (settings : AgentLoop.Settings) (World : Type)
         (env : AgentLoop.Collaborators World) (fuel : nat)
         (s : AgentLoop.State World),
    AgentLoop.auto_claim_enabled settings = false ->
    let s' := snd (AgentLoop.start settings env fuel s) in
    let stats s := AgentLoop._stats (AgentLoop.self s) in
    (exists new,
       AgentLoop.trace s' = AgentLoop.trace s ++ new /\
       AgentLoop.submitted new = []) /\
    AgentLoop.claims_assessed (stats s') = AgentLoop.claims_assessed (stats s) /\
    AgentLoop.claims_paid (stats s') = AgentLoop.claims_paid (stats s) /\
    AgentLoop.claims_rejected (stats s') = AgentLoop.claims_rejected (stats s).
Proof.
  intros settings World env fuel s Hoff s' stats.
  assert (Hpays : Ledger.pays_only (fun _ => False) s s').
  { apply (start_pays_only settings env (fun _ => False) fuel).
    apply cycle_pays_only. rewrite Hoff. discriminate. }
  pose proof (start_keeps_claims settings env Hoff fuel s) as Hkeep.
  fold s' in Hkeep. unfold Ledger.claim_counters in Hkeep.
  injection Hkeep as Ha Hp Hj.
  split; [| unfold stats; auto].
  destruct Hpays as (new & Hnew & Hnone).
  exists new. split; [exact Hnew|].
  destruct (AgentLoop.submitted new) as [|p l] eqn:E; [reflexivity|].
  exfalso. apply (Hnone p). left. reflexivity.
Qed.

(** X21 on the healthy chain, whose policy 1 would be paid: with
    auto-claim off two turns request no payment. *)
Lemma X21_auto_claim_off_never_pays_witness :
  let settings :=
    {| AgentLoop.agent_id := 1; AgentLoop.min_trust_score := 6000;
       AgentLoop.poll_interval_seconds := 60;
       AgentLoop.volatility_update_interval := 300;
       AgentLoop.auto_claim_enabled := false |} in
  AgentLoop.submitted
    (AgentLoop.trace
       (snd (AgentLoop.start AgentLoop.defaults AgentLoop.healthy 2
               AgentLoop.started)))
  = [1%Z; 1%Z] /\
  exists new,
    AgentLoop.trace
      (snd (AgentLoop.start settings AgentLoop.healthy 2 AgentLoop.started))
    = AgentLoop.trace AgentLoop.started ++ new /\
    AgentLoop.submitted new = [].
Proof.
  intros settings. split; [vm_compute; reflexivity|].
  exact (proj1 (X21_auto_claim_off_never_pays settings unit AgentLoop.healthy
                  2%nat AgentLoop.started eq_refl)).
Defined.

(** ** Cycles and errors *)

Section Ticks.

Import AgentLoop.
Import Ledger.

Variable settings : Settings.
Context {World : Type} (env : Collaborators World).

Lemma scan_keeps_ticks (current_vol : Z) (vol : VolatilityReading)
    (ids : list Z) :
  keeps ticks (scan settings env current_vol vol ids).
Proof.
  induction ids as [|id ids IH]; simpl; [apply keeps_ret|].
  apply keeps_bind.
  - unfold scan_policy, _execute_claim, submit_claim, update_stats. frame.
  - intros [|]; [apply keeps_ret | exact IH].
Qed.

(** A cycle counts itself, in both places, and nothing else does. *)
Lemma cycle_ticks (s : State World) :
  ticks (self (snd (_cycle settings env s)))
  = ((_cycle_count (self s) + 1)%Z, (_cycle_count (self s) + 1)%Z).
Proof.
  assert (Hrest : forall k : unit -> M World unit,
            (forall a, keeps ticks (k a)) ->
            forall f,
              ticks (self (snd (bind (update f) k s))) = ticks (f (self s))).
  { intros k Hk f. unfold bind, update. cbn [fst snd]. apply Hk. }
  unfold _cycle. rewrite Hrest; [reflexivity|].
  intros _. unfold _update_volatility, _scan_policies, update_stats.
  apply keeps_bind; [frame | intros trust_score].
  apply keeps_if; [frame|].
  apply keeps_bind; [frame | intros now].
  apply keeps_bind; [frame | intros me].
  apply keeps_bind; [apply keeps_if; frame | intros _].
  apply keeps_if; [| frame].
  apply keeps_bind; [frame | intros current_vol].
  apply keeps_bind; [frame | intros vol].
  apply scan_keeps_ticks.
Qed.

(** One turn: one cycle more, at most one error more. *)
Lemma turn_ticks (s : State World) :
  exists s',
    run_once settings env s = (inr tt, s') /\
    _cycle_count (self s') = (_cycle_count (self s) + 1)%Z /\
    cycles (_stats (self s')) = _cycle_count (self s') /\
    (errors (_stats (self s)) <= errors (_stats (self s'))
     <= errors (_stats (self s)) + 1)%Z /\
    ((forall seconds w, fst (sleep env seconds w) = false) ->
     _running (self s') = _running (self s)).
Proof.
  pose proof (cycle_ticks s) as Ht.
  pose proof (cycle_guarded settings env s) as Hg.
  unfold ticks in Ht. unfold guarded in Hg.
  injection Ht as Hcount Hcycles. injection Hg as Herr Hrun.
  unfold run_once, bind, try_except, update_stats, update, emit, call, stop,
    set_running, ret.
  destruct (_cycle settings env s) as [[e|[]] s1]; cbn [fst snd] in *;
    cbn [self world trace];
    destruct (sleep env (poll_interval_seconds settings) (world s1))
      as [[|] w2] eqn:Es;
    eexists; (split; [reflexivity|]); cbn;
    rewrite ?Hcount, ?Hcycles, ?Herr, ?Hrun;
    (split; [reflexivity|]); (split; [reflexivity|]); (split; [lia|]);
    intros Hnever; try reflexivity;
    specialize (Hnever (poll_interval_seconds settings) (world s1));
    rewrite Es in Hnever; discriminate.
Qed.

Lemma run_ticks (fuel : nat) :
  forall s : State World,
  exists n s',
    _run settings env fuel s = (inr tt, s') /\
    (n <= fuel)%nat /\
    _cycle_count (self s') = (_cycle_count (self s) + Z.of_nat n)%Z /\
    (errors (_stats (self s)) <= errors (_stats (self s'))
     <= errors (_stats (self s)) + Z.of_nat n)%Z /\
    (cycles (_stats (self s)) = _cycle_count (self s) \/ (0 < n)%nat ->
     cycles (_stats (self s')) = _cycle_count (self s')) /\
    (_running (self s) = true ->
     (forall seconds w, fst (sleep env seconds w) = false) -> n = fuel).
Proof.
  induction fuel as [|fuel IH]; intros s.
  - exists 0%nat, s. cbn [_run]. unfold ret.
    split; [reflexivity|]. split; [lia|]. split; [simpl; lia|].
    split; [simpl; lia|]. split; [intros [H|H]; [exact H | lia] | reflexivity].
  - cbn [_run]. unfold bind at 1, read. destruct (_running (self s)) eqn:Erun.
    + unfold bind.
      destruct (turn_ticks s) as (s1 & Hturn & C1 & Y1 & E1 & R1).
      rewrite Hturn.
      destruct (IH s1) as (n & s' & -> & Hn & C & E & Y & Hall).
      exists (S n), s'. split; [reflexivity|]. split; [lia|].
      split; [lia|]. split; [lia|]. split.
      * intros _. apply Y. left. exact Y1.
      * intros _ Hnever. f_equal. apply Hall; [| exact Hnever].
        rewrite (R1 Hnever). exact Erun.
    + exists 0%nat, s. unfold ret.
      split; [reflexivity|]. split; [lia|]. split; [simpl; lia|].
      split; [simpl; lia|].
      split; [intros [H|H]; [exact H | lia] | intros H; discriminate].
Qed.

End Ticks.

(** X22: every turn of the loop counts one cycle, whether the cycle failed
    or not, and at most one error.  Over any number of turns after [start],
    [_cycle_count] grows by the number [n] of turns made, [errors] grows by
    at most [n], and once a turn was made the [cycles] entry of the
    statistics equals [_cycle_count].  When no [stop] arrives the loop makes
    every turn it is given. *)
Theorem X22_every_turn_counts_one_cycle :
  forall (settings : AgentLoop.Settings) (World : Type)
         (env : AgentLoop.Collaborators World) (fuel : nat)
         (s : AgentLoop.State World),
    let s' := snd (AgentLoop.start settings env fuel s) in
    let stats s := AgentLoop._stats (AgentLoop.self s) in
    exists n,
      (n <= fuel)%nat /\
      AgentLoop._cycle_count (AgentLoop.self s')
      = (AgentLoop._cycle_count (AgentLoop.self s) + Z.of_nat n)%Z /\
      (AgentLoop.errors (stats s) <= AgentLoop.errors (stats s')
       <= AgentLoop.errors (stats s) + Z.of_nat n)%Z /\
      ((0 < n)%nat ->
       AgentLoop.cycles (stats s') = AgentLoop._cycle_count (AgentLoop.self s')) /\
      ((forall seconds w, fst (AgentLoop.sleep env seconds w) = false) ->
       n = fuel).
Proof.
  intros settings World env fuel s.
  destruct (run_ticks settings env fuel (snd (AgentLoop.set_running true s)))
    as (n & s1 & Hrun & Hn & C & E & Y & Hall).
  assert (Hs : snd (AgentLoop.start settings env fuel s) = s1).
  { unfold AgentLoop.start, AgentLoop.bind.
    change (AgentLoop.set_running true s)
      with (@inr Py.exn unit tt, snd (AgentLoop.set_running true s)).
    cbv beta iota. rewrite Hrun. reflexivity. }
  cbv zeta. rewrite Hs. exists n.
  split; [exact Hn|]. split; [exact C|]. split; [exact E|].
  split; [intros H; apply Y; right; exact H|].
  intros Hnever. apply Hall; [reflexivity | exact Hnever].
Qed.

(** ** The tiers of the rebalancing plan *)

(** X23: the plan of the rebalancer has the three tiers of its thresholds:
    the emergency allocation from 80 on, the defensive one from 60 to 79 and
    the cautious one below 60.  In each the shares of USDC, USDT, DAI and ETH
    are between 0 and 1 and add up to 1, and the ETH share never goes up
    when the risk level does.  The plan lists at most three signals.  The
    monitor loop asks for a plan only from 80 on, so a plan made for it is
    always the emergency one, with no ETH left. *)
Theorem X23_rebalance_tiers :
  forall (r1 r2 : Z) (signals1 signals2 : Py.dict Z),
    (r1 <= r2)%Z ->
    let p1 := Rebalancer.trigger_defensive_rebalance r1 signals1 in
    let p2 := Rebalancer.trigger_defensive_rebalance r2 signals2 in
    Rebalancer.triggered_at_risk_level p1 = r1 /\
    Py.keys (Rebalancer.target_allocation p1)
    = ["USDC"; "USDT"; "DAI"; "ETH"]%string /\
    Py.sum (Py.values (Rebalancer.target_allocation p1)) == 1 /\
    Forall (fun share => 0 <= share <= 1)
      (Py.values (Rebalancer.target_allocation p1)) /\
    (List.length (Rebalancer.top_risk_signals p1) <= 3)%nat /\
    (exists eth1 eth2,
       Py.dict_get (Rebalancer.target_allocation p1) "ETH" = Some eth1 /\
       Py.dict_get (Rebalancer.target_allocation p2) "ETH" = Some eth2 /\
       eth2 <= eth1 /\
       (eth1 == 0 <-> (80 <= r1)%Z) /\
       (eth1 == 30 # 100 <-> (60 <= r1 < 80)%Z) /\
       (eth1 == 65 # 100 <-> (r1 < 60)%Z)) /\
    (forall risk : RiskEngine.CompositeRisk,
       In (Monitor.Rebalance r1) (Monitor.on_risk risk) ->
       Rebalancer.action p1 = "EMERGENCY: Full flight to stablecoins"%string /\
       Py.dict_get (Rebalancer.target_allocation p1) "ETH" = Some 0).
Proof.
  intros r1 r2 signals1 signals2 Hle p1 p2. subst p1 p2.
  unfold Rebalancer.trigger_defensive_rebalance,
    Rebalancer.RISK_THRESHOLDS_emergency, Rebalancer.RISK_THRESHOLDS_defensive.
  assert (Hlen : forall signals : Py.dict Z,
            (List.length
               (map (fun '(k, v) =>
                       (k ++ ": " ++ Rebalancer.str v ++ "/100")%string)
                    (Rebalancer.top_entries signals)) <= 3)%nat).
  { intros signals. rewrite length_map. unfold Rebalancer.top_entries.
    apply firstn_le_length. }
  assert (Hmon : forall risk : RiskEngine.CompositeRisk,
            In (Monitor.Rebalance r1) (Monitor.on_risk risk) -> (80 <= r1)%Z).
  { intros risk. unfold Monitor.on_risk.
    destruct (Z.leb_spec 80 (RiskEngine.risk_level risk)) as [H80|H80].
    - simpl. intros [E|[E|[E|[]]]]; try discriminate. injection E as <-.
      exact H80.
    - destruct (60 <=? RiskEngine.risk_level risk)%Z; simpl;
        intuition discriminate. }
  destruct (Z.leb_spec 80 r1) as [H1|H1];
    [| destruct (Z.leb_spec 60 r1) as [H1'|H1']];
    (destruct (Z.leb_spec 80 r2) as [H2|H2];
     [| destruct (Z.leb_spec 60 r2) as [H2'|H2']]); try lia;
    cbn [Rebalancer.triggered_at_risk_level Rebalancer.target_allocation
         Rebalancer.top_risk_signals Rebalancer.action];
    (split; [reflexivity|]); (split; [reflexivity|]);
    (split; [reflexivity|]);
    (split; [repeat constructor; discriminate|]);
    (split; [apply Hlen|]);
    (split;
     [do 2 eexists; split; [reflexivity|]; split; [reflexivity|];
      split; [discriminate|];
      repeat split; intros; try lia; try reflexivity; try discriminate
     | intros risk Hin; specialize (Hmon risk Hin);
       try lia; split; reflexivity]).
Qed.

(** X23 between the levels 65 and 85: the ETH share goes from 0.30 to 0. *)
Lemma X23_rebalance_tiers_witness :
  Py.dict_get
    (Rebalancer.target_allocation
       (Rebalancer.trigger_defensive_rebalance 65 [])) "ETH"
  = Some (30 # 100) /\
  Py.dict_get
    (Rebalancer.target_allocation
       (Rebalancer.trigger_defensive_rebalance 85 [])) "ETH"
  = Some 0 /\
  Py.sum (Py.values (Rebalancer.target_allocation
                       (Rebalancer.trigger_defensive_rebalance 65 []))) == 1.
Proof.
  assert (Hle : (65 <= 85)%Z) by lia.
  split; [reflexivity|]. split; [reflexivity|].
  exact (proj1 (proj2 (proj2 (X23_rebalance_tiers 65 85 [] [] Hle)))).
Defined.
